(** * Cognito user pool client resource: lifecycle, codec and import

    A shallow embedding of [aws/resource_aws_cognito_user_pool_client.go]:
    the resource schema, the four lifecycle functions (Create, Read, Update,
    Delete), the importer and the two analytics-configuration codecs, together
    with the properties of the reconciliation core that the specification
    states about them.

    Conventions.
    - A Go pointer [*T] is an [option T]; [nil] is [None].
    - A [*schema.Set] of strings is a [gset string]; the wire type
      [[]*string] is an [option (list string)] ([None] is the nil slice).
    - [schema.ResourceData] is a record with one optional field per schema
      attribute ([None]: the attribute is not set) plus the resource id.
    - The transport (the [cognitoidpconn] member of the provider's
      [AWSClient]) is a record of functions over an abstract remote state;
      lifecycle functions run in a state monad over that state and a trace of
      the calls and log lines they emit. *)

From Stdlib Require Import ZArith.
From Stdlib Require Ascii String.
From stdpp Require Import base option list strings pretty gmap.

(** The separator of the import identifier. *)
Definition slash : Ascii.ascii := Ascii.ascii_of_nat 47.

(** ** Go and AWS SDK helpers *)

(** The zero value of a Go type ([schema.ValueType.Zero]). *)
Class Zero (A : Type) := zero : A.

#[global] Instance string_zero : Zero string := EmptyString.
#[global] Instance bool_zero : Zero bool := false.
#[global] Instance Z_zero : Zero Z := 0%Z.
#[global] Instance gset_zero : Zero (gset string) := (∅ : gset string).
#[global] Instance list_zero {A} : Zero (list A) := @nil A.

(** [aws.String], [aws.Bool], [aws.Int64]: take the address of a value. *)
Definition aws_String : string → option string := Some.
Definition aws_Bool : bool → option bool := Some.
Definition aws_Int64 : Z → option Z := Some.

(** [aws.StringValue], [aws.BoolValue]: dereference, zero on nil. *)
Definition aws_StringValue (p : option string) : string := default EmptyString p.
Definition aws_BoolValue (p : option bool) : bool := default false p.

(** [strings.Contains]. *)
Fixpoint Contains (s substr : string) : bool :=
  String.prefix substr s ||
  match s with
  | EmptyString => false
  | String _ s' => Contains s' substr
  end.

(** [strings.Split(s, sep)] for a one-byte separator: the pieces between
    consecutive separators, empty pieces included; the empty string splits
    into one empty piece. *)
Fixpoint Split (s : string) (sep : Ascii.ascii) : list string :=
  match s with
  | EmptyString => [EmptyString]
  | String c s' =>
      if Ascii.eqb c sep then EmptyString :: Split s' sep
      else match Split s' sep with
           | [] => [String c EmptyString]
           | p :: ps => String c p :: ps
           end
  end.

(** ** Errors *)

(** A Go [error] is either an [awserr.Error] with a machine-readable code, or
    a plain error built by [fmt.Errorf]. *)
Inductive error : Type :=
  | AwsErr (code message : string)
  | Errorf (msg : string).

#[global] Instance error_eq_dec : EqDecision error.
Proof. solve_decision. Defined.

(** [err.Error()] *)
Definition Error (e : error) : string :=
  match e with
  | AwsErr code message => code +:+ ": " +:+ message
  | Errorf msg => msg
  end.

(** [cognitoidentityprovider.ErrCodeResourceNotFoundException] *)
Definition ErrCodeResourceNotFoundException : string :=
  "ResourceNotFoundException".

(** Modelled from the spec: the helper [isAWSErr] lives in the provider's
    [awserr.go], outside the files at hand.  The transport error "carries a
    machine-readable kind"; [isAWSErr err code message] holds when [err] is an
    AWS error of that code whose message contains [message]. *)
Definition isAWSErr (err : error) (code message : string) : bool :=
  match err with
  | AwsErr c m => bool_decide (c = code) && Contains m message
  | Errorf _ => false
  end.

(** A Go [(value, error)] result. *)
Inductive result (A : Type) : Type :=
  | Ok (a : A)
  | Err (e : error).
Arguments Ok {A} a.
Arguments Err {A} e.

(** ** Wire types of the Cognito identity provider API

    Only the members the resource reads or writes are kept; a member the
    resource never assigns stays nil in Go and carries no information. *)

Module AnalyticsConfigurationType.
Record t : Type := mk {
  ApplicationArn : option string;
  ApplicationId : option string;
  ExternalId : option string;
  RoleArn : option string;
  UserDataShared : option bool }.
End AnalyticsConfigurationType.

#[global] Instance AnalyticsConfigurationType_eq_dec :
  EqDecision AnalyticsConfigurationType.t.
Proof. solve_decision. Defined.

Module CreateUserPoolClientInput.
Record t : Type := mk {
  AllowedOAuthFlows : option (list string);
  AllowedOAuthFlowsUserPoolClient : option bool;
  AllowedOAuthScopes : option (list string);
  AnalyticsConfiguration : option AnalyticsConfigurationType.t;
  CallbackURLs : option (list string);
  ClientName : option string;
  DefaultRedirectURI : option string;
  ExplicitAuthFlows : option (list string);
  GenerateSecret : option bool;
  LogoutURLs : option (list string);
  PreventUserExistenceErrors : option string;
  ReadAttributes : option (list string);
  RefreshTokenValidity : option Z;
  SupportedIdentityProviders : option (list string);
  UserPoolId : option string;
  WriteAttributes : option (list string) }.
End CreateUserPoolClientInput.

Module UpdateUserPoolClientInput.
Record t : Type := mk {
  AllowedOAuthFlows : option (list string);
  AllowedOAuthFlowsUserPoolClient : option bool;
  AllowedOAuthScopes : option (list string);
  AnalyticsConfiguration : option AnalyticsConfigurationType.t;
  CallbackURLs : option (list string);
  ClientId : option string;
  ClientName : option string;
  DefaultRedirectURI : option string;
  ExplicitAuthFlows : option (list string);
  LogoutURLs : option (list string);
  PreventUserExistenceErrors : option string;
  ReadAttributes : option (list string);
  RefreshTokenValidity : option Z;
  SupportedIdentityProviders : option (list string);
  UserPoolId : option string;
  WriteAttributes : option (list string) }.
End UpdateUserPoolClientInput.

Module DescribeUserPoolClientInput.
Record t : Type := mk {
  ClientId : option string;
  UserPoolId : option string }.
End DescribeUserPoolClientInput.

Module DeleteUserPoolClientInput.
Record t : Type := mk {
  ClientId : option string;
  UserPoolId : option string }.
End DeleteUserPoolClientInput.

(** [cognitoidentityprovider.UserPoolClientType], the [UserPoolClient] member
    of the Create, Describe and Update outputs. *)
Module UserPoolClientType.
Record t : Type := mk {
  AllowedOAuthFlows : option (list string);
  AllowedOAuthFlowsUserPoolClient : option bool;
  AllowedOAuthScopes : option (list string);
  AnalyticsConfiguration : option AnalyticsConfigurationType.t;
  CallbackURLs : option (list string);
  ClientId : option string;
  ClientName : option string;
  ClientSecret : option string;
  DefaultRedirectURI : option string;
  ExplicitAuthFlows : option (list string);
  LogoutURLs : option (list string);
  PreventUserExistenceErrors : option string;
  ReadAttributes : option (list string);
  RefreshTokenValidity : option Z;
  SupportedIdentityProviders : option (list string);
  UserPoolId : option string;
  WriteAttributes : option (list string) }.
End UserPoolClientType.

(** ** Resource data *)

(** One element of the [analytics_configuration] list: the
    [map[string]interface{}] of the nested block, typed by its sub-schema.
    [None] means the key is missing from the map. *)
Record AnalyticsBlock : Type := mkAnalyticsBlock {
  application_id : option string;
  application_arn : option string;
  external_id : option string;
  role_arn : option string;
  user_data_shared : option bool }.

#[global] Instance AnalyticsBlock_eq_dec : EqDecision AnalyticsBlock.
Proof. solve_decision. Defined.

(** [schema.ResourceData] for this resource: the id and one field per
    attribute of the schema.  When a lifecycle function runs, the SDK has
    already merged configuration, defaults and prior state into it. *)
Record ResourceData : Type := mkResourceData {
  Id : string;
  name : option string;
  client_secret : option string;
  generate_secret : option bool;
  user_pool_id : option string;
  explicit_auth_flows : option (gset string);
  read_attributes : option (gset string);
  write_attributes : option (gset string);
  refresh_token_validity : option Z;
  allowed_oauth_flows : option (gset string);
  allowed_oauth_flows_user_pool_client : option bool;
  allowed_oauth_scopes : option (gset string);
  callback_urls : option (gset string);
  default_redirect_uri : option string;
  logout_urls : option (gset string);
  prevent_user_existence_errors : option string;
  supported_identity_providers : option (gset string);
  analytics_configuration : option (list AnalyticsBlock) }.

(** [d.Get(key)]: the value, or the zero value of its type when unset. *)
Definition Get {A} `{Zero A} (o : option A) : A := default zero o.

(** [d.GetOk(key)]: the value and whether it "has been set to a non-zero
    value": the SDK first looks whether the key exists and, if so, compares
    the value with the zero value of the attribute's type. *)
Definition GetOk {A} `{Zero A, EqDecision A} (o : option A) : A * bool :=
  match o with
  | Some v => (v, bool_decide (v ≠ zero))
  | None => (zero, false)
  end.

(** The Go idiom [if v, ok := d.GetOk(key); ok { params.X = f(v) }] on a
    freshly allocated [params]: the member is [f v] when [ok], nil otherwise. *)
Definition whenOk {A B} (r : A * bool) (f : A → option B) : option B :=
  if r.2 then f r.1 else None.

(** [d.SetId] and [d.Set(key, value)], one setter per attribute.  A nil
    pointer passed to [d.Set] removes the value. *)
Definition SetId (v : string) (d : ResourceData) : ResourceData :=
  {| Id := v; name := name d; client_secret := client_secret d;
     generate_secret := generate_secret d; user_pool_id := user_pool_id d;
     explicit_auth_flows := explicit_auth_flows d;
     read_attributes := read_attributes d;
     write_attributes := write_attributes d;
     refresh_token_validity := refresh_token_validity d;
     allowed_oauth_flows := allowed_oauth_flows d;
     allowed_oauth_flows_user_pool_client := allowed_oauth_flows_user_pool_client d;
     allowed_oauth_scopes := allowed_oauth_scopes d;
     callback_urls := callback_urls d;
     default_redirect_uri := default_redirect_uri d;
     logout_urls := logout_urls d;
     prevent_user_existence_errors := prevent_user_existence_errors d;
     supported_identity_providers := supported_identity_providers d;
     analytics_configuration := analytics_configuration d |}.

Definition Set_name (v : option string) (d : ResourceData) : ResourceData :=
  {| Id := Id d; name := v; client_secret := client_secret d;
     generate_secret := generate_secret d; user_pool_id := user_pool_id d;
     explicit_auth_flows := explicit_auth_flows d;
     read_attributes := read_attributes d;
     write_attributes := write_attributes d;
     refresh_token_validity := refresh_token_validity d;
     allowed_oauth_flows := allowed_oauth_flows d;
     allowed_oauth_flows_user_pool_client := allowed_oauth_flows_user_pool_client d;
     allowed_oauth_scopes := allowed_oauth_scopes d;
     callback_urls := callback_urls d;
     default_redirect_uri := default_redirect_uri d;
     logout_urls := logout_urls d;
     prevent_user_existence_errors := prevent_user_existence_errors d;
     supported_identity_providers := supported_identity_providers d;
     analytics_configuration := analytics_configuration d |}.

Definition Set_client_secret (v : option string) (d : ResourceData) : ResourceData :=
  {| Id := Id d; name := name d; client_secret := v;
     generate_secret := generate_secret d; user_pool_id := user_pool_id d;
     explicit_auth_flows := explicit_auth_flows d;
     read_attributes := read_attributes d;
     write_attributes := write_attributes d;
     refresh_token_validity := refresh_token_validity d;
     allowed_oauth_flows := allowed_oauth_flows d;
     allowed_oauth_flows_user_pool_client := allowed_oauth_flows_user_pool_client d;
     allowed_oauth_scopes := allowed_oauth_scopes d;
     callback_urls := callback_urls d;
     default_redirect_uri := default_redirect_uri d;
     logout_urls := logout_urls d;
     prevent_user_existence_errors := prevent_user_existence_errors d;
     supported_identity_providers := supported_identity_providers d;
     analytics_configuration := analytics_configuration d |}.

Definition Set_generate_secret (v : option bool) (d : ResourceData) : ResourceData :=
  {| Id := Id d; name := name d; client_secret := client_secret d;
     generate_secret := v; user_pool_id := user_pool_id d;
     explicit_auth_flows := explicit_auth_flows d;
     read_attributes := read_attributes d;
     write_attributes := write_attributes d;
     refresh_token_validity := refresh_token_validity d;
     allowed_oauth_flows := allowed_oauth_flows d;
     allowed_oauth_flows_user_pool_client := allowed_oauth_flows_user_pool_client d;
     allowed_oauth_scopes := allowed_oauth_scopes d;
     callback_urls := callback_urls d;
     default_redirect_uri := default_redirect_uri d;
     logout_urls := logout_urls d;
     prevent_user_existence_errors := prevent_user_existence_errors d;
     supported_identity_providers := supported_identity_providers d;
     analytics_configuration := analytics_configuration d |}.

Definition Set_user_pool_id (v : option string) (d : ResourceData) : ResourceData :=
  {| Id := Id d; name := name d; client_secret := client_secret d;
     generate_secret := generate_secret d; user_pool_id := v;
     explicit_auth_flows := explicit_auth_flows d;
     read_attributes := read_attributes d;
     write_attributes := write_attributes d;
     refresh_token_validity := refresh_token_validity d;
     allowed_oauth_flows := allowed_oauth_flows d;
     allowed_oauth_flows_user_pool_client := allowed_oauth_flows_user_pool_client d;
     allowed_oauth_scopes := allowed_oauth_scopes d;
     callback_urls := callback_urls d;
     default_redirect_uri := default_redirect_uri d;
     logout_urls := logout_urls d;
     prevent_user_existence_errors := prevent_user_existence_errors d;
     supported_identity_providers := supported_identity_providers d;
     analytics_configuration := analytics_configuration d |}.

Definition Set_explicit_auth_flows (v : option (gset string)) (d : ResourceData) : ResourceData :=
  {| Id := Id d; name := name d; client_secret := client_secret d;
     generate_secret := generate_secret d; user_pool_id := user_pool_id d;
     explicit_auth_flows := v; read_attributes := read_attributes d;
     write_attributes := write_attributes d;
     refresh_token_validity := refresh_token_validity d;
     allowed_oauth_flows := allowed_oauth_flows d;
     allowed_oauth_flows_user_pool_client := allowed_oauth_flows_user_pool_client d;
     allowed_oauth_scopes := allowed_oauth_scopes d;
     callback_urls := callback_urls d;
     default_redirect_uri := default_redirect_uri d;
     logout_urls := logout_urls d;
     prevent_user_existence_errors := prevent_user_existence_errors d;
     supported_identity_providers := supported_identity_providers d;
     analytics_configuration := analytics_configuration d |}.

Definition Set_read_attributes (v : option (gset string)) (d : ResourceData) : ResourceData :=
  {| Id := Id d; name := name d; client_secret := client_secret d;
     generate_secret := generate_secret d; user_pool_id := user_pool_id d;
     explicit_auth_flows := explicit_auth_flows d; read_attributes := v;
     write_attributes := write_attributes d;
     refresh_token_validity := refresh_token_validity d;
     allowed_oauth_flows := allowed_oauth_flows d;
     allowed_oauth_flows_user_pool_client := allowed_oauth_flows_user_pool_client d;
     allowed_oauth_scopes := allowed_oauth_scopes d;
     callback_urls := callback_urls d;
     default_redirect_uri := default_redirect_uri d;
     logout_urls := logout_urls d;
     prevent_user_existence_errors := prevent_user_existence_errors d;
     supported_identity_providers := supported_identity_providers d;
     analytics_configuration := analytics_configuration d |}.

Definition Set_write_attributes (v : option (gset string)) (d : ResourceData) : ResourceData :=
  {| Id := Id d; name := name d; client_secret := client_secret d;
     generate_secret := generate_secret d; user_pool_id := user_pool_id d;
     explicit_auth_flows := explicit_auth_flows d;
     read_attributes := read_attributes d; write_attributes := v;
     refresh_token_validity := refresh_token_validity d;
     allowed_oauth_flows := allowed_oauth_flows d;
     allowed_oauth_flows_user_pool_client := allowed_oauth_flows_user_pool_client d;
     allowed_oauth_scopes := allowed_oauth_scopes d;
     callback_urls := callback_urls d;
     default_redirect_uri := default_redirect_uri d;
     logout_urls := logout_urls d;
     prevent_user_existence_errors := prevent_user_existence_errors d;
     supported_identity_providers := supported_identity_providers d;
     analytics_configuration := analytics_configuration d |}.

Definition Set_refresh_token_validity (v : option Z) (d : ResourceData) : ResourceData :=
  {| Id := Id d; name := name d; client_secret := client_secret d;
     generate_secret := generate_secret d; user_pool_id := user_pool_id d;
     explicit_auth_flows := explicit_auth_flows d;
     read_attributes := read_attributes d;
     write_attributes := write_attributes d; refresh_token_validity := v;
     allowed_oauth_flows := allowed_oauth_flows d;
     allowed_oauth_flows_user_pool_client := allowed_oauth_flows_user_pool_client d;
     allowed_oauth_scopes := allowed_oauth_scopes d;
     callback_urls := callback_urls d;
     default_redirect_uri := default_redirect_uri d;
     logout_urls := logout_urls d;
     prevent_user_existence_errors := prevent_user_existence_errors d;
     supported_identity_providers := supported_identity_providers d;
     analytics_configuration := analytics_configuration d |}.

Definition Set_allowed_oauth_flows (v : option (gset string)) (d : ResourceData) : ResourceData :=
  {| Id := Id d; name := name d; client_secret := client_secret d;
     generate_secret := generate_secret d; user_pool_id := user_pool_id d;
     explicit_auth_flows := explicit_auth_flows d;
     read_attributes := read_attributes d;
     write_attributes := write_attributes d;
     refresh_token_validity := refresh_token_validity d;
     allowed_oauth_flows := v;
     allowed_oauth_flows_user_pool_client := allowed_oauth_flows_user_pool_client d;
     allowed_oauth_scopes := allowed_oauth_scopes d;
     callback_urls := callback_urls d;
     default_redirect_uri := default_redirect_uri d;
     logout_urls := logout_urls d;
     prevent_user_existence_errors := prevent_user_existence_errors d;
     supported_identity_providers := supported_identity_providers d;
     analytics_configuration := analytics_configuration d |}.

Definition Set_allowed_oauth_flows_user_pool_client (v : option bool) (d : ResourceData) : ResourceData :=
  {| Id := Id d; name := name d; client_secret := client_secret d;
     generate_secret := generate_secret d; user_pool_id := user_pool_id d;
     explicit_auth_flows := explicit_auth_flows d;
     read_attributes := read_attributes d;
     write_attributes := write_attributes d;
     refresh_token_validity := refresh_token_validity d;
     allowed_oauth_flows := allowed_oauth_flows d;
     allowed_oauth_flows_user_pool_client := v;
     allowed_oauth_scopes := allowed_oauth_scopes d;
     callback_urls := callback_urls d;
     default_redirect_uri := default_redirect_uri d;
     logout_urls := logout_urls d;
     prevent_user_existence_errors := prevent_user_existence_errors d;
     supported_identity_providers := supported_identity_providers d;
     analytics_configuration := analytics_configuration d |}.

Definition Set_allowed_oauth_scopes (v : option (gset string)) (d : ResourceData) : ResourceData :=
  {| Id := Id d; name := name d; client_secret := client_secret d;
     generate_secret := generate_secret d; user_pool_id := user_pool_id d;
     explicit_auth_flows := explicit_auth_flows d;
     read_attributes := read_attributes d;
     write_attributes := write_attributes d;
     refresh_token_validity := refresh_token_validity d;
     allowed_oauth_flows := allowed_oauth_flows d;
     allowed_oauth_flows_user_pool_client := allowed_oauth_flows_user_pool_client d;
     allowed_oauth_scopes := v; callback_urls := callback_urls d;
     default_redirect_uri := default_redirect_uri d;
     logout_urls := logout_urls d;
     prevent_user_existence_errors := prevent_user_existence_errors d;
     supported_identity_providers := supported_identity_providers d;
     analytics_configuration := analytics_configuration d |}.

Definition Set_callback_urls (v : option (gset string)) (d : ResourceData) : ResourceData :=
  {| Id := Id d; name := name d; client_secret := client_secret d;
     generate_secret := generate_secret d; user_pool_id := user_pool_id d;
     explicit_auth_flows := explicit_auth_flows d;
     read_attributes := read_attributes d;
     write_attributes := write_attributes d;
     refresh_token_validity := refresh_token_validity d;
     allowed_oauth_flows := allowed_oauth_flows d;
     allowed_oauth_flows_user_pool_client := allowed_oauth_flows_user_pool_client d;
     allowed_oauth_scopes := allowed_oauth_scopes d; callback_urls := v;
     default_redirect_uri := default_redirect_uri d;
     logout_urls := logout_urls d;
     prevent_user_existence_errors := prevent_user_existence_errors d;
     supported_identity_providers := supported_identity_providers d;
     analytics_configuration := analytics_configuration d |}.

Definition Set_default_redirect_uri (v : option string) (d : ResourceData) : ResourceData :=
  {| Id := Id d; name := name d; client_secret := client_secret d;
     generate_secret := generate_secret d; user_pool_id := user_pool_id d;
     explicit_auth_flows := explicit_auth_flows d;
     read_attributes := read_attributes d;
     write_attributes := write_attributes d;
     refresh_token_validity := refresh_token_validity d;
     allowed_oauth_flows := allowed_oauth_flows d;
     allowed_oauth_flows_user_pool_client := allowed_oauth_flows_user_pool_client d;
     allowed_oauth_scopes := allowed_oauth_scopes d;
     callback_urls := callback_urls d; default_redirect_uri := v;
     logout_urls := logout_urls d;
     prevent_user_existence_errors := prevent_user_existence_errors d;
     supported_identity_providers := supported_identity_providers d;
     analytics_configuration := analytics_configuration d |}.

Definition Set_logout_urls (v : option (gset string)) (d : ResourceData) : ResourceData :=
  {| Id := Id d; name := name d; client_secret := client_secret d;
     generate_secret := generate_secret d; user_pool_id := user_pool_id d;
     explicit_auth_flows := explicit_auth_flows d;
     read_attributes := read_attributes d;
     write_attributes := write_attributes d;
     refresh_token_validity := refresh_token_validity d;
     allowed_oauth_flows := allowed_oauth_flows d;
     allowed_oauth_flows_user_pool_client := allowed_oauth_flows_user_pool_client d;
     allowed_oauth_scopes := allowed_oauth_scopes d;
     callback_urls := callback_urls d;
     default_redirect_uri := default_redirect_uri d; logout_urls := v;
     prevent_user_existence_errors := prevent_user_existence_errors d;
     supported_identity_providers := supported_identity_providers d;
     analytics_configuration := analytics_configuration d |}.

Definition Set_prevent_user_existence_errors (v : option string) (d : ResourceData) : ResourceData :=
  {| Id := Id d; name := name d; client_secret := client_secret d;
     generate_secret := generate_secret d; user_pool_id := user_pool_id d;
     explicit_auth_flows := explicit_auth_flows d;
     read_attributes := read_attributes d;
     write_attributes := write_attributes d;
     refresh_token_validity := refresh_token_validity d;
     allowed_oauth_flows := allowed_oauth_flows d;
     allowed_oauth_flows_user_pool_client := allowed_oauth_flows_user_pool_client d;
     allowed_oauth_scopes := allowed_oauth_scopes d;
     callback_urls := callback_urls d;
     default_redirect_uri := default_redirect_uri d;
     logout_urls := logout_urls d; prevent_user_existence_errors := v;
     supported_identity_providers := supported_identity_providers d;
     analytics_configuration := analytics_configuration d |}.

Definition Set_supported_identity_providers (v : option (gset string)) (d : ResourceData) : ResourceData :=
  {| Id := Id d; name := name d; client_secret := client_secret d;
     generate_secret := generate_secret d; user_pool_id := user_pool_id d;
     explicit_auth_flows := explicit_auth_flows d;
     read_attributes := read_attributes d;
     write_attributes := write_attributes d;
     refresh_token_validity := refresh_token_validity d;
     allowed_oauth_flows := allowed_oauth_flows d;
     allowed_oauth_flows_user_pool_client := allowed_oauth_flows_user_pool_client d;
     allowed_oauth_scopes := allowed_oauth_scopes d;
     callback_urls := callback_urls d;
     default_redirect_uri := default_redirect_uri d;
     logout_urls := logout_urls d;
     prevent_user_existence_errors := prevent_user_existence_errors d;
     supported_identity_providers := v;
     analytics_configuration := analytics_configuration d |}.

Definition Set_analytics_configuration (v : option (list AnalyticsBlock)) (d : ResourceData) : ResourceData :=
  {| Id := Id d; name := name d; client_secret := client_secret d;
     generate_secret := generate_secret d; user_pool_id := user_pool_id d;
     explicit_auth_flows := explicit_auth_flows d;
     read_attributes := read_attributes d;
     write_attributes := write_attributes d;
     refresh_token_validity := refresh_token_validity d;
     allowed_oauth_flows := allowed_oauth_flows d;
     allowed_oauth_flows_user_pool_client := allowed_oauth_flows_user_pool_client d;
     allowed_oauth_scopes := allowed_oauth_scopes d;
     callback_urls := callback_urls d;
     default_redirect_uri := default_redirect_uri d;
     logout_urls := logout_urls d;
     prevent_user_existence_errors := prevent_user_existence_errors d;
     supported_identity_providers := supported_identity_providers d;
     analytics_configuration := v |}.

(** An empty [schema.ResourceData]: nothing configured, no id. *)
Definition emptyResourceData : ResourceData :=
  {| Id := EmptyString; name := None; client_secret := None; generate_secret := None;
     user_pool_id := None; explicit_auth_flows := None;
     read_attributes := None; write_attributes := None;
     refresh_token_validity := None; allowed_oauth_flows := None;
     allowed_oauth_flows_user_pool_client := None;
     allowed_oauth_scopes := None; callback_urls := None;
     default_redirect_uri := None; logout_urls := None;
     prevent_user_existence_errors := None;
     supported_identity_providers := None;
     analytics_configuration := None |}.

(** ** Attribute codec *)

(** Modelled from the spec: [expandStringSet] and [flattenStringSet] live in the
    provider's [structure.go], outside the files at hand.  On encode the codec
    lists the elements of the set in a canonical order; on decode it treats the
    returned list as unordered.  A nil list decodes to the empty set. *)
Definition expandStringSet (s : gset string) : option (list string) :=
  Some (elements s).

Definition flattenStringSet (l : option (list string)) : gset string :=
  list_to_set (default [] l).

(** [if v, ok := m[key]; ok && v != EmptyString { x = aws.String(v.(string)) }] *)
Definition nonEmptyString (o : option string) : option string :=
  match o with
  | Some v => if bool_decide (v ≠ EmptyString) then aws_String v else None
  | None => None
  end.

Definition expandAwsCognitoUserPoolClientAnalyticsConfig
    (l : list AnalyticsBlock) : option AnalyticsConfigurationType.t :=
  match l with
  | [] => None
  | m :: _ =>
      Some {| AnalyticsConfigurationType.RoleArn := nonEmptyString (role_arn m);
              AnalyticsConfigurationType.ExternalId :=
                nonEmptyString (external_id m);
              AnalyticsConfigurationType.ApplicationId :=
                nonEmptyString (application_id m);
              AnalyticsConfigurationType.ApplicationArn :=
                nonEmptyString (application_arn m);
              AnalyticsConfigurationType.UserDataShared :=
                match user_data_shared m with
                | Some v => aws_Bool v
                | None => None
                end |}
  end.

(** [if p != nil { m[key] = aws.StringValue(p) }] *)
Definition whenNotNil (p : option string) : option string :=
  match p with
  | Some _ => Some (aws_StringValue p)
  | None => None
  end.

Definition flattenAwsCognitoUserPoolClientAnalyticsConfig
    (analyticsConfig : option AnalyticsConfigurationType.t)
    : list AnalyticsBlock :=
  match analyticsConfig with
  | None => []
  | Some c =>
      [ {| user_data_shared :=
             Some (aws_BoolValue (AnalyticsConfigurationType.UserDataShared c));
           external_id := whenNotNil (AnalyticsConfigurationType.ExternalId c);
           role_arn := whenNotNil (AnalyticsConfigurationType.RoleArn c);
           application_id :=
             whenNotNil (AnalyticsConfigurationType.ApplicationId c);
           application_arn :=
             whenNotNil (AnalyticsConfigurationType.ApplicationArn c) |} ]
  end.

(** The request built at the top of [resourceAwsCognitoUserPoolClientCreate]. *)
Definition createParams (d : ResourceData) : CreateUserPoolClientInput.t :=
  {| CreateUserPoolClientInput.ClientName := aws_String (Get (name d));
     CreateUserPoolClientInput.UserPoolId := aws_String (Get (user_pool_id d));
     CreateUserPoolClientInput.GenerateSecret :=
       whenOk (GetOk (generate_secret d)) aws_Bool;
     CreateUserPoolClientInput.ExplicitAuthFlows :=
       whenOk (GetOk (explicit_auth_flows d)) expandStringSet;
     CreateUserPoolClientInput.ReadAttributes :=
       whenOk (GetOk (read_attributes d)) expandStringSet;
     CreateUserPoolClientInput.WriteAttributes :=
       whenOk (GetOk (write_attributes d)) expandStringSet;
     CreateUserPoolClientInput.RefreshTokenValidity :=
       whenOk (GetOk (refresh_token_validity d)) aws_Int64;
     CreateUserPoolClientInput.AllowedOAuthFlows :=
       whenOk (GetOk (allowed_oauth_flows d)) expandStringSet;
     CreateUserPoolClientInput.AllowedOAuthFlowsUserPoolClient :=
       whenOk (GetOk (allowed_oauth_flows_user_pool_client d)) aws_Bool;
     CreateUserPoolClientInput.AllowedOAuthScopes :=
       whenOk (GetOk (allowed_oauth_scopes d)) expandStringSet;
     CreateUserPoolClientInput.CallbackURLs :=
       whenOk (GetOk (callback_urls d)) expandStringSet;
     CreateUserPoolClientInput.DefaultRedirectURI :=
       whenOk (GetOk (default_redirect_uri d)) aws_String;
     CreateUserPoolClientInput.LogoutURLs :=
       whenOk (GetOk (logout_urls d)) expandStringSet;
     CreateUserPoolClientInput.SupportedIdentityProviders :=
       whenOk (GetOk (supported_identity_providers d)) expandStringSet;
     CreateUserPoolClientInput.AnalyticsConfiguration :=
       whenOk (GetOk (analytics_configuration d))
              expandAwsCognitoUserPoolClientAnalyticsConfig;
     CreateUserPoolClientInput.PreventUserExistenceErrors :=
       whenOk (GetOk (prevent_user_existence_errors d)) aws_String |}.

(** The request built at the top of [resourceAwsCognitoUserPoolClientUpdate]. *)
Definition updateParams (d : ResourceData) : UpdateUserPoolClientInput.t :=
  {| UpdateUserPoolClientInput.ClientId := aws_String (Id d);
     UpdateUserPoolClientInput.UserPoolId := aws_String (Get (user_pool_id d));
     UpdateUserPoolClientInput.ClientName := whenOk (GetOk (name d)) aws_String;
     UpdateUserPoolClientInput.ExplicitAuthFlows :=
       whenOk (GetOk (explicit_auth_flows d)) expandStringSet;
     UpdateUserPoolClientInput.ReadAttributes :=
       whenOk (GetOk (read_attributes d)) expandStringSet;
     UpdateUserPoolClientInput.WriteAttributes :=
       whenOk (GetOk (write_attributes d)) expandStringSet;
     UpdateUserPoolClientInput.RefreshTokenValidity :=
       whenOk (GetOk (refresh_token_validity d)) aws_Int64;
     UpdateUserPoolClientInput.AllowedOAuthFlows :=
       whenOk (GetOk (allowed_oauth_flows d)) expandStringSet;
     UpdateUserPoolClientInput.AllowedOAuthFlowsUserPoolClient :=
       whenOk (GetOk (allowed_oauth_flows_user_pool_client d)) aws_Bool;
     UpdateUserPoolClientInput.AllowedOAuthScopes :=
       whenOk (GetOk (allowed_oauth_scopes d)) expandStringSet;
     UpdateUserPoolClientInput.CallbackURLs :=
       whenOk (GetOk (callback_urls d)) expandStringSet;
     UpdateUserPoolClientInput.DefaultRedirectURI :=
       whenOk (GetOk (default_redirect_uri d)) aws_String;
     UpdateUserPoolClientInput.LogoutURLs :=
       whenOk (GetOk (logout_urls d)) expandStringSet;
     UpdateUserPoolClientInput.PreventUserExistenceErrors :=
       whenOk (GetOk (prevent_user_existence_errors d)) aws_String;
     UpdateUserPoolClientInput.SupportedIdentityProviders :=
       whenOk (GetOk (supported_identity_providers d)) expandStringSet;
     UpdateUserPoolClientInput.AnalyticsConfiguration :=
       whenOk (GetOk (analytics_configuration d))
              expandAwsCognitoUserPoolClientAnalyticsConfig |}.

(** The request of Read and of Delete: the compound identity. *)
Definition describeParams (d : ResourceData) : DescribeUserPoolClientInput.t :=
  {| DescribeUserPoolClientInput.ClientId := aws_String (Id d);
     DescribeUserPoolClientInput.UserPoolId :=
       aws_String (Get (user_pool_id d)) |}.

Definition deleteParams (d : ResourceData) : DeleteUserPoolClientInput.t :=
  {| DeleteUserPoolClientInput.ClientId := aws_String (Id d);
     DeleteUserPoolClientInput.UserPoolId :=
       aws_String (Get (user_pool_id d)) |}.

(** The run of [d.SetId] and [d.Set] calls that closes
    [resourceAwsCognitoUserPoolClientRead], in source order.  The typed setters
    cannot fail, so the error branch of the last [d.Set] is never taken. *)
Definition setFromResponse (c : UserPoolClientType.t) (d : ResourceData)
    : ResourceData :=
  let d := SetId (aws_StringValue (UserPoolClientType.ClientId c)) d in
  let d := Set_user_pool_id (UserPoolClientType.UserPoolId c) d in
  let d := Set_name (UserPoolClientType.ClientName c) d in
  let d := Set_explicit_auth_flows
             (Some (flattenStringSet (UserPoolClientType.ExplicitAuthFlows c))) d in
  let d := Set_read_attributes
             (Some (flattenStringSet (UserPoolClientType.ReadAttributes c))) d in
  let d := Set_write_attributes
             (Some (flattenStringSet (UserPoolClientType.WriteAttributes c))) d in
  let d := Set_refresh_token_validity
             (UserPoolClientType.RefreshTokenValidity c) d in
  let d := Set_client_secret (UserPoolClientType.ClientSecret c) d in
  let d := Set_allowed_oauth_flows
             (Some (flattenStringSet (UserPoolClientType.AllowedOAuthFlows c))) d in
  let d := Set_allowed_oauth_flows_user_pool_client
             (UserPoolClientType.AllowedOAuthFlowsUserPoolClient c) d in
  let d := Set_allowed_oauth_scopes
             (Some (flattenStringSet (UserPoolClientType.AllowedOAuthScopes c))) d in
  let d := Set_callback_urls
             (Some (flattenStringSet (UserPoolClientType.CallbackURLs c))) d in
  let d := Set_default_redirect_uri
             (UserPoolClientType.DefaultRedirectURI c) d in
  let d := Set_logout_urls
             (Some (flattenStringSet (UserPoolClientType.LogoutURLs c))) d in
  let d := Set_prevent_user_existence_errors
             (UserPoolClientType.PreventUserExistenceErrors c) d in
  let d := Set_supported_identity_providers
             (Some (flattenStringSet
                      (UserPoolClientType.SupportedIdentityProviders c))) d in
  Set_analytics_configuration
    (Some (flattenAwsCognitoUserPoolClientAnalyticsConfig
             (UserPoolClientType.AnalyticsConfiguration c))) d.

(** ** Transport, trace and the lifecycle monad *)

(** The four verbs of the transport collaborator, as functions on an abstract
    remote state. *)
Record cognitoidpconn (Remote : Type) : Type := mkConn {
  CreateUserPoolClient :
    CreateUserPoolClientInput.t → Remote → result UserPoolClientType.t * Remote;
  DescribeUserPoolClient :
    DescribeUserPoolClientInput.t → Remote →
    result UserPoolClientType.t * Remote;
  UpdateUserPoolClient :
    UpdateUserPoolClientInput.t → Remote → result UserPoolClientType.t * Remote;
  DeleteUserPoolClient :
    DeleteUserPoolClientInput.t → Remote → option error * Remote }.
Arguments CreateUserPoolClient {Remote} _ _ _.
Arguments DescribeUserPoolClient {Remote} _ _ _.
Arguments UpdateUserPoolClient {Remote} _ _ _.
Arguments DeleteUserPoolClient {Remote} _ _ _.

(** An argument of [log.Printf]. *)
Inductive LogArg : Type :=
  | ArgString (s : string)
  | ArgCreate (p : CreateUserPoolClientInput.t)
  | ArgDescribe (p : DescribeUserPoolClientInput.t)
  | ArgUpdate (p : UpdateUserPoolClientInput.t)
  | ArgDelete (p : DeleteUserPoolClientInput.t).

(** What a lifecycle function does to the outside world, in order. *)
Inductive Event : Type :=
  | CallCreate (p : CreateUserPoolClientInput.t)
  | CallDescribe (p : DescribeUserPoolClientInput.t)
  | CallUpdate (p : UpdateUserPoolClientInput.t)
  | CallDelete (p : DeleteUserPoolClientInput.t)
  | LogPrintf (format : string) (args : list LogArg).

Record World (Remote : Type) : Type := mkWorld {
  remote : Remote;
  trace : list Event }.
Arguments mkWorld {Remote} _ _.
Arguments remote {Remote} _.
Arguments trace {Remote} _.

Definition M (Remote A : Type) : Type := World Remote → A * World Remote.

#[global] Instance M_ret {Remote} : MRet (M Remote) := λ A a w, (a, w).
#[global] Instance M_bind {Remote} : MBind (M Remote) :=
  λ A B f m w, let '(a, w') := m w in f a w'.

Section Lifecycle.
Context {Remote : Type}.
Variable conn : cognitoidpconn Remote.

Definition emit (e : Event) : M Remote unit :=
  λ w, (tt, mkWorld (remote w) (trace w ++ [e])).

Definition log_Printf (format : string) (args : list LogArg) : M Remote unit :=
  emit (LogPrintf format args).

Definition conn_CreateUserPoolClient (p : CreateUserPoolClientInput.t)
    : M Remote (result UserPoolClientType.t) :=
  λ w, let '(r, s) := CreateUserPoolClient conn p (remote w) in
       (r, mkWorld s (trace w ++ [CallCreate p])).

Definition conn_DescribeUserPoolClient (p : DescribeUserPoolClientInput.t)
    : M Remote (result UserPoolClientType.t) :=
  λ w, let '(r, s) := DescribeUserPoolClient conn p (remote w) in
       (r, mkWorld s (trace w ++ [CallDescribe p])).

Definition conn_UpdateUserPoolClient (p : UpdateUserPoolClientInput.t)
    : M Remote (result UserPoolClientType.t) :=
  λ w, let '(r, s) := UpdateUserPoolClient conn p (remote w) in
       (r, mkWorld s (trace w ++ [CallUpdate p])).

Definition conn_DeleteUserPoolClient (p : DeleteUserPoolClientInput.t)
    : M Remote (option error) :=
  λ w, let '(r, s) := DeleteUserPoolClient conn p (remote w) in
       (r, mkWorld s (trace w ++ [CallDelete p])).

(** ** Lifecycle functions

    Each takes the resource data and returns the resource data as the Go
    function leaves it, with the returned error ([None] is [nil]). *)

Definition resourceAwsCognitoUserPoolClientRead (d : ResourceData)
    : M Remote (ResourceData * option error) :=
  let params := describeParams d in
  _ ← log_Printf "[DEBUG] Reading Cognito User Pool Client: %s"
                 [ArgDescribe params];
  resp ← conn_DescribeUserPoolClient params;
  match resp with
  | Err err =>
      if isAWSErr err ErrCodeResourceNotFoundException EmptyString then
        _ ← log_Printf "[WARN] Cognito User Pool Client %s is already gone"
                       [ArgString (Id d)];
        mret (SetId EmptyString d, None)
      else mret (d, Some err)
  | Ok c => mret (setFromResponse c d, None)
  end.

Definition resourceAwsCognitoUserPoolClientCreate (d : ResourceData)
    : M Remote (ResourceData * option error) :=
  let params := createParams d in
  _ ← log_Printf "[DEBUG] Creating Cognito User Pool Client: %s"
                 [ArgCreate params];
  resp ← conn_CreateUserPoolClient params;
  match resp with
  | Err err =>
      mret (d, Some (Errorf ("Error creating Cognito User Pool Client: "
                             +:+ Error err)))
  | Ok c =>
      resourceAwsCognitoUserPoolClientRead
        (SetId (aws_StringValue (UserPoolClientType.ClientId c)) d)
  end.

Definition resourceAwsCognitoUserPoolClientUpdate (d : ResourceData)
    : M Remote (ResourceData * option error) :=
  let params := updateParams d in
  _ ← log_Printf "[DEBUG] Updating Cognito User Pool Client: %s"
                 [ArgUpdate params];
  resp ← conn_UpdateUserPoolClient params;
  match resp with
  | Err err =>
      mret (d, Some (Errorf ("Error updating Cognito User Pool Client: "
                             +:+ Error err)))
  | Ok _ => resourceAwsCognitoUserPoolClientRead d
  end.

Definition resourceAwsCognitoUserPoolClientDelete (d : ResourceData)
    : M Remote (ResourceData * option error) :=
  let params := deleteParams d in
  _ ← log_Printf "[DEBUG] Deleting Cognito User Pool Client: %s"
                 [ArgDelete params];
  err ← conn_DeleteUserPoolClient params;
  match err with
  | Some err =>
      mret (d, Some (Errorf ("Error deleting Cognito User Pool Client: "
                             +:+ Error err)))
  | None => mret (d, None)
  end.

(** The importer.  The two indexings of the split are in range because the
    guard has established that it has two pieces. *)
Definition resourceAwsCognitoUserPoolClientImport (d : ResourceData)
    : M Remote (list ResourceData * option error) :=
  if bool_decide (length (Split (Id d) slash) ≠ 2%nat)
     || bool_decide (String.length (Id d) < 3)%nat
  then
    mret ([], Some (Errorf ("Wrong format of resource: " +:+ Id d +:+
                            ". Please follow 'user-pool-id/client-id'")))
  else
    let userPoolId := default EmptyString (Split (Id d) slash !! 0%nat) in
    let clientId := default EmptyString (Split (Id d) slash !! 1%nat) in
    let d := SetId clientId d in
    let d := Set_user_pool_id (Some userPoolId) d in
    _ ← log_Printf "[DEBUG] Importing client %s for user pool %s"
                   [ArgString clientId; ArgString userPoolId];
    mret ([d], None).

End Lifecycle.

(** ** Schema and validation *)

Inductive ValueType : Type :=
  | TypeBool | TypeInt | TypeString | TypeList | TypeSet.

(** A dynamically typed attribute value, as the schema-driven parts of the SDK
    see it. *)
Inductive Value : Type :=
  | VBool (b : bool)
  | VInt (n : Z)
  | VString (s : string)
  | VList (l : list AnalyticsBlock)
  | VSet (s : gset string).

#[global] Instance Value_eq_dec : EqDecision Value.
Proof. solve_decision. Defined.

(** [schema.ValueType.Zero] *)
Definition ValueType_Zero (t : ValueType) : Value :=
  match t with
  | TypeBool => VBool zero
  | TypeInt => VInt zero
  | TypeString => VString zero
  | TypeList => VList zero
  | TypeSet => VSet zero
  end.

Inductive ConstraintViolation : Type :=
  | MissingRequired (k : string)
  | CannotBeSet (k : string)
  | TooManyItems (k : string) (max got : nat)
  | TooFewItems (k : string) (min got : nat)
  | WrongType (k : string)
  | NotOneOf (k : string) (valid : list string) (got : string)
  | NotBetween (k : string) (lo hi got : Z)
  | Invalid (k : string) (message : string)
  | NotExactlyOneOf (k : string) (keys specified : list string)
  | ConflictsWith (k other : string).

#[global] Instance ConstraintViolation_eq_dec : EqDecision ConstraintViolation.
Proof. solve_decision. Defined.

(** [schema.SchemaValidateFunc]: the value and its key; the errors found. *)
Definition SchemaValidateFunc : Type :=
  Value → string → list ConstraintViolation.

(** [validation.StringInSlice(valid, false)] *)
Definition StringInSlice (valid : list string) : SchemaValidateFunc :=
  λ i k,
    match i with
    | VString v =>
        if existsb (λ str, bool_decide (v = str)) valid then []
        else [NotOneOf k valid v]
    | _ => [WrongType k]
    end.

(** [validation.IntBetween(min, max)] *)
Definition IntBetween (min max : Z) : SchemaValidateFunc :=
  λ i k,
    match i with
    | VInt v =>
        if bool_decide (v < min)%Z || bool_decide (v > max)%Z
        then [NotBetween k min max v] else []
    | _ => [WrongType k]
    end.

(** A [schema.Schema] without its [Elem]. *)
Record FieldSchema : Type := mkFieldSchema {
  Type_ : ValueType;
  Required : bool;
  Optional : bool;
  Computed : bool;
  ForceNew : bool;
  Sensitive : bool;
  Default : option Value;
  MaxItems : nat;
  MinItems : nat;
  ValidateFunc : option SchemaValidateFunc;
  ExactlyOneOf : list string;
  ConflictsWith_ : list string }.

(** The [Elem] of a set or list: an element schema or a nested resource. *)
Inductive SchemaElem : Type :=
  | ElemNone
  | ElemSchema (s : FieldSchema)
  | ElemResource (fields : list (string * FieldSchema)).

Record Schema : Type := mkSchema {
  field :> FieldSchema;
  Elem : SchemaElem }.

(** A schema with every member at its Go zero value. *)
Definition schema0 (t : ValueType) : FieldSchema :=
  {| Type_ := t; Required := false; Optional := false; Computed := false;
     ForceNew := false; Sensitive := false; Default := None; MaxItems := 0;
     MinItems := 0; ValidateFunc := None; ExactlyOneOf := [];
     ConflictsWith_ := [] |}.

(** The system reserved scopes named in the comment on
    [allowed_oauth_scopes]. *)
Definition systemReservedScopes : list string :=
  ["openid"; "email"; "phone"; "profile"; "aws.cognito.signin.user.admin"].

Section Schema.

(** The enum values generated in the AWS SDK and the two validators of the
    provider's [validators.go] are outside the files at hand. *)
Variable ExplicitAuthFlowsType_Values : list string.
Variable OAuthFlowType_Values : list string.
Variable validateCognitoUserPoolClientURL : SchemaValidateFunc.
Variable validateArn : SchemaValidateFunc.

Definition analyticsConfigurationSchema : list (string * FieldSchema) :=
  [ ("application_id",
     {| Type_ := TypeString; Required := false; Optional := true;
        Computed := false; ForceNew := false; Sensitive := false;
        Default := None; MaxItems := 0; MinItems := 0; ValidateFunc := None;
        ExactlyOneOf := ["analytics_configuration.0.application_id";
                         "analytics_configuration.0.application_arn"];
        ConflictsWith_ := [] |});
    ("application_arn",
     {| Type_ := TypeString; Required := false; Optional := true;
        Computed := false; ForceNew := false; Sensitive := false;
        Default := None; MaxItems := 0; MinItems := 0;
        ValidateFunc := Some validateArn;
        ExactlyOneOf := ["analytics_configuration.0.application_id";
                         "analytics_configuration.0.application_arn"];
        ConflictsWith_ := ["analytics_configuration.0.external_id";
                           "analytics_configuration.0.role_arn"] |});
    ("external_id",
     {| Type_ := TypeString; Required := false; Optional := true;
        Computed := false; ForceNew := false; Sensitive := false;
        Default := None; MaxItems := 0; MinItems := 0; ValidateFunc := None;
        ExactlyOneOf := [];
        ConflictsWith_ := ["analytics_configuration.0.application_arn"] |});
    ("role_arn",
     {| Type_ := TypeString; Required := false; Optional := true;
        Computed := true; ForceNew := false; Sensitive := false;
        Default := None; MaxItems := 0; MinItems := 0;
        ValidateFunc := Some validateArn;
        ExactlyOneOf := [];
        ConflictsWith_ := ["analytics_configuration.0.application_arn"] |});
    ("user_data_shared",
     {| Type_ := TypeBool; Required := false; Optional := true;
        Computed := false; ForceNew := false; Sensitive := false;
        Default := None; MaxItems := 0; MinItems := 0; ValidateFunc := None;
        ExactlyOneOf := []; ConflictsWith_ := [] |}) ].

(** The [Schema] map of [resourceAwsCognitoUserPoolClient], in source order. *)
Definition resourceSchema : list (string * Schema) :=
  [ ("name",
     {| field := {| Type_ := TypeString; Required := true; Optional := false;
          Computed := false; ForceNew := false; Sensitive := false;
          Default := None; MaxItems := 0; MinItems := 0; ValidateFunc := None;
          ExactlyOneOf := []; ConflictsWith_ := [] |};
        Elem := ElemNone |});
    ("client_secret",
     {| field := {| Type_ := TypeString; Required := false; Optional := false;
          Computed := true; ForceNew := false; Sensitive := true;
          Default := None; MaxItems := 0; MinItems := 0; ValidateFunc := None;
          ExactlyOneOf := []; ConflictsWith_ := [] |};
        Elem := ElemNone |});
    ("generate_secret",
     {| field := {| Type_ := TypeBool; Required := false; Optional := true;
          Computed := false; ForceNew := true; Sensitive := false;
          Default := None; MaxItems := 0; MinItems := 0; ValidateFunc := None;
          ExactlyOneOf := []; ConflictsWith_ := [] |};
        Elem := ElemNone |});
    ("user_pool_id",
     {| field := {| Type_ := TypeString; Required := true; Optional := false;
          Computed := false; ForceNew := true; Sensitive := false;
          Default := None; MaxItems := 0; MinItems := 0; ValidateFunc := None;
          ExactlyOneOf := []; ConflictsWith_ := [] |};
        Elem := ElemNone |});
    ("explicit_auth_flows",
     {| field := {| Type_ := TypeSet; Required := false; Optional := true;
          Computed := false; ForceNew := false; Sensitive := false;
          Default := None; MaxItems := 0; MinItems := 0; ValidateFunc := None;
          ExactlyOneOf := []; ConflictsWith_ := [] |};
        Elem := ElemSchema
          {| Type_ := TypeString; Required := false; Optional := false;
             Computed := false; ForceNew := false; Sensitive := false;
             Default := None; MaxItems := 0; MinItems := 0;
             ValidateFunc := Some (StringInSlice ExplicitAuthFlowsType_Values);
             ExactlyOneOf := []; ConflictsWith_ := [] |} |});
    ("read_attributes",
     {| field := {| Type_ := TypeSet; Required := false; Optional := true;
          Computed := false; ForceNew := false; Sensitive := false;
          Default := None; MaxItems := 0; MinItems := 0; ValidateFunc := None;
          ExactlyOneOf := []; ConflictsWith_ := [] |};
        Elem := ElemSchema (schema0 TypeString) |});
    ("write_attributes",
     {| field := {| Type_ := TypeSet; Required := false; Optional := true;
          Computed := false; ForceNew := false; Sensitive := false;
          Default := None; MaxItems := 0; MinItems := 0; ValidateFunc := None;
          ExactlyOneOf := []; ConflictsWith_ := [] |};
        Elem := ElemSchema (schema0 TypeString) |});
    ("refresh_token_validity",
     {| field := {| Type_ := TypeInt; Required := false; Optional := true;
          Computed := false; ForceNew := false; Sensitive := false;
          Default := Some (VInt 30); MaxItems := 0; MinItems := 0;
          ValidateFunc := Some (IntBetween 0 3650);
          ExactlyOneOf := []; ConflictsWith_ := [] |};
        Elem := ElemNone |});
    ("allowed_oauth_flows",
     {| field := {| Type_ := TypeSet; Required := false; Optional := true;
          Computed := false; ForceNew := false; Sensitive := false;
          Default := None; MaxItems := 3; MinItems := 0; ValidateFunc := None;
          ExactlyOneOf := []; ConflictsWith_ := [] |};
        Elem := ElemSchema
          {| Type_ := TypeString; Required := false; Optional := false;
             Computed := false; ForceNew := false; Sensitive := false;
             Default := None; MaxItems := 0; MinItems := 0;
             ValidateFunc := Some (StringInSlice OAuthFlowType_Values);
             ExactlyOneOf := []; ConflictsWith_ := [] |} |});
    ("allowed_oauth_flows_user_pool_client",
     {| field := {| Type_ := TypeBool; Required := false; Optional := true;
          Computed := false; ForceNew := false; Sensitive := false;
          Default := None; MaxItems := 0; MinItems := 0; ValidateFunc := None;
          ExactlyOneOf := []; ConflictsWith_ := [] |};
        Elem := ElemNone |});
    ("allowed_oauth_scopes",
     {| field := {| Type_ := TypeSet; Required := false; Optional := true;
          Computed := false; ForceNew := false; Sensitive := false;
          Default := None; MaxItems := 50; MinItems := 0; ValidateFunc := None;
          ExactlyOneOf := []; ConflictsWith_ := [] |};
        Elem := ElemSchema (schema0 TypeString) |});
    ("callback_urls",
     {| field := {| Type_ := TypeSet; Required := false; Optional := true;
          Computed := false; ForceNew := false; Sensitive := false;
          Default := None; MaxItems := 100; MinItems := 0; ValidateFunc := None;
          ExactlyOneOf := []; ConflictsWith_ := [] |};
        Elem := ElemSchema
          {| Type_ := TypeString; Required := false; Optional := false;
             Computed := false; ForceNew := false; Sensitive := false;
             Default := None; MaxItems := 0; MinItems := 0;
             ValidateFunc := Some validateCognitoUserPoolClientURL;
             ExactlyOneOf := []; ConflictsWith_ := [] |} |});
    ("default_redirect_uri",
     {| field := {| Type_ := TypeString; Required := false; Optional := true;
          Computed := false; ForceNew := false; Sensitive := false;
          Default := None; MaxItems := 0; MinItems := 0; ValidateFunc := None;
          ExactlyOneOf := []; ConflictsWith_ := [] |};
        Elem := ElemNone |});
    ("logout_urls",
     {| field := {| Type_ := TypeSet; Required := false; Optional := true;
          Computed := false; ForceNew := false; Sensitive := false;
          Default := None; MaxItems := 100; MinItems := 0; ValidateFunc := None;
          ExactlyOneOf := []; ConflictsWith_ := [] |};
        Elem := ElemSchema
          {| Type_ := TypeString; Required := false; Optional := false;
             Computed := false; ForceNew := false; Sensitive := false;
             Default := None; MaxItems := 0; MinItems := 0;
             ValidateFunc := Some validateCognitoUserPoolClientURL;
             ExactlyOneOf := []; ConflictsWith_ := [] |} |});
    ("prevent_user_existence_errors",
     {| field := {| Type_ := TypeString; Required := false; Optional := true;
          Computed := true; ForceNew := false; Sensitive := false;
          Default := None; MaxItems := 0; MinItems := 0; ValidateFunc := None;
          ExactlyOneOf := []; ConflictsWith_ := [] |};
        Elem := ElemNone |});
    ("supported_identity_providers",
     {| field := {| Type_ := TypeSet; Required := false; Optional := true;
          Computed := false; ForceNew := false; Sensitive := false;
          Default := None; MaxItems := 0; MinItems := 0; ValidateFunc := None;
          ExactlyOneOf := []; ConflictsWith_ := [] |};
        Elem := ElemSchema (schema0 TypeString) |});
    ("analytics_configuration",
     {| field := {| Type_ := TypeList; Required := false; Optional := true;
          Computed := false; ForceNew := false; Sensitive := false;
          Default := None; MaxItems := 1; MinItems := 1; ValidateFunc := None;
          ExactlyOneOf := []; ConflictsWith_ := [] |};
        Elem := ElemResource analyticsConfigurationSchema |}) ].

(** The value of a top-level attribute, dynamically typed; [None] when the
    attribute is not set or the key is not in the schema. *)
Definition attr (d : ResourceData) (k : string) : option Value :=
  if String.eqb k "name" then VString <$> name d
  else if String.eqb k "client_secret" then VString <$> client_secret d
  else if String.eqb k "generate_secret" then VBool <$> generate_secret d
  else if String.eqb k "user_pool_id" then VString <$> user_pool_id d
  else if String.eqb k "explicit_auth_flows"
    then VSet <$> explicit_auth_flows d
  else if String.eqb k "read_attributes" then VSet <$> read_attributes d
  else if String.eqb k "write_attributes" then VSet <$> write_attributes d
  else if String.eqb k "refresh_token_validity"
    then VInt <$> refresh_token_validity d
  else if String.eqb k "allowed_oauth_flows"
    then VSet <$> allowed_oauth_flows d
  else if String.eqb k "allowed_oauth_flows_user_pool_client"
    then VBool <$> allowed_oauth_flows_user_pool_client d
  else if String.eqb k "allowed_oauth_scopes"
    then VSet <$> allowed_oauth_scopes d
  else if String.eqb k "callback_urls" then VSet <$> callback_urls d
  else if String.eqb k "default_redirect_uri"
    then VString <$> default_redirect_uri d
  else if String.eqb k "logout_urls" then VSet <$> logout_urls d
  else if String.eqb k "prevent_user_existence_errors"
    then VString <$> prevent_user_existence_errors d
  else if String.eqb k "supported_identity_providers"
    then VSet <$> supported_identity_providers d
  else if String.eqb k "analytics_configuration"
    then VList <$> analytics_configuration d
  else None.

(** The value of a key of the nested block. *)
Definition blockAttr (m : AnalyticsBlock) (k : string) : option Value :=
  if String.eqb k "application_id" then VString <$> application_id m
  else if String.eqb k "application_arn" then VString <$> application_arn m
  else if String.eqb k "external_id" then VString <$> external_id m
  else if String.eqb k "role_arn" then VString <$> role_arn m
  else if String.eqb k "user_data_shared" then VBool <$> user_data_shared m
  else None.

(** The value at a configuration path: a top-level key, or a key of the first
    (and only) analytics block. *)
Definition lookupPath (d : ResourceData) (path : string) : option Value :=
  match attr d path with
  | Some v => Some v
  | None =>
      let m := analytics_configuration d ≫= head in
      if String.eqb path "analytics_configuration.0.application_id"
        then m ≫= λ m, blockAttr m "application_id"
      else if String.eqb path "analytics_configuration.0.application_arn"
        then m ≫= λ m, blockAttr m "application_arn"
      else if String.eqb path "analytics_configuration.0.external_id"
        then m ≫= λ m, blockAttr m "external_id"
      else if String.eqb path "analytics_configuration.0.role_arn"
        then m ≫= λ m, blockAttr m "role_arn"
      else if String.eqb path "analytics_configuration.0.user_data_shared"
        then m ≫= λ m, blockAttr m "user_data_shared"
      else None
  end.

Definition isSet (d : ResourceData) (path : string) : bool :=
  bool_decide (is_Some (lookupPath d path)).

(** The SDK's schema validation, restricted to the rules this schema uses. *)

Definition validateExactlyOneAttribute (d : ResourceData) (k : string)
    (s : FieldSchema) : list ConstraintViolation :=
  match ExactlyOneOf s with
  | [] => []
  | keys =>
      let specified := filter (λ p, isSet d p = true) keys in
      if bool_decide (length specified = 1%nat) then []
      else [NotExactlyOneOf k keys specified]
  end.

Definition validateConflictingAttributes (d : ResourceData) (k : string)
    (s : FieldSchema) : list ConstraintViolation :=
  (λ other, ConflictsWith k other)
    <$> filter (λ p, isSet d p = true) (ConflictsWith_ s).

Definition validatePrimitive (k : string) (s : FieldSchema) (v : Value)
    : list ConstraintViolation :=
  match ValidateFunc s with
  | Some f => f v k
  | None => []
  end.

Definition validateItems (k : string) (s : FieldSchema) (n : nat)
    : list ConstraintViolation :=
  (if bool_decide (0 < MaxItems s)%nat && bool_decide (MaxItems s < n)%nat
   then [TooManyItems k (MaxItems s) n] else [])
  ++ (if bool_decide (0 < MinItems s)%nat && bool_decide (n < MinItems s)%nat
      then [TooFewItems k (MinItems s) n] else []).

(** The checks that come before the value itself is looked at. *)
Definition validateGate (d : ResourceData) (k : string) (s : FieldSchema)
    (raw : option Value) (validateType : Value → list ConstraintViolation)
    : list ConstraintViolation :=
  validateExactlyOneAttribute d k s
  ++ match raw with
     | None => if Required s then [MissingRequired k] else []
     | Some v =>
         if negb (Required s) && negb (Optional s) then [CannotBeSet k]
         else validateConflictingAttributes d k s ++ validateType v
     end.

Definition validateObject (d : ResourceData) (prefix : string)
    (fields : list (string * FieldSchema)) (m : AnalyticsBlock)
    : list ConstraintViolation :=
  mbind (M := list)
    (λ '(k, s),
       let key := prefix +:+ "." +:+ k in
       validateGate d key s (blockAttr m k) (validatePrimitive key s))
    fields.

Definition validateType (d : ResourceData) (k : string) (s : Schema)
    (v : Value) : list ConstraintViolation :=
  match v with
  | VSet xs =>
      validateItems k s (size xs)
      ++ match Elem s with
         | ElemSchema es =>
             mbind (M := list)
               (λ x, validatePrimitive k es (VString x)) (elements xs)
         | _ => []
         end
  | VList l =>
      validateItems k s (length l)
      ++ match Elem s with
         | ElemResource fields =>
             mbind (M := list)
               (λ '(i, m), validateObject d (k +:+ "." +:+ pretty i) fields m)
               (imap pair l)
         | _ => []
         end
  | _ => validatePrimitive k s v
  end.

(** The Validator: every violation of every attribute, in schema order. *)
Definition validate (d : ResourceData) : list ConstraintViolation :=
  mbind (M := list)
    (λ '(k, s), validateGate d k (field s) (attr d k) (validateType d k s))
    resourceSchema.

(** ** Diff engine *)

Inductive Classification : Type := Update | Replace | Ignore.

#[global] Instance Classification_eq_dec : EqDecision Classification.
Proof. solve_decision. Defined.

Inductive Verb : Type := VerbCreate | VerbUpdate | VerbReplace | VerbNone.

#[global] Instance Verb_eq_dec : EqDecision Verb.
Proof. solve_decision. Defined.

(** The value the SDK compares: the attribute, or the zero value of its
    schema type when it is not set. *)
Definition attrValue (d : ResourceData) (k : string) (s : FieldSchema)
    : Value :=
  default (ValueType_Zero (Type_ s)) (attr d k).

Definition HasChange (old new : ResourceData) (k : string) (s : FieldSchema)
    : bool :=
  bool_decide (attrValue old k s ≠ attrValue new k s).

(** Modelled from the spec: the Diff Engine is the SDK's, outside the files at
    hand; what the resource contributes is the [ForceNew] and [Computed]
    members of its schema.  The policy per field: a field that did not change
    is ignored; an identity-affecting ([ForceNew]) field is a Replace on any
    change; a [Computed] field absent from the desired state is ignored; every
    other declared field is an Update when changed. *)
Definition classifyField (old new : ResourceData) (k : string)
    (s : FieldSchema) : Classification :=
  if negb (HasChange old new k s) then Ignore
  else if ForceNew s then Replace
  else if Computed s && bool_decide (attr new k = None) then Ignore
  else Update.

Definition classify (old new : ResourceData)
    : list (string * Classification) :=
  (λ '(k, s), (k, classifyField old new k (field s))) <$> resourceSchema.

(** Modelled from the spec: the tie-break rule of the Diff Engine and the verb
    the controller derives from it.  Without an observed state the entity is
    created; if any field classifies as Replace the whole reconciliation is a
    Replace; otherwise it is an Update if some field is Update-class. *)
Definition chooseVerb (old : option ResourceData) (new : ResourceData)
    : Verb :=
  match old with
  | None => VerbCreate
  | Some o =>
      let cs := classify o new in
      if existsb (λ kc, bool_decide (kc.2 = Replace)) cs then VerbReplace
      else if existsb (λ kc, bool_decide (kc.2 = Update)) cs then VerbUpdate
      else VerbNone
  end.

End Schema.

(** ** An echoing remote

    A remote system holding at most one client.  It stores every member of a
    Create or Update request unchanged, assigns the client id [cid] and the
    client secret [secret], and answers not-found for any other identity. *)

Definition echoCreate (cid : string) (secret : option string)
    (p : CreateUserPoolClientInput.t) : UserPoolClientType.t :=
  {| UserPoolClientType.AllowedOAuthFlows :=
       CreateUserPoolClientInput.AllowedOAuthFlows p;
     UserPoolClientType.AllowedOAuthFlowsUserPoolClient :=
       CreateUserPoolClientInput.AllowedOAuthFlowsUserPoolClient p;
     UserPoolClientType.AllowedOAuthScopes :=
       CreateUserPoolClientInput.AllowedOAuthScopes p;
     UserPoolClientType.AnalyticsConfiguration :=
       CreateUserPoolClientInput.AnalyticsConfiguration p;
     UserPoolClientType.CallbackURLs :=
       CreateUserPoolClientInput.CallbackURLs p;
     UserPoolClientType.ClientId := Some cid;
     UserPoolClientType.ClientName := CreateUserPoolClientInput.ClientName p;
     UserPoolClientType.ClientSecret := secret;
     UserPoolClientType.DefaultRedirectURI :=
       CreateUserPoolClientInput.DefaultRedirectURI p;
     UserPoolClientType.ExplicitAuthFlows :=
       CreateUserPoolClientInput.ExplicitAuthFlows p;
     UserPoolClientType.LogoutURLs := CreateUserPoolClientInput.LogoutURLs p;
     UserPoolClientType.PreventUserExistenceErrors :=
       CreateUserPoolClientInput.PreventUserExistenceErrors p;
     UserPoolClientType.ReadAttributes :=
       CreateUserPoolClientInput.ReadAttributes p;
     UserPoolClientType.RefreshTokenValidity :=
       CreateUserPoolClientInput.RefreshTokenValidity p;
     UserPoolClientType.SupportedIdentityProviders :=
       CreateUserPoolClientInput.SupportedIdentityProviders p;
     UserPoolClientType.UserPoolId := CreateUserPoolClientInput.UserPoolId p;
     UserPoolClientType.WriteAttributes :=
       CreateUserPoolClientInput.WriteAttributes p |}.

Definition echoUpdate (secret : option string)
    (p : UpdateUserPoolClientInput.t) : UserPoolClientType.t :=
  {| UserPoolClientType.AllowedOAuthFlows :=
       UpdateUserPoolClientInput.AllowedOAuthFlows p;
     UserPoolClientType.AllowedOAuthFlowsUserPoolClient :=
       UpdateUserPoolClientInput.AllowedOAuthFlowsUserPoolClient p;
     UserPoolClientType.AllowedOAuthScopes :=
       UpdateUserPoolClientInput.AllowedOAuthScopes p;
     UserPoolClientType.AnalyticsConfiguration :=
       UpdateUserPoolClientInput.AnalyticsConfiguration p;
     UserPoolClientType.CallbackURLs :=
       UpdateUserPoolClientInput.CallbackURLs p;
     UserPoolClientType.ClientId := UpdateUserPoolClientInput.ClientId p;
     UserPoolClientType.ClientName := UpdateUserPoolClientInput.ClientName p;
     UserPoolClientType.ClientSecret := secret;
     UserPoolClientType.DefaultRedirectURI :=
       UpdateUserPoolClientInput.DefaultRedirectURI p;
     UserPoolClientType.ExplicitAuthFlows :=
       UpdateUserPoolClientInput.ExplicitAuthFlows p;
     UserPoolClientType.LogoutURLs := UpdateUserPoolClientInput.LogoutURLs p;
     UserPoolClientType.PreventUserExistenceErrors :=
       UpdateUserPoolClientInput.PreventUserExistenceErrors p;
     UserPoolClientType.ReadAttributes :=
       UpdateUserPoolClientInput.ReadAttributes p;
     UserPoolClientType.RefreshTokenValidity :=
       UpdateUserPoolClientInput.RefreshTokenValidity p;
     UserPoolClientType.SupportedIdentityProviders :=
       UpdateUserPoolClientInput.SupportedIdentityProviders p;
     UserPoolClientType.UserPoolId := UpdateUserPoolClientInput.UserPoolId p;
     UserPoolClientType.WriteAttributes :=
       UpdateUserPoolClientInput.WriteAttributes p |}.

Definition holds (r : option UserPoolClientType.t)
    (clientId userPoolId : option string) : option UserPoolClientType.t :=
  match r with
  | Some c =>
      if bool_decide (UserPoolClientType.ClientId c = clientId)
         && bool_decide (UserPoolClientType.UserPoolId c = userPoolId)
      then Some c else None
  | None => None
  end.

Definition notFound : error :=
  AwsErr ErrCodeResourceNotFoundException "User pool client does not exist.".

Definition echoRemote (cid : string) (secret : option string)
    : cognitoidpconn (option UserPoolClientType.t) :=
  {| CreateUserPoolClient := λ p _,
       let c := echoCreate cid secret p in (Ok c, Some c);
     DescribeUserPoolClient := λ p r,
       match holds r (DescribeUserPoolClientInput.ClientId p)
                     (DescribeUserPoolClientInput.UserPoolId p) with
       | Some c => (Ok c, r)
       | None => (Err notFound, r)
       end;
     UpdateUserPoolClient := λ p r,
       match holds r (UpdateUserPoolClientInput.ClientId p)
                     (UpdateUserPoolClientInput.UserPoolId p) with
       | Some _ => let c := echoUpdate secret p in (Ok c, Some c)
       | None => (Err notFound, r)
       end;
     DeleteUserPoolClient := λ p r,
       match holds r (DeleteUserPoolClientInput.ClientId p)
                     (DeleteUserPoolClientInput.UserPoolId p) with
       | Some _ => (None, None)
       | None => (Some notFound, r)
       end |}.

(** The world before anything happened. *)
Definition world0 {Remote} (r : Remote) : World Remote := mkWorld r [].

(** The enum values of the AWS SDK release the provider builds against, and
    validators that accept everything, to run the Validator on examples. *)
Definition sdk_ExplicitAuthFlowsType_Values : list string :=
  ["ADMIN_NO_SRP_AUTH"; "CUSTOM_AUTH_FLOW_ONLY"; "USER_PASSWORD_AUTH";
   "ALLOW_ADMIN_USER_PASSWORD_AUTH"; "ALLOW_CUSTOM_AUTH";
   "ALLOW_USER_PASSWORD_AUTH"; "ALLOW_USER_SRP_AUTH";
   "ALLOW_REFRESH_TOKEN_AUTH"].

Definition sdk_OAuthFlowType_Values : list string :=
  ["code"; "implicit"; "client_credentials"].

Definition acceptAll : SchemaValidateFunc := λ _ _, [].

Definition exampleValidate : ResourceData → list ConstraintViolation :=
  validate sdk_ExplicitAuthFlowsType_Values sdk_OAuthFlowType_Values
           acceptAll acceptAll.

(** ** Auxiliary definitions for the properties *)

(** [strings.Join] for a one-byte separator, and [strings.Count]. *)
Fixpoint Join (l : list string) (sep : Ascii.ascii) : string :=
  match l with
  | [] => EmptyString
  | [x] => x
  | x :: l' => x +:+ String sep (Join l' sep)
  end.

Fixpoint Count (s : string) (sep : Ascii.ascii) : nat :=
  match s with
  | EmptyString => 0
  | String c s' => (if Ascii.eqb c sep then 1 else 0) + Count s' sep
  end.

Definition wrongFormat (id : string) : error :=
  Errorf ("Wrong format of resource: " +:+ id +:+
          ". Please follow 'user-pool-id/client-id'").

(** The world [w] once the events [es] have happened and left the remote in
    state [s]. *)
Definition after {Remote} (w : World Remote) (s : Remote) (es : list Event)
    : World Remote :=
  mkWorld s (trace w ++ es).

(** A request member assigned under [GetOk], as a function of the value of
    the attribute: nil at the zero value, the encoded value otherwise. *)
Definition sentIfNonZero {A B} `{Zero A, EqDecision A} (o : option A)
    (f : A → option B) : option B :=
  if bool_decide (Get o = zero) then None else f (Get o).

(** Two resource data with the same id and the same value for every attribute
    an encoder reads. *)
Definition sameValues (d1 d2 : ResourceData) : Prop :=
  Id d1 = Id d2
  ∧ Get (name d1) = Get (name d2)
  ∧ Get (generate_secret d1) = Get (generate_secret d2)
  ∧ Get (user_pool_id d1) = Get (user_pool_id d2)
  ∧ Get (explicit_auth_flows d1) = Get (explicit_auth_flows d2)
  ∧ Get (read_attributes d1) = Get (read_attributes d2)
  ∧ Get (write_attributes d1) = Get (write_attributes d2)
  ∧ Get (refresh_token_validity d1) = Get (refresh_token_validity d2)
  ∧ Get (allowed_oauth_flows d1) = Get (allowed_oauth_flows d2)
  ∧ Get (allowed_oauth_flows_user_pool_client d1)
    = Get (allowed_oauth_flows_user_pool_client d2)
  ∧ Get (allowed_oauth_scopes d1) = Get (allowed_oauth_scopes d2)
  ∧ Get (callback_urls d1) = Get (callback_urls d2)
  ∧ Get (default_redirect_uri d1) = Get (default_redirect_uri d2)
  ∧ Get (logout_urls d1) = Get (logout_urls d2)
  ∧ Get (prevent_user_existence_errors d1)
    = Get (prevent_user_existence_errors d2)
  ∧ Get (supported_identity_providers d1)
    = Get (supported_identity_providers d2)
  ∧ Get (analytics_configuration d1) = Get (analytics_configuration d2).

(** A set-of-string attribute with the request members it is encoded into
    (Create: lines 202-244 of the source, Update: lines 324-370). *)
Record SetField : Type := mkSetField {
  setter : option (gset string) → ResourceData → ResourceData;
  createMember : CreateUserPoolClientInput.t → option (list string);
  updateMember : UpdateUserPoolClientInput.t → option (list string) }.

Definition setFields : list SetField :=
  [ mkSetField Set_explicit_auth_flows
      CreateUserPoolClientInput.ExplicitAuthFlows
      UpdateUserPoolClientInput.ExplicitAuthFlows;
    mkSetField Set_read_attributes
      CreateUserPoolClientInput.ReadAttributes
      UpdateUserPoolClientInput.ReadAttributes;
    mkSetField Set_write_attributes
      CreateUserPoolClientInput.WriteAttributes
      UpdateUserPoolClientInput.WriteAttributes;
    mkSetField Set_allowed_oauth_flows
      CreateUserPoolClientInput.AllowedOAuthFlows
      UpdateUserPoolClientInput.AllowedOAuthFlows;
    mkSetField Set_allowed_oauth_scopes
      CreateUserPoolClientInput.AllowedOAuthScopes
      UpdateUserPoolClientInput.AllowedOAuthScopes;
    mkSetField Set_callback_urls
      CreateUserPoolClientInput.CallbackURLs
      UpdateUserPoolClientInput.CallbackURLs;
    mkSetField Set_logout_urls
      CreateUserPoolClientInput.LogoutURLs
      UpdateUserPoolClientInput.LogoutURLs;
    mkSetField Set_supported_identity_providers
      CreateUserPoolClientInput.SupportedIdentityProviders
      UpdateUserPoolClientInput.SupportedIdentityProviders ].

(** A client with the two required attributes and nothing else. *)
Definition exampleClient : ResourceData :=
  Set_user_pool_id (Some "pool1") (Set_name (Some "app1") emptyResourceData).

(** The client of the scenario once it exists on the remote. *)
Definition createdClient : ResourceData := SetId "c-1" exampleClient.

Definition remoteWithClient : option UserPoolClientType.t :=
  Some (echoCreate "c-1" None (createParams exampleClient)).

(** The values of the keys of an analytics block: those of the four keys
    the caller owns, and that of the [Computed] key [role_arn]. *)
Definition blockValues (m : AnalyticsBlock) : string * string * string * bool :=
  (Get (application_id m), Get (application_arn m), Get (external_id m),
   Get (user_data_shared m)).

Definition blockRoleArn (m : AnalyticsBlock) : string := Get (role_arn m).

(** Equality of desired state [s] and observed state [d] on every attribute
    that is not [Computed], an unset attribute counting as its zero value. *)
Definition equalOnNonComputed (s d : ResourceData) : Prop :=
  Get (name d) = Get (name s)
  ∧ generate_secret d = generate_secret s
  ∧ Get (user_pool_id d) = Get (user_pool_id s)
  ∧ Get (explicit_auth_flows d) = Get (explicit_auth_flows s)
  ∧ Get (read_attributes d) = Get (read_attributes s)
  ∧ Get (write_attributes d) = Get (write_attributes s)
  ∧ Get (refresh_token_validity d) = Get (refresh_token_validity s)
  ∧ Get (allowed_oauth_flows d) = Get (allowed_oauth_flows s)
  ∧ Get (allowed_oauth_flows_user_pool_client d)
    = Get (allowed_oauth_flows_user_pool_client s)
  ∧ Get (allowed_oauth_scopes d) = Get (allowed_oauth_scopes s)
  ∧ Get (callback_urls d) = Get (callback_urls s)
  ∧ Get (default_redirect_uri d) = Get (default_redirect_uri s)
  ∧ Get (logout_urls d) = Get (logout_urls s)
  ∧ Get (supported_identity_providers d)
    = Get (supported_identity_providers s)
  ∧ blockValues <$> Get (analytics_configuration d)
    = blockValues <$> Get (analytics_configuration s).

(** The paths a field schema refers to in its cross-field rules. *)
Definition fieldPaths (s : FieldSchema) : list string :=
  ExactlyOneOf s ++ ConflictsWith_ s.

(** [d1] and [d2] agree on whether each path is set. *)
Definition sameSet (d1 d2 : ResourceData) (paths : list string) : Prop :=
  Forall (λ p, isSet d1 p = isSet d2 p) paths.

(** ** Further definitions for the properties of the resource *)

(** An analytics block, and a wire configuration, in which no string key
    holds the empty string and [user_data_shared] is set: the form that both
    codecs produce. *)
Definition normalBlock (m : AnalyticsBlock) : Prop :=
  application_id m ≠ Some EmptyString
  ∧ application_arn m ≠ Some EmptyString
  ∧ external_id m ≠ Some EmptyString
  ∧ role_arn m ≠ Some EmptyString
  ∧ is_Some (user_data_shared m).

Definition normalConfig (c : AnalyticsConfigurationType.t) : Prop :=
  AnalyticsConfigurationType.ApplicationId c ≠ Some EmptyString
  ∧ AnalyticsConfigurationType.ApplicationArn c ≠ Some EmptyString
  ∧ AnalyticsConfigurationType.ExternalId c ≠ Some EmptyString
  ∧ AnalyticsConfigurationType.RoleArn c ≠ Some EmptyString
  ∧ is_Some (AnalyticsConfigurationType.UserDataShared c).

(** The transport calls of a trace, log lines dropped. *)
Definition isCall (e : Event) : bool :=
  match e with
  | LogPrintf _ _ => false
  | _ => true
  end.

Definition calls (t : list Event) : list Event := filter (λ e, isCall e = true) t.

(** A transport on which every call fails with the error [e]. *)
Definition failingRemote (e : error) : cognitoidpconn unit :=
  {| CreateUserPoolClient := λ _ r, (Err e, r);
     DescribeUserPoolClient := λ _ r, (Err e, r);
     UpdateUserPoolClient := λ _ r, (Err e, r);
     DeleteUserPoolClient := λ _ r, (Some e, r) |}.

Definition throttled : error :=
  AwsErr "TooManyRequestsException" "Rate exceeded".

(** Sample analytics blocks: one naming the application by id with an
    external id, one that also names it by ARN. *)
Definition blockById : AnalyticsBlock :=
  mkAnalyticsBlock (Some "app") None (Some "ext") None (Some true).

Definition blockByIdAndArn : AnalyticsBlock :=
  mkAnalyticsBlock (Some "app") (Some "arn:aws:mobiletargeting:app")
    (Some "ext") None None.

(** ** The acceptance-test helpers of the ElastiCache global replication group

    From [aws/resource_aws_elasticache_global_replication_group_test.go]: the
    destroy check, the existence check and the sweeper.  The finder, the
    deleter, the waiter's status constants and the error classifiers live in
    other files of the provider and are parameters here. *)

Module elasticache.
(** [elasticache.GlobalReplicationGroup], with the members the tests read. *)
Record GlobalReplicationGroup : Type := mkGlobalReplicationGroup {
  GlobalReplicationGroupId : option string;
  Status : option string }.
End elasticache.

Module terraform.
(** [terraform.ResourceState]: the resource type and the id of the primary
    instance. *)
Record ResourceState : Type := mkResourceState {
  ResourceType : string;
  PrimaryID : string }.
End terraform.

(** The error of a Go [(value, error)] result. *)
Definition errOf {A} (r : result A) : option error :=
  match r with
  | Ok _ => None
  | Err e => Some e
  end.

(** What the sweeper does to the outside world. *)
Inductive SweepArg : Type :=
  | SweepString (s : string)
  | SweepError (e : option error).

Inductive SweepEvent : Type :=
  | SweepLog (format : string) (args : list SweepArg)
  | SweepDelete (id : string).

(** The sweeper's view of the world: the remote, what happened so far, and
    the errors collected in [sweeperErrs] (a nil [*multierror.Error] is the
    empty list). *)
Record SweepState (Remote : Type) : Type := mkSweepState {
  sweepRemote : Remote;
  sweepEvents : list SweepEvent;
  sweeperErrs : list error }.
Arguments mkSweepState {Remote} _ _ _.
Arguments sweepRemote {Remote} _.
Arguments sweepEvents {Remote} _.
Arguments sweeperErrs {Remote} _.

(** The error a sweeper returns: a plain error, or the [*multierror.Error]
    holding the collected errors. *)
Inductive SweeperError : Type :=
  | PlainError (e : error)
  | MultiError (es : list error).

(** The [ErrorOrNil] method of the multierror. *)
Definition ErrorOrNil (es : list error) : option SweeperError :=
  match es with
  | [] => None
  | _ => Some (MultiError es)
  end.

(** The delete calls of a list of sweeper events, in order. *)
Definition deletedIds (es : list SweepEvent) : list string :=
  omap (λ e, match e with SweepDelete id => Some id | _ => None end) es.

(** The pages of a paginated listing that the callback gets to see when it
    carries on exactly until a page is flagged as the last one. *)
Fixpoint untilLastPage {A} (deliveries : list (A * bool)) : list (A * bool) :=
  match deliveries with
  | [] => []
  | (page, lastPage) :: rest =>
      (page, lastPage) :: (if lastPage then [] else untilLastPage rest)
  end.

Definition groupIds (page : option (list elasticache.GlobalReplicationGroup))
    : list string :=
  (λ g, aws_StringValue (elasticache.GlobalReplicationGroupId g))
    <$> default [] page.

Section GlobalReplicationGroupTests.

(** [finder.GlobalReplicationGroupByID] on the test connection, and
    [tfresource.NotFound]. *)
Variable GlobalReplicationGroupByID :
  string → result elasticache.GlobalReplicationGroup.
Variable NotFound : option error → bool.

(** [waiter.GlobalReplicationGroupStatusAvailable] and
    [waiter.GlobalReplicationGroupStatusPrimaryOnly]. *)
Variable GlobalReplicationGroupStatusAvailable : string.
Variable GlobalReplicationGroupStatusPrimaryOnly : string.

(** The destroy check.  [rss] are the resources of the root module in the
    order in which the [range] over the map visits them. *)
Fixpoint testAccCheckAWSElasticacheGlobalReplicationGroupDestroy
    (rss : list terraform.ResourceState) : option error :=
  match rss with
  | [] => None
  | rs :: rest =>
      if bool_decide (terraform.ResourceType rs
                      ≠ "aws_elasticache_global_replication_group")
      then testAccCheckAWSElasticacheGlobalReplicationGroupDestroy rest
      else
        let err := errOf (GlobalReplicationGroupByID (terraform.PrimaryID rs)) in
        if NotFound err
        then testAccCheckAWSElasticacheGlobalReplicationGroupDestroy rest
        else match err with
             | Some err => Some err
             | None =>
                 Some (Errorf ("ElastiCache Global Replication Group ("
                               +:+ terraform.PrimaryID rs
                               +:+ ") still exists"))
             end
  end.

(** The existence check: the closure applied to the state [s], with the
    group [v] points to before and after. *)
Definition testAccCheckAWSElasticacheGlobalReplicationGroupExists
    (resourceName : string) (v : elasticache.GlobalReplicationGroup)
    (s : gmap string terraform.ResourceState)
    : elasticache.GlobalReplicationGroup * option error :=
  match s !! resourceName with
  | None => (v, Some (Errorf ("Not found: " +:+ resourceName)))
  | Some rs =>
      if bool_decide (terraform.PrimaryID rs = EmptyString)
      then (v, Some (Errorf "No ElastiCache Global Replication Group ID is set"))
      else
        match GlobalReplicationGroupByID (terraform.PrimaryID rs) with
        | Err err =>
            (v, Some (Errorf ("error retrieving ElastiCache Global Replication Group ("
                              +:+ terraform.PrimaryID rs +:+ "): "
                              +:+ Error err)))
        | Ok grg =>
            if bool_decide (aws_StringValue (elasticache.Status grg)
                            ≠ GlobalReplicationGroupStatusAvailable)
               && bool_decide (aws_StringValue (elasticache.Status grg)
                               ≠ GlobalReplicationGroupStatusPrimaryOnly)
            then
              (v, Some (Errorf ("ElastiCache Global Replication Group ("
                                +:+ terraform.PrimaryID rs
                                +:+ ") exists, but is in a non-available state: "
                                +:+ aws_StringValue (elasticache.Status grg))))
            else (grg, None)
        end
  end.

Context {Remote : Type}.

(** [sharedClientForRegion], [deleteElasticacheGlobalReplicationGroup] and
    [testSweepSkipSweepError]. *)
Variable sharedClientForRegion : string → option error.
Variable deleteElasticacheGlobalReplicationGroup :
  string → Remote → option error * Remote.
Variable testSweepSkipSweepError : option error → bool.

Definition sweepLogPrintf (format : string) (args : list SweepArg)
    (st : SweepState Remote) : SweepState Remote :=
  mkSweepState (sweepRemote st) (sweepEvents st ++ [SweepLog format args])
    (sweeperErrs st).

(** The body of the loop over the groups of a page. *)
Definition sweepGroup (st : SweepState Remote)
    (globalReplicationGroup : elasticache.GlobalReplicationGroup)
    : SweepState Remote :=
  let id :=
    aws_StringValue
      (elasticache.GlobalReplicationGroupId globalReplicationGroup) in
  let st :=
    sweepLogPrintf "[INFO] Deleting ElastiCache Global Replication Group: %s"
      [SweepString id] st in
  let '(err, r) :=
    deleteElasticacheGlobalReplicationGroup id (sweepRemote st) in
  let st :=
    mkSweepState r (sweepEvents st ++ [SweepDelete id]) (sweeperErrs st) in
  match err with
  | Some err =>
      let sweeperErr :=
        Errorf ("error deleting ElastiCache Global Replication Group ("
                +:+ id +:+ "): " +:+ Error err) in
      let st :=
        sweepLogPrintf "[ERROR] %s" [SweepError (Some sweeperErr)] st in
      mkSweepState (sweepRemote st) (sweepEvents st)
        (sweeperErrs st ++ [sweeperErr])
  | None => st
  end.

(** The callback handed to [DescribeGlobalReplicationGroupsPages]. *)
Definition sweepPage (page : option (list elasticache.GlobalReplicationGroup))
    (lastPage : bool) (st : SweepState Remote) : bool * SweepState Remote :=
  match page with
  | None => (negb lastPage, st)
  | Some groups => (negb lastPage, foldl sweepGroup st groups)
  end.

(** The pager of the AWS SDK, outside the files at hand: it hands each page
    it fetched to the callback, with the flag that tells whether it is the
    last one, and stops as soon as the callback returns false.
    [deliveries] are the pages the remote would deliver. *)
Fixpoint DescribeGlobalReplicationGroupsPages
    (deliveries :
       list (option (list elasticache.GlobalReplicationGroup) * bool))
    (fn : option (list elasticache.GlobalReplicationGroup) → bool →
          SweepState Remote → bool * SweepState Remote)
    (st : SweepState Remote) : SweepState Remote :=
  match deliveries with
  | [] => st
  | (page, lastPage) :: rest =>
      let '(continue, st) := fn page lastPage st in
      if continue then DescribeGlobalReplicationGroupsPages rest fn st
      else st
  end.

(** The sweeper, run on the remote [r].  [deliveries] and [listErr] are what
    the listing delivers and the error it ends with.  It starts with no event
    and with a nil [sweeperErrs]. *)
Definition testSweepElasticacheGlobalReplicationGroups (region : string)
    (deliveries :
       list (option (list elasticache.GlobalReplicationGroup) * bool))
    (listErr : option error) (r : Remote)
    : option SweeperError * SweepState Remote :=
  let st := mkSweepState r [] [] in
  match sharedClientForRegion region with
  | Some err =>
      (Some (PlainError (Errorf ("error getting client: " +:+ Error err))), st)
  | None =>
      let st := DescribeGlobalReplicationGroupsPages deliveries sweepPage st in
      let err := listErr in
      if testSweepSkipSweepError err then
        let st :=
          sweepLogPrintf
            "[WARN] Skipping ElastiCache Global Replication Group sweep for %q: %s"
            [SweepString region; SweepError err] st in
        (ErrorOrNil (sweeperErrs st), st)
      else
        let st :=
          match err with
          | Some err =>
              mkSweepState (sweepRemote st) (sweepEvents st)
                (sweeperErrs st
                 ++ [Errorf ("error listing ElastiCache Global Replication Groups: "
                             +:+ Error err)])
          | None => st
          end in
        (ErrorOrNil (sweeperErrs st), st)
  end.

End GlobalReplicationGroupTests.

(** The deletions of a list of ids carried out one after the other: the
    outcome of each, and the remote they leave. *)
Fixpoint deleteAll {Remote}
    (delete : string → Remote → option error * Remote)
    (ids : list string) (r : Remote)
    : list (string * option error) * Remote :=
  match ids with
  | [] => ([], r)
  | id :: rest =>
      let '(err, r) := delete id r in
      let '(outcomes, r) := deleteAll delete rest r in
      ((id, err) :: outcomes, r)
  end.

(** The errors the sweeper collects for the failed deletions. *)
Definition deletionErrors (outcomes : list (string * option error))
    : list error :=
  omap (λ '(id, err),
          (λ err, Errorf ("error deleting ElastiCache Global Replication Group ("
                          +:+ id +:+ "): " +:+ Error err)) <$> err)
       outcomes.

(** The ids on the pages the sweeper gets to see. *)
Definition sweptIds
    (deliveries :
       list (option (list elasticache.GlobalReplicationGroup) * bool))
    : list string :=
  (untilLastPage deliveries).*1 ≫= groupIds.

Definition globalReplicationGroupType : string :=
  "aws_elasticache_global_replication_group".

(** A resource of the checked type whose lookup is not reported as not
    found. *)
Definition stillThere
    (GlobalReplicationGroupByID :
       string → result elasticache.GlobalReplicationGroup)
    (NotFound : option error → bool) (rs : terraform.ResourceState) : Prop :=
  terraform.ResourceType rs = globalReplicationGroupType
  ∧ NotFound (errOf (GlobalReplicationGroupByID (terraform.PrimaryID rs)))
    = false.

(** A sample finder and classifier to run the checks on examples: the group
    with id [gone] is not found, every other one is available. *)
Definition sampleNotFoundError : error := Errorf "couldn't find resource".

Definition sampleFinder (id : string)
    : result elasticache.GlobalReplicationGroup :=
  if String.eqb id "gone" then Err sampleNotFoundError
  else Ok (elasticache.mkGlobalReplicationGroup (Some id) (Some "available")).

Definition sampleNotFound (err : option error) : bool :=
  bool_decide (err = Some sampleNotFoundError).

Definition sampleState : gmap string terraform.ResourceState :=
  {[ "aws_elasticache_global_replication_group.test" :=
       terraform.mkResourceState globalReplicationGroupType "gone" ]}.

Definition sampleGroup : elasticache.GlobalReplicationGroup :=
  elasticache.mkGlobalReplicationGroup (Some "grg-1") (Some "available").

(** * Properties *)

(** ** Zero values and [GetOk] *)

Section GetOk.
Context {A : Type} `{Zero A, EqDecision A}.

Lemma GetOk_value (o : option A) : (GetOk o).1 = Get o.
Proof. by destruct o. Qed.

Lemma GetOk_ok (o : option A) : (GetOk o).2 = bool_decide (Get o ≠ zero).
Proof.
  destruct o as [v|]; simpl; [done|].
  symmetry. apply bool_decide_eq_false. by intros [].
Qed.

(** A member assigned under [GetOk] is a function of the attribute's value:
    nil when the value is the zero value, whether set or not. *)
Lemma whenOk_GetOk {B} (o : option A) (f : A → option B) :
  whenOk (GetOk o) f = sentIfNonZero o f.
Proof.
  unfold whenOk, sentIfNonZero. rewrite GetOk_ok, GetOk_value.
  by repeat case_bool_decide.
Qed.

Lemma whenOk_GetOk_ext {B} (o1 o2 : option A) (f : A → option B) :
  Get o1 = Get o2 → whenOk (GetOk o1) f = whenOk (GetOk o2) f.
Proof. intros E. rewrite !whenOk_GetOk. unfold sentIfNonZero. by rewrite E. Qed.

Lemma whenOk_GetOk_zero {B} (f : A → option B) :
  whenOk (GetOk (Some zero)) f = whenOk (GetOk None) f.
Proof. by apply whenOk_GetOk_ext. Qed.

Lemma whenOk_GetOk_nonzero {B} (v : A) (f : A → option B) :
  v ≠ zero → whenOk (GetOk (Some v)) f = f v.
Proof.
  intros Hv. rewrite whenOk_GetOk. unfold sentIfNonZero. simpl.
  by case_bool_decide.
Qed.

End GetOk.

(** The value of a pointer member that was assigned under [GetOk]. *)
Lemma Get_whenOk_GetOk {A} `{Zero A, EqDecision A} (o : option A) :
  Get (whenOk (GetOk o) Some) = Get o.
Proof. rewrite whenOk_GetOk. unfold sentIfNonZero. by case_bool_decide. Qed.

(** Encoding a set and decoding the echoed list gives the set back; an omitted
    member decodes to the empty set. *)
Lemma flatten_expand (o : option (gset string)) :
  flattenStringSet (whenOk (GetOk o) expandStringSet) = Get o.
Proof.
  rewrite whenOk_GetOk. unfold sentIfNonZero, flattenStringSet, expandStringSet.
  case_bool_decide as E; simpl.
  - by rewrite E.
  - apply list_to_set_elements_L.
Qed.

(** ** Requests depend on attribute values only *)

Ltac same_values :=
  match goal with
  | E : Get ?a = Get ?b |- context [whenOk (GetOk ?a) ?f] =>
      rewrite (whenOk_GetOk_ext a b f E); clear E
  end.

Lemma createParams_sameValues (d1 d2 : ResourceData) :
  sameValues d1 d2 → createParams d1 = createParams d2.
Proof.
  intros (_ & E1 & ? & E2 & ? & ? & ? & ? & ? & ? & ? & ? & ? & ? & ? & ? & ?).
  unfold createParams. rewrite E1, E2. by repeat same_values.
Qed.

Lemma updateParams_sameValues (d1 d2 : ResourceData) :
  sameValues d1 d2 → updateParams d1 = updateParams d2.
Proof.
  intros (E0 & ? & _ & E2 & ? & ? & ? & ? & ? & ? & ? & ? & ? & ? & ? & ? & ?).
  unfold updateParams. rewrite E0, E2. by repeat same_values.
Qed.

(** ** The set-valued attributes *)

Ltac by_same_values :=
  first [ apply createParams_sameValues | apply updateParams_sameValues ];
  repeat split; reflexivity.

(** C8, as the specification states it, fails: a [callback_urls] attribute
    that is present with zero elements is encoded into the very request that
    an absent [callback_urls] gives. *)
Lemma empty_set_encodes_as_absent :
  createParams (Set_callback_urls (Some ∅) exampleClient)
  = createParams (Set_callback_urls None exampleClient)
  ∧ updateParams (Set_callback_urls (Some ∅) exampleClient)
    = updateParams (Set_callback_urls None exampleClient).
Proof. split; by_same_values. Qed.

(** C8, amended: for every set-of-string attribute the codec has two wire
    states, omitted and populated.  An attribute that is present with zero
    elements and an absent one give the same Create request and the same Update
    request, in which the member is omitted; a non-empty set is sent as the
    list of its elements; and an omitted member decodes to the empty set. *)
Theorem set_encoding_two_states :
  Forall (λ f, ∀ (d : ResourceData) (s : gset string),
    createParams (setter f (Some ∅) d) = createParams (setter f None d)
    ∧ updateParams (setter f (Some ∅) d) = updateParams (setter f None d)
    ∧ createMember f (createParams (setter f None d)) = None
    ∧ updateMember f (updateParams (setter f None d)) = None
    ∧ (s ≠ ∅ →
       createMember f (createParams (setter f (Some s) d))
       = expandStringSet s
       ∧ updateMember f (updateParams (setter f (Some s) d))
         = expandStringSet s))
    setFields
  ∧ flattenStringSet None = ∅.
Proof.
  split; [|done].
  repeat first [ apply List.Forall_cons | apply List.Forall_nil ];
    intros d s; simpl;
    (split; [by_same_values|]); (split; [by_same_values|]);
    (split; [done|]); (split; [done|]);
    intros Hs; unfold whenOk; simpl; by rewrite bool_decide_eq_true_2.
Qed.

Lemma set_encoding_two_states_witness :
  ({["https://a.example/cb"]} : gset string) ≠ ∅
  ∧ CreateUserPoolClientInput.CallbackURLs
      (createParams
         (Set_callback_urls (Some {["https://a.example/cb"]}) exampleClient))
    = expandStringSet {["https://a.example/cb"]}.
Proof.
  assert (Hne : ({["https://a.example/cb"]} : gset string) ≠ ∅)
    by apply non_empty_singleton_L.
  split; [exact Hne|].
  pose proof (Forall_lookup_1 _ _ 5%nat _ (proj1 set_encoding_two_states)
                eq_refl) as Hcb.
  exact (proj1 (proj2 (proj2 (proj2 (proj2
           (Hcb exampleClient {["https://a.example/cb"]})))) Hne)).
Defined.

(** ** Optional booleans *)

(** C10: an optional boolean that is explicitly false is left out of the
    request, so that an explicit false and an absent value give the same
    Create request and the same Update request.  ([generate_secret] has no
    member in the Update request at all.) *)
Theorem explicit_false_is_omitted (d : ResourceData) :
  createParams (Set_generate_secret (Some false) d)
  = createParams (Set_generate_secret None d)
  ∧ CreateUserPoolClientInput.GenerateSecret
      (createParams (Set_generate_secret (Some false) d)) = None
  ∧ updateParams (Set_generate_secret (Some false) d)
    = updateParams (Set_generate_secret None d)
  ∧ createParams (Set_allowed_oauth_flows_user_pool_client (Some false) d)
    = createParams (Set_allowed_oauth_flows_user_pool_client None d)
  ∧ CreateUserPoolClientInput.AllowedOAuthFlowsUserPoolClient
      (createParams (Set_allowed_oauth_flows_user_pool_client (Some false) d))
    = None
  ∧ updateParams (Set_allowed_oauth_flows_user_pool_client (Some false) d)
    = updateParams (Set_allowed_oauth_flows_user_pool_client None d)
  ∧ UpdateUserPoolClientInput.AllowedOAuthFlowsUserPoolClient
      (updateParams (Set_allowed_oauth_flows_user_pool_client (Some false) d))
    = None.
Proof. repeat split; first [ by_same_values | reflexivity ]. Qed.

(** ** The client secret *)

Section Secret.
Context {Remote : Type}.
Variable conn : cognitoidpconn Remote.

Lemma Read_world_secret (v : option string) (d : ResourceData)
    (w : World Remote) :
  (resourceAwsCognitoUserPoolClientRead conn (Set_client_secret v d) w).2
  = (resourceAwsCognitoUserPoolClientRead conn d w).2.
Proof.
  unfold resourceAwsCognitoUserPoolClientRead, mbind, M_bind, mret, M_ret,
    log_Printf, emit, conn_DescribeUserPoolClient; simpl.
  change (describeParams (Set_client_secret v d)) with (describeParams d).
  destruct (DescribeUserPoolClient conn _ _) as [[c|e] s]; [done|].
  by destruct (isAWSErr _ _ _).
Qed.

(** C9: the requests that Create and Update build do not depend on the
    [client_secret] held in the resource data, and neither does anything else
    the two functions send or log.  The secret enters the resource data only
    by decoding a response: after Read, [client_secret] is the [ClientSecret]
    of the response to its Describe call, and it is left as it was when that
    call fails; after Create and Update it is the [ClientSecret] of the
    response to the Describe call of their Read-back, and it is left as it was
    when the Create or Update call, or that Describe call, fails. *)
Theorem secret_confined (v : option string) (d : ResourceData)
    (w : World Remote) (c : UserPoolClientType.t) :
  let secretAfterDescribe (d0 : ResourceData) (s : Remote) :=
    match (DescribeUserPoolClient conn (describeParams d0) s).1 with
    | Ok resp => UserPoolClientType.ClientSecret resp
    | Err _ => client_secret d
    end in
  createParams (Set_client_secret v d) = createParams d
  ∧ updateParams (Set_client_secret v d) = updateParams d
  ∧ (resourceAwsCognitoUserPoolClientCreate conn (Set_client_secret v d) w).2
    = (resourceAwsCognitoUserPoolClientCreate conn d w).2
  ∧ (resourceAwsCognitoUserPoolClientUpdate conn (Set_client_secret v d) w).2
    = (resourceAwsCognitoUserPoolClientUpdate conn d w).2
  ∧ client_secret (setFromResponse c d) = UserPoolClientType.ClientSecret c
  ∧ client_secret (resourceAwsCognitoUserPoolClientRead conn d w).1.1
    = secretAfterDescribe d (remote w)
  ∧ client_secret (resourceAwsCognitoUserPoolClientCreate conn d w).1.1
    = match CreateUserPoolClient conn (createParams d) (remote w) with
      | (Ok created, s) =>
          secretAfterDescribe
            (SetId (aws_StringValue (UserPoolClientType.ClientId created)) d)
            s
      | (Err _, _) => client_secret d
      end
  ∧ client_secret (resourceAwsCognitoUserPoolClientUpdate conn d w).1.1
    = match UpdateUserPoolClient conn (updateParams d) (remote w) with
      | (Ok _, s) => secretAfterDescribe d s
      | (Err _, _) => client_secret d
      end.
Proof.
  intros secretAfterDescribe.
  assert (HRead : ∀ d0 (w0 : World Remote),
    client_secret d0 = client_secret d →
    client_secret (resourceAwsCognitoUserPoolClientRead conn d0 w0).1.1
    = secretAfterDescribe d0 (remote w0)).
  { intros d0 w0 Hd0. unfold secretAfterDescribe.
    unfold resourceAwsCognitoUserPoolClientRead, mbind, M_bind, mret, M_ret,
      log_Printf, emit, conn_DescribeUserPoolClient; simpl.
    destruct (DescribeUserPoolClient conn _ _) as [[resp|e] s]; simpl;
      [done|].
    by destruct (isAWSErr _ _ _). }
  split; [done|]. split; [done|]. split; [|split; [|split; [done|]]].
  - unfold resourceAwsCognitoUserPoolClientCreate, mbind, M_bind, mret, M_ret,
      log_Printf, emit, conn_CreateUserPoolClient; simpl.
    change (createParams (Set_client_secret v d)) with (createParams d).
    destruct (CreateUserPoolClient conn _ _) as [[c'|e] s]; [|done].
    apply (Read_world_secret v (SetId _ d)).
  - unfold resourceAwsCognitoUserPoolClientUpdate, mbind, M_bind, mret, M_ret,
      log_Printf, emit, conn_UpdateUserPoolClient; simpl.
    change (updateParams (Set_client_secret v d)) with (updateParams d).
    destruct (UpdateUserPoolClient conn _ _) as [[c'|e] s]; [|done].
    apply Read_world_secret.
  - split; [by apply HRead|]. split.
    + unfold resourceAwsCognitoUserPoolClientCreate at 1.
      unfold mbind, M_bind, mret, M_ret, log_Printf, emit,
        conn_CreateUserPoolClient; simpl.
      destruct (CreateUserPoolClient conn _ _) as [[created|e] s]; [|done].
      by rewrite HRead.
    + unfold resourceAwsCognitoUserPoolClientUpdate at 1.
      unfold mbind, M_bind, mret, M_ret, log_Printf, emit,
        conn_UpdateUserPoolClient; simpl.
      destruct (UpdateUserPoolClient conn _ _) as [[updated|e] s]; [|done].
      by rewrite HRead.
Qed.

End Secret.

(** ** Read, Delete and Update against an arbitrary transport *)

Lemma Contains_empty (s : string) : Contains s EmptyString = true.
Proof. by destruct s. Qed.

(** With an empty message pattern, [isAWSErr] looks at the code alone. *)
Lemma isAWSErr_code (e : error) (code : string) :
  isAWSErr e code EmptyString = true ↔ ∃ message, e = AwsErr code message.
Proof.
  destruct e as [c m|msg]; simpl.
  - rewrite Contains_empty, andb_true_r, bool_decide_eq_true. split.
    + intros ->. by exists m.
    + by intros [? [= -> _]].
  - split; [done|]. by intros [? ?].
Qed.

Section Verbs.
Context {Remote : Type}.
Variable conn : cognitoidpconn Remote.

Lemma Read_Err (d : ResourceData) (w : World Remote) (e : error)
    (s : Remote) :
  DescribeUserPoolClient conn (describeParams d) (remote w) = (Err e, s) →
  (resourceAwsCognitoUserPoolClientRead conn d w).1
  = if isAWSErr e ErrCodeResourceNotFoundException EmptyString
    then (SetId EmptyString d, None) else (d, Some e).
Proof.
  intros Hcall.
  unfold resourceAwsCognitoUserPoolClientRead, mbind, M_bind, mret, M_ret,
    log_Printf, emit, conn_DescribeUserPoolClient; simpl.
  rewrite Hcall. by destruct (isAWSErr _ _ _).
Qed.

Lemma Read_trace (d : ResourceData) (w : World Remote) :
  ∃ tl, trace (resourceAwsCognitoUserPoolClientRead conn d w).2
        = trace w
          ++ LogPrintf "[DEBUG] Reading Cognito User Pool Client: %s"
               [ArgDescribe (describeParams d)]
          :: CallDescribe (describeParams d) :: tl.
Proof.
  unfold resourceAwsCognitoUserPoolClientRead, mbind, M_bind, mret, M_ret,
    log_Printf, emit, conn_DescribeUserPoolClient; simpl.
  destruct (DescribeUserPoolClient conn _ _) as [[c|e] s]; simpl.
  - exists []. by rewrite <- app_assoc.
  - destruct (isAWSErr _ _ _); simpl; eexists; by rewrite <- !app_assoc.
Qed.

(** C3: when the Describe call of Read fails with a not-found error, Read
    clears the id and returns no error; when it fails with any other error,
    Read returns that error and leaves the resource data alone. *)
Theorem read_not_found (d : ResourceData) (w : World Remote) (e : error)
    (s : Remote) :
  DescribeUserPoolClient conn (describeParams d) (remote w) = (Err e, s) →
  ((∃ message, e = AwsErr ErrCodeResourceNotFoundException message) →
   (resourceAwsCognitoUserPoolClientRead conn d w).1
   = (SetId EmptyString d, None)
   ∧ Id (SetId EmptyString d) = EmptyString)
  ∧ ((∀ message, e ≠ AwsErr ErrCodeResourceNotFoundException message) →
     (resourceAwsCognitoUserPoolClientRead conn d w).1 = (d, Some e)).
Proof.
  intros Hcall. rewrite (Read_Err d w e s Hcall). split.
  - intros Hnf. by apply isAWSErr_code in Hnf as ->.
  - intros Hother.
    destruct (isAWSErr e _ _) eqn:E; [|done].
    apply isAWSErr_code in E as [m ->]. by destruct (Hother m).
Qed.

Lemma Delete_Err (d : ResourceData) (w : World Remote) (e : error)
    (s : Remote) :
  DeleteUserPoolClient conn (deleteParams d) (remote w) = (Some e, s) →
  (resourceAwsCognitoUserPoolClientDelete conn d w).1
  = (d, Some (Errorf ("Error deleting Cognito User Pool Client: "
                      +:+ Error e))).
Proof.
  intros Hcall.
  unfold resourceAwsCognitoUserPoolClientDelete, mbind, M_bind, mret, M_ret,
    log_Printf, emit, conn_DeleteUserPoolClient; simpl.
  by rewrite Hcall.
Qed.

Lemma Update_Ok (d : ResourceData) (w : World Remote)
    (c : UserPoolClientType.t) (s : Remote) :
  UpdateUserPoolClient conn (updateParams d) (remote w) = (Ok c, s) →
  resourceAwsCognitoUserPoolClientUpdate conn d w
  = resourceAwsCognitoUserPoolClientRead conn d
      (after w s
         [LogPrintf "[DEBUG] Updating Cognito User Pool Client: %s"
            [ArgUpdate (updateParams d)];
          CallUpdate (updateParams d)]).
Proof.
  intros Hcall.
  unfold resourceAwsCognitoUserPoolClientUpdate at 1.
  cbv [mbind M_bind mret M_ret log_Printf emit conn_UpdateUserPoolClient
       after trace remote] in Hcall |- *.
  rewrite Hcall. by rewrite <- app_assoc.
Qed.

(** C6, amended: the Update request is built from the current resource data
    alone.  It carries the identity and every settable attribute whose value
    is not the zero value of its type, whether or not that value differs from
    the last observed one; an attribute at its zero value is omitted.  After
    a successful Update call, Update is exactly a Read in the world the call
    left, so a Describe call for the same identity follows. *)
Theorem update_request_and_resync (d : ResourceData) (w : World Remote) :
  let p := updateParams d in
  UpdateUserPoolClientInput.ClientId p = Some (Id d)
  ∧ UpdateUserPoolClientInput.UserPoolId p = Some (Get (user_pool_id d))
  ∧ UpdateUserPoolClientInput.ClientName p = sentIfNonZero (name d) aws_String
  ∧ UpdateUserPoolClientInput.ExplicitAuthFlows p
    = sentIfNonZero (explicit_auth_flows d) expandStringSet
  ∧ UpdateUserPoolClientInput.ReadAttributes p
    = sentIfNonZero (read_attributes d) expandStringSet
  ∧ UpdateUserPoolClientInput.WriteAttributes p
    = sentIfNonZero (write_attributes d) expandStringSet
  ∧ UpdateUserPoolClientInput.RefreshTokenValidity p
    = sentIfNonZero (refresh_token_validity d) aws_Int64
  ∧ UpdateUserPoolClientInput.AllowedOAuthFlows p
    = sentIfNonZero (allowed_oauth_flows d) expandStringSet
  ∧ UpdateUserPoolClientInput.AllowedOAuthFlowsUserPoolClient p
    = sentIfNonZero (allowed_oauth_flows_user_pool_client d) aws_Bool
  ∧ UpdateUserPoolClientInput.AllowedOAuthScopes p
    = sentIfNonZero (allowed_oauth_scopes d) expandStringSet
  ∧ UpdateUserPoolClientInput.CallbackURLs p
    = sentIfNonZero (callback_urls d) expandStringSet
  ∧ UpdateUserPoolClientInput.DefaultRedirectURI p
    = sentIfNonZero (default_redirect_uri d) aws_String
  ∧ UpdateUserPoolClientInput.LogoutURLs p
    = sentIfNonZero (logout_urls d) expandStringSet
  ∧ UpdateUserPoolClientInput.PreventUserExistenceErrors p
    = sentIfNonZero (prevent_user_existence_errors d) aws_String
  ∧ UpdateUserPoolClientInput.SupportedIdentityProviders p
    = sentIfNonZero (supported_identity_providers d) expandStringSet
  ∧ UpdateUserPoolClientInput.AnalyticsConfiguration p
    = sentIfNonZero (analytics_configuration d)
        expandAwsCognitoUserPoolClientAnalyticsConfig
  ∧ ∀ (c : UserPoolClientType.t) (s : Remote),
      UpdateUserPoolClient conn p (remote w) = (Ok c, s) →
      let w1 :=
        after w s
          [LogPrintf "[DEBUG] Updating Cognito User Pool Client: %s"
             [ArgUpdate p];
           CallUpdate p] in
      resourceAwsCognitoUserPoolClientUpdate conn d w
      = resourceAwsCognitoUserPoolClientRead conn d w1
      ∧ ∃ tl, trace (resourceAwsCognitoUserPoolClientUpdate conn d w).2
              = trace w1
                ++ LogPrintf "[DEBUG] Reading Cognito User Pool Client: %s"
                     [ArgDescribe (describeParams d)]
                :: CallDescribe (describeParams d) :: tl.
Proof.
  intros p. split_and!;
    try (unfold p, updateParams; simpl; by rewrite ?whenOk_GetOk).
  intros c s Hcall w1. unfold w1, p.
  rewrite (Update_Ok d w c s Hcall). split; [done|]. apply Read_trace.
Qed.

End Verbs.

(** ** Import *)

Example slash_is_the_separator : String slash EmptyString = "/".
Proof. reflexivity. Qed.

Lemma Split_not_nil (s : string) (sep : Ascii.ascii) : Split s sep ≠ [].
Proof.
  destruct s as [|c s]; simpl; [done|].
  destruct (Ascii.eqb c sep); [done|]. by destruct (Split s sep).
Qed.

(** Splitting loses nothing: joining the pieces gives the string back. *)
Lemma Join_Split (s : string) (sep : Ascii.ascii) : Join (Split s sep) sep = s.
Proof.
  induction s as [|c s IH]; simpl; [done|].
  pose proof (Split_not_nil s sep) as Hne.
  destruct (Ascii.eqb c sep) eqn:E.
  - apply Ascii.eqb_eq in E as ->.
    destruct (Split s sep) as [|p ps]; [done|]. simpl in *. by rewrite IH.
  - destruct (Split s sep) as [|p ps]; [done|].
    destruct ps; simpl in *; by rewrite <- IH.
Qed.

(** There is one piece more than there are separators. *)
Lemma length_Split (s : string) (sep : Ascii.ascii) :
  length (Split s sep) = S (Count s sep).
Proof.
  induction s as [|c s IH]; simpl; [done|].
  destruct (Ascii.eqb c sep); simpl; [by rewrite IH|].
  pose proof (Split_not_nil s sep).
  destruct (Split s sep); [done|]. simpl in *. lia.
Qed.

Lemma Import_fail {Remote} (d : ResourceData) (w : World Remote) :
  length (Split (Id d) slash) ≠ 2%nat ∨ (String.length (Id d) < 3)%nat →
  (resourceAwsCognitoUserPoolClientImport d w).1
  = ([], Some (wrongFormat (Id d))).
Proof.
  intros Hbad. unfold resourceAwsCognitoUserPoolClientImport.
  destruct (_ || _) eqn:E; [done|].
  apply orb_false_iff in E as [E1 E2].
  apply bool_decide_eq_false in E1, E2. tauto.
Qed.

Lemma Import_ok {Remote} (d : ResourceData) (w : World Remote)
    (userPoolId clientId : string) :
  Split (Id d) slash = [userPoolId; clientId] →
  (3 ≤ String.length (Id d))%nat →
  (resourceAwsCognitoUserPoolClientImport d w).1
  = ([Set_user_pool_id (Some userPoolId) (SetId clientId d)], None).
Proof.
  intros Hsplit Hlen. unfold resourceAwsCognitoUserPoolClientImport.
  rewrite Hsplit. simpl length.
  rewrite bool_decide_eq_false_2 by (intros ?; done).
  rewrite bool_decide_eq_false_2 by lia. done.
Qed.

(** C5: the importer accepts identifiers with an empty part.  [ab/] splits
    into [ab] and the empty string and is imported with an empty id, and [/ab]
    is imported with an empty user pool id, although the message of the
    importer asks for the shape [user-pool-id/client-id].  The length test of
    the guard refuses an empty part only in the identifiers shorter than three
    bytes: [/], [a/] and [/a] are refused. *)
Theorem import_accepts_empty_part {Remote} (d : ResourceData)
    (w : World Remote) :
  Split "ab/" slash = ["ab"; EmptyString]
  ∧ (resourceAwsCognitoUserPoolClientImport (SetId "ab/" d) w).1
    = ([Set_user_pool_id (Some "ab") (SetId EmptyString d)], None)
  ∧ Split "/ab" slash = [EmptyString; "ab"]
  ∧ (resourceAwsCognitoUserPoolClientImport (SetId "/ab" d) w).1
    = ([Set_user_pool_id (Some EmptyString) (SetId "ab" d)], None)
  ∧ (resourceAwsCognitoUserPoolClientImport (SetId "/" d) w).1
    = ([], Some (wrongFormat "/"))
  ∧ (resourceAwsCognitoUserPoolClientImport (SetId "a/" d) w).1
    = ([], Some (wrongFormat "a/"))
  ∧ (resourceAwsCognitoUserPoolClientImport (SetId "/a" d) w).1
    = ([], Some (wrongFormat "/a")).
Proof. split_and!; reflexivity. Qed.

(** The guard of the importer as the code has it: the importer succeeds if
    and only if the identifier splits on the separator into exactly two parts
    (it holds exactly one separator) and is at least three bytes long, whether
    or not a part is empty.  On success the first part becomes [user_pool_id]
    and the second the id; otherwise the importer returns no resource and an
    error that names the expected shape. *)
Lemma Import_guard {Remote} (d : ResourceData) (w : World Remote) :
  ((length (Split (Id d) slash) = 2%nat ∧ (3 ≤ String.length (Id d))%nat) →
   ∃ userPoolId clientId,
     Split (Id d) slash = [userPoolId; clientId]
     ∧ Id d = userPoolId +:+ String slash clientId
     ∧ Count (Id d) slash = 1%nat
     ∧ (resourceAwsCognitoUserPoolClientImport d w).1
       = ([Set_user_pool_id (Some userPoolId) (SetId clientId d)], None))
  ∧ (¬ (length (Split (Id d) slash) = 2%nat
        ∧ (3 ≤ String.length (Id d))%nat) →
     (resourceAwsCognitoUserPoolClientImport d w).1
     = ([], Some (Errorf ("Wrong format of resource: " +:+ Id d +:+
                          ". Please follow 'user-pool-id/client-id'")))).
Proof.
  split.
  - intros [Hparts Hlen].
    pose proof (Join_Split (Id d) slash) as Hjoin.
    pose proof (length_Split (Id d) slash) as Hcount.
    destruct (Split (Id d) slash) as [|p [|c [|? ?]]] eqn:E; try done.
    exists p, c. split_and!; [done|done|simpl in Hcount; lia|].
    by apply Import_ok.
  - intros Hbad. apply Import_fail.
    destruct (decide (length (Split (Id d) slash) = 2%nat)); [|by left].
    right. lia.
Qed.

(** ** Round trip through an echoing remote *)

Lemma Get_whenNotNil_nonEmptyString (o : option string) :
  Get (whenNotNil (nonEmptyString o)) = Get o.
Proof.
  destruct o as [v|]; simpl; [|done]. by case_bool_decide; simplify_eq.
Qed.

(** Encoding the analytics list and decoding the echoed member keeps the
    value of every key, provided the list has at most the one block that
    [MaxItems] allows. *)
Lemma flatten_expand_analytics (o : option (list AnalyticsBlock)) :
  (length (Get o) ≤ 1)%nat →
  let l' := flattenAwsCognitoUserPoolClientAnalyticsConfig
              (whenOk (GetOk o)
                 expandAwsCognitoUserPoolClientAnalyticsConfig) in
  blockValues <$> l' = blockValues <$> Get o
  ∧ blockRoleArn <$> l' = blockRoleArn <$> Get o.
Proof.
  intros Hlen l'. unfold l'. rewrite whenOk_GetOk. unfold sentIfNonZero.
  case_bool_decide as E; simpl; [by rewrite E|].
  destruct (Get o) as [|m [|? ?]]; [done| |simpl in Hlen; lia].
  unfold blockValues, blockRoleArn; simpl.
  rewrite !Get_whenNotNil_nonEmptyString. by destruct (user_data_shared m).
Qed.

Lemma bind_eq_nil {A B} (f : A → list B) (l : list A) (x : A) :
  l ≫= f = [] → x ∈ l → f x = [].
Proof.
  induction l as [|y l IH]; [by intros _ ?%elem_of_nil|].
  simpl. intros [Hy Hl]%app_eq_nil [->|Hx]%elem_of_cons; auto.
Qed.

Lemma bind_const_nil {A B} (l : list A) : l ≫= (λ _ : A, @nil B) = [].
Proof. by induction l. Qed.

Section Validated.
Variable ExplicitAuthFlowsType_Values : list string.
Variable OAuthFlowType_Values : list string.
Variable validateCognitoUserPoolClientURL : SchemaValidateFunc.
Variable validateArn : SchemaValidateFunc.

Local Abbreviation validate' :=
  (validate ExplicitAuthFlowsType_Values OAuthFlowType_Values
            validateCognitoUserPoolClientURL validateArn).
Local Abbreviation resourceSchema' :=
  (resourceSchema ExplicitAuthFlowsType_Values OAuthFlowType_Values
                  validateCognitoUserPoolClientURL validateArn).

(** A validated state has at most one analytics block. *)
Lemma validate_analytics_MaxItems (s : ResourceData) :
  validate' s = [] → (length (Get (analytics_configuration s)) ≤ 1)%nat.
Proof.
  intros Hv.
  destruct (resourceSchema' !! 16%nat) as [[k sch]|] eqn:E; [|done].
  pose proof (bind_eq_nil _ _ (k, sch) Hv (list_elem_of_lookup_2 _ _ _ E))
    as Hgate.
  injection E as <- <-.
  unfold validateGate, attr in Hgate; simpl in Hgate.
  destruct (analytics_configuration s) as [l|]; simpl in *; [|lia].
  apply app_eq_nil in Hgate as [Hitems _].
  apply app_eq_nil in Hitems as [Hmax _].
  cbn in Hmax. repeat case_bool_decide; simpl in *; try done; lia.
Qed.



End Validated.



(** The scenario of the specification: creating a client with
    [generate_secret] on a remote that assigns the id [c-1] and the secret
    [sek-1] gives the identity [(pool1, c-1)] and stores the secret. *)
Example create_scenario :
  ∃ d,
    (resourceAwsCognitoUserPoolClientCreate (echoRemote "c-1" (Some "sek-1"))
       (Set_generate_secret (Some true) exampleClient) (world0 None)).1
    = (d, None)
    ∧ (user_pool_id d, Id d) = (Some "pool1", "c-1")
    ∧ client_secret d = Some "sek-1".
Proof. eexists. split_and!; reflexivity. Qed.

(** ** Delete twice *)

(** C2 fails on the code: the first Delete of an existing client succeeds and
    removes it; the second Delete of the same identity gets a not-found error
    from the transport and returns it, wrapped, instead of succeeding. *)
Lemma delete_twice_second_fails :
  let conn := echoRemote "c-1" None in
  let '(r1, w1) := resourceAwsCognitoUserPoolClientDelete conn createdClient
                     (world0 remoteWithClient) in
  let '(r2, w2) := resourceAwsCognitoUserPoolClientDelete conn r1.1 w1 in
  r1.2 = None
  ∧ remote w1 = None
  ∧ DeleteUserPoolClient conn (deleteParams createdClient) (remote w1)
    = (Some notFound, None)
  ∧ isAWSErr notFound ErrCodeResourceNotFoundException EmptyString = true
  ∧ r2.2 = Some (Errorf "Error deleting Cognito User Pool Client: ResourceNotFoundException: User pool client does not exist.").
Proof. vm_compute. by split_and!. Qed.

(** ** Witnesses for Read and Update *)

Lemma read_not_found_witness :
  DescribeUserPoolClient (echoRemote "c-1" None) (describeParams createdClient)
    (remote (world0 None)) = (Err notFound, None)
  ∧ (resourceAwsCognitoUserPoolClientRead (echoRemote "c-1" None)
       createdClient (world0 None)).1 = (SetId EmptyString createdClient, None)
  ∧ Id (SetId EmptyString createdClient) = EmptyString.
Proof.
  assert (H : DescribeUserPoolClient (echoRemote "c-1" None)
                (describeParams createdClient) (remote (world0 None))
              = (Err notFound, None)) by reflexivity.
  split; [exact H|].
  apply (proj1 (read_not_found (echoRemote "c-1" None) createdClient
                  (world0 None) notFound None H)).
  by eexists.
Defined.

Lemma update_request_and_resync_witness :
  let conn := echoRemote "c-1" None in
  let d := Set_default_redirect_uri (Some "https://b.example") createdClient in
  let p := updateParams d in
  UpdateUserPoolClient conn p (remote (world0 remoteWithClient))
  = (Ok (echoUpdate None p), Some (echoUpdate None p))
  ∧ resourceAwsCognitoUserPoolClientUpdate conn d (world0 remoteWithClient)
    = resourceAwsCognitoUserPoolClientRead conn d
        (after (world0 remoteWithClient) (Some (echoUpdate None p))
           [LogPrintf "[DEBUG] Updating Cognito User Pool Client: %s"
              [ArgUpdate p];
            CallUpdate p]).
Proof.
  intros conn d p.
  assert (H : UpdateUserPoolClient conn p (remote (world0 remoteWithClient))
              = (Ok (echoUpdate None p), Some (echoUpdate None p)))
    by reflexivity.
  split; [exact H|].
  pose proof (update_request_and_resync conn d (world0 remoteWithClient))
    as Hthm.
  cbv zeta in Hthm.
  destruct Hthm as (_&_&_&_&_&_&_&_&_&_&_&_&_&_&_&_&Hresync).
  exact (proj1 (Hresync _ _ H)).
Defined.

(** C6, as the specification states it, fails: [name] is unchanged between
    the last observed state and the desired state (only
    [default_redirect_uri] differs), yet the Update request carries it. *)
Lemma update_sends_unchanged_name :
  let observed :=
    Set_default_redirect_uri (Some "https://a.example") createdClient in
  let desired :=
    Set_default_redirect_uri (Some "https://b.example") createdClient in
  name observed = name desired
  ∧ default_redirect_uri observed ≠ default_redirect_uri desired
  ∧ UpdateUserPoolClientInput.ClientName (updateParams desired)
    = Some "app1".
Proof. split_and!; done. Qed.

(** ** Enum validation and replace classification *)

Lemma existsb_bool_decide_eq (v : string) (valid : list string) :
  existsb (λ str, bool_decide (v = str)) valid = true ↔ v ∈ valid.
Proof.
  induction valid as [|str valid IH]; simpl.
  - split; [done|]. by intros ?%elem_of_nil.
  - rewrite orb_true_iff, IH, bool_decide_eq_true, elem_of_cons. done.
Qed.

(** [StringInSlice] rejects exactly the strings outside the list. *)
Lemma StringInSlice_rejects (valid : list string) (v k : string) :
  v ∉ valid → StringInSlice valid (VString v) k = [NotOneOf k valid v].
Proof.
  intros Hv. unfold StringInSlice.
  destruct (existsb _ _) eqn:E; [|done].
  by apply existsb_bool_decide_eq in E.
Qed.

Lemma attrValue_user_pool_id (d : ResourceData) (s : FieldSchema) :
  Type_ s = TypeString →
  attrValue d "user_pool_id" s = VString (Get (user_pool_id d)).
Proof.
  intros Ht. unfold attrValue, attr. rewrite Ht. simpl.
  by destruct (user_pool_id d).
Qed.

Lemma attrValue_generate_secret (d : ResourceData) (s : FieldSchema) :
  Type_ s = TypeBool →
  attrValue d "generate_secret" s = VBool (Get (generate_secret d)).
Proof.
  intros Ht. unfold attrValue, attr. rewrite Ht. simpl.
  by destruct (generate_secret d).
Qed.

(** An optional attribute that is set and has no exactly-one-of group passes
    the gate, so that the violations of its value are reported. *)
Lemma validateGate_optional (d : ResourceData) (k : string) (s : FieldSchema)
    (v : Value) (validateType : Value → list ConstraintViolation)
    (x : ConstraintViolation) :
  ExactlyOneOf s = [] → Optional s = true →
  x ∈ validateType v → x ∈ validateGate d k s (Some v) validateType.
Proof.
  intros He Ho Hx. unfold validateGate, validateExactlyOneAttribute.
  rewrite He, Ho, andb_false_r. simpl. apply elem_of_app. by right.
Qed.

Lemma validateItems_within (k : string) (s : FieldSchema) (n : nat) :
  (MaxItems s = 0 ∨ n ≤ MaxItems s)%nat → (MinItems s ≤ n)%nat →
  validateItems k s n = [].
Proof.
  intros Hmax Hmin. unfold validateItems.
  repeat case_bool_decide; simpl; try done; lia.
Qed.

Lemma filter_isSet_ext (d1 d2 : ResourceData) (paths : list string) :
  sameSet d1 d2 paths →
  filter (λ p, isSet d1 p = true) paths = filter (λ p, isSet d2 p = true) paths.
Proof.
  induction 1 as [|p paths Hp _ IH]; [done|].
  rewrite !filter_cons, Hp, IH. done.
Qed.

(** The gate looks at the resource data only through the paths of the
    cross-field rules. *)
Lemma validateGate_ext (d1 d2 : ResourceData) (k : string) (s : FieldSchema)
    (raw : option Value) (vt1 vt2 : Value → list ConstraintViolation) :
  sameSet d1 d2 (fieldPaths s) → (∀ v, vt1 v = vt2 v) →
  validateGate d1 k s raw vt1 = validateGate d2 k s raw vt2.
Proof.
  unfold sameSet, fieldPaths. intros [H1 H2]%Forall_app Hvt.
  unfold validateGate, validateExactlyOneAttribute,
    validateConflictingAttributes.
  rewrite (filter_isSet_ext d1 d2 _ H2).
  destruct (ExactlyOneOf s) as [|p ps];
    [|rewrite (filter_isSet_ext d1 d2 _ H1)];
    (destruct raw; [rewrite Hvt|]; done).
Qed.

Lemma validateObject_ext (d1 d2 : ResourceData) (prefix : string)
    (fields : list (string * FieldSchema)) (m : AnalyticsBlock) :
  Forall (λ ks, sameSet d1 d2 (fieldPaths ks.2)) fields →
  validateObject d1 prefix fields m = validateObject d2 prefix fields m.
Proof.
  intros Hfields. unfold validateObject. apply Forall_bind_ext.
  eapply Forall_impl; [exact Hfields|].
  intros [k s] Hs. by apply validateGate_ext.
Qed.

Lemma validateType_ext (d1 d2 : ResourceData) (k : string) (s : Schema)
    (v : Value) :
  match Elem s with
  | ElemResource fields =>
      Forall (λ ks, sameSet d1 d2 (fieldPaths ks.2)) fields
  | _ => True
  end →
  validateType d1 k s v = validateType d2 k s v.
Proof.
  intros He. destruct v; try done. unfold validateType. f_equal.
  destruct (Elem s); try done.
  apply list_bind_ext; [|done]. intros [i m]. by apply validateObject_ext.
Qed.

(** Setting [allowed_oauth_scopes] changes the value at no other path. *)
Lemma lookupPath_scopes (v1 v2 : option (gset string)) (d : ResourceData)
    (p : string) :
  p ≠ "allowed_oauth_scopes" →
  lookupPath (Set_allowed_oauth_scopes v1 d) p
  = lookupPath (Set_allowed_oauth_scopes v2 d) p.
Proof.
  intros Hp. unfold lookupPath, attr.
  repeat (destruct (String.eqb p _) eqn:?; [reflexivity|]).
  destruct (String.eqb p "allowed_oauth_scopes") eqn:E.
  { by apply String.eqb_eq in E. }
  reflexivity.
Qed.

Lemma isSet_scopes (v1 v2 : option (gset string)) (d : ResourceData)
    (p : string) :
  p ≠ "allowed_oauth_scopes" →
  isSet (Set_allowed_oauth_scopes v1 d) p
  = isSet (Set_allowed_oauth_scopes v2 d) p.
Proof. intros Hp. unfold isSet. by rewrite (lookupPath_scopes v1 v2). Qed.

Section SchemaProperties.
Variable ExplicitAuthFlowsType_Values : list string.
Variable OAuthFlowType_Values : list string.
Variable validateCognitoUserPoolClientURL : SchemaValidateFunc.
Variable validateArn : SchemaValidateFunc.

Local Abbreviation validate' :=
  (validate ExplicitAuthFlowsType_Values OAuthFlowType_Values
            validateCognitoUserPoolClientURL validateArn).
Local Abbreviation resourceSchema' :=
  (resourceSchema ExplicitAuthFlowsType_Values OAuthFlowType_Values
                  validateCognitoUserPoolClientURL validateArn).
Local Abbreviation classify' :=
  (classify ExplicitAuthFlowsType_Values OAuthFlowType_Values
            validateCognitoUserPoolClientURL validateArn).
Local Abbreviation chooseVerb' :=
  (chooseVerb ExplicitAuthFlowsType_Values OAuthFlowType_Values
              validateCognitoUserPoolClientURL validateArn).

(** A violation found for the [i]-th attribute of the schema is reported. *)
Lemma validate_attribute (d : ResourceData) (i : nat) (k : string)
    (s : Schema) (v : ConstraintViolation) :
  resourceSchema' !! i = Some (k, s) →
  v ∈ validateGate d k (field s) (attr d k)
        (validateType d k s) →
  v ∈ validate' d.
Proof.
  intros Hi Hv. unfold validate. apply list_elem_of_bind.
  exists (k, s). split; [done|]. by eapply list_elem_of_lookup_2.
Qed.

(** An element outside the list of a [StringInSlice] element validator of a
    set attribute is reported. *)
Lemma validateType_set_elem (d : ResourceData) (k : string) (s : Schema)
    (es : FieldSchema) (valid : list string) (xs : gset string) (x : string) :
  Elem s = ElemSchema es →
  ValidateFunc es = Some (StringInSlice valid) →
  x ∈ xs → x ∉ valid →
  NotOneOf k valid x
  ∈ validateType d k s (VSet xs).
Proof.
  intros He Hf Hx Hvalid. unfold validateType. rewrite He.
  apply elem_of_app. right. apply list_elem_of_bind.
  exists x. split; [|by apply elem_of_elements].
  unfold validatePrimitive. rewrite Hf.
  rewrite StringInSlice_rejects by done. by left.
Qed.

(** C7, amended: validation reports every element of [allowed_oauth_flows]
    and of [explicit_auth_flows] that is outside the fixed value list of the
    attribute.  The elements of [allowed_oauth_scopes] are checked against no
    list: only their number is (at most 50), so a scope set within that bound
    validates exactly as an absent one, whatever its elements. *)
Theorem enum_validation (d : ResourceData) (x : string) (xs : gset string) :
  (x ∈ Get (allowed_oauth_flows d) → x ∉ OAuthFlowType_Values →
   NotOneOf "allowed_oauth_flows" OAuthFlowType_Values x ∈ validate' d)
  ∧ (x ∈ Get (explicit_auth_flows d) → x ∉ ExplicitAuthFlowsType_Values →
     NotOneOf "explicit_auth_flows" ExplicitAuthFlowsType_Values x
     ∈ validate' d)
  ∧ ((size xs ≤ 50)%nat →
     validate' (Set_allowed_oauth_scopes (Some xs) d)
     = validate' (Set_allowed_oauth_scopes None d)).
Proof.
  split_and!.
  - intros Hx Hv. destruct (allowed_oauth_flows d) as [ys|] eqn:E;
      [|by apply elem_of_empty in Hx].
    eapply (validate_attribute d 8); [reflexivity|].
    replace (attr d "allowed_oauth_flows") with (Some (VSet ys))
      by (unfold attr; simpl; by rewrite E).
    apply validateGate_optional; [reflexivity|reflexivity|].
    by eapply validateType_set_elem.
  - intros Hx Hv. destruct (explicit_auth_flows d) as [ys|] eqn:E;
      [|by apply elem_of_empty in Hx].
    eapply (validate_attribute d 4); [reflexivity|].
    replace (attr d "explicit_auth_flows") with (Some (VSet ys))
      by (unfold attr; simpl; by rewrite E).
    apply validateGate_optional; [reflexivity|reflexivity|].
    by eapply validateType_set_elem.
  - intros Hsize. unfold validate. apply Forall_bind_ext.
    repeat first [ apply List.Forall_cons | apply List.Forall_nil ].
    11: { unfold validateGate, validateType; simpl.
          rewrite validateItems_within by (simpl; lia).
          unfold validatePrimitive; simpl. by rewrite bind_const_nil. }
    all: match goal with
         | |- validateGate ?d1 ?k _ (attr ?d1 ?k) _ = validateGate ?d2 _ _ _ _ =>
             replace (attr d1 k) with (attr d2 k) by reflexivity
         end.
    all: apply validateGate_ext;
           [by apply List.Forall_nil
           |intros v; apply validateType_ext; simpl; try done].
    unfold sameSet.
    repeat first [ apply List.Forall_cons | apply List.Forall_nil ];
      by apply isSet_scopes.
Qed.

(** C4: a change of [user_pool_id] or of [generate_secret] classifies that
    attribute as Replace and makes the chosen verb a Replace; and whenever
    any attribute classifies as Replace the chosen verb is a Replace, never an
    in-place Update, however the other attributes classify. *)
Theorem replace_classification (old new : ResourceData) :
  (Get (user_pool_id old) ≠ Get (user_pool_id new) →
   ("user_pool_id", Replace) ∈ classify' old new
   ∧ chooseVerb' (Some old) new = VerbReplace)
  ∧ (Get (generate_secret old) ≠ Get (generate_secret new) →
     ("generate_secret", Replace) ∈ classify' old new
     ∧ chooseVerb' (Some old) new = VerbReplace)
  ∧ (∀ k, (k, Replace) ∈ classify' old new →
     chooseVerb' (Some old) new = VerbReplace
     ∧ chooseVerb' (Some old) new ≠ VerbUpdate).
Proof.
  assert (Hwins : ∀ k, (k, Replace) ∈ classify' old new →
                       chooseVerb' (Some old) new = VerbReplace).
  { intros k Hk. unfold chooseVerb.
    assert (existsb (λ kc : string * Classification,
                       bool_decide (kc.2 = Replace)) (classify' old new)
            = true) as ->; [|done].
    apply existsb_exists. exists (k, Replace).
    split; [by apply list_elem_of_In|]. by apply bool_decide_eq_true. }
  assert (Hfield : ∀ (i : nat) (k : string) (s : Schema),
            resourceSchema' !! i = Some (k, s) →
            ForceNew s = true →
            attrValue old k s ≠ attrValue new k s →
            (k, Replace) ∈ classify' old new).
  { intros i k s Hi Hforce Hchange. unfold classify.
    apply list_elem_of_fmap. exists (k, s).
    split; [|by eapply list_elem_of_lookup_2].
    unfold classifyField, HasChange.
    by rewrite bool_decide_eq_true_2, Hforce. }
  split_and!.
  - intros Hchange.
    assert (("user_pool_id", Replace) ∈ classify' old new) as Hin.
    { eapply (Hfield 3%nat); [reflexivity|reflexivity|].
      rewrite !attrValue_user_pool_id by reflexivity. congruence. }
    split; [done|]. by eapply Hwins.
  - intros Hchange.
    assert (("generate_secret", Replace) ∈ classify' old new) as Hin.
    { eapply (Hfield 2%nat); [reflexivity|reflexivity|].
      rewrite !attrValue_generate_secret by reflexivity. congruence. }
    split; [done|]. by eapply Hwins.
  - intros k Hk. rewrite (Hwins k Hk). done.
Qed.

End SchemaProperties.

(** C7, as the specification states it, fails: a scope that is none of the
    system reserved scopes passes validation. *)
Lemma unknown_scope_is_accepted :
  ("bogus" ∉ systemReservedScopes)
  ∧ ("bogus" ∈ Get (allowed_oauth_scopes
                     (Set_allowed_oauth_scopes (Some {["bogus"]})
                        exampleClient)))
  ∧ exampleValidate (Set_allowed_oauth_scopes (Some {["bogus"]}) exampleClient)
    = [].
Proof.
  split_and!.
  - unfold systemReservedScopes. rewrite !elem_of_cons, elem_of_nil.
    intros H. repeat destruct H as [H|H]; done.
  - simpl. by apply elem_of_singleton.
  - by vm_compute.
Qed.

Lemma enum_validation_witness :
  ("bogus" ∈ Get (allowed_oauth_flows
                    (Set_allowed_oauth_flows (Some {["bogus"]}) exampleClient)))
  ∧ ("bogus" ∉ sdk_OAuthFlowType_Values)
  ∧ (NotOneOf "allowed_oauth_flows" sdk_OAuthFlowType_Values "bogus"
     ∈ exampleValidate
         (Set_allowed_oauth_flows (Some {["bogus"]}) exampleClient)).
Proof.
  assert (H1 : "bogus" ∈ Get (allowed_oauth_flows
                 (Set_allowed_oauth_flows (Some {["bogus"]}) exampleClient)))
    by (simpl; by apply elem_of_singleton).
  assert (H2 : "bogus" ∉ sdk_OAuthFlowType_Values).
  { unfold sdk_OAuthFlowType_Values. rewrite !elem_of_cons, elem_of_nil.
    intros H. repeat destruct H as [H|H]; done. }
  split_and!; [exact H1|exact H2|].
  exact (proj1 (enum_validation sdk_ExplicitAuthFlowsType_Values
                  sdk_OAuthFlowType_Values acceptAll acceptAll
                  (Set_allowed_oauth_flows (Some {["bogus"]}) exampleClient)
                  "bogus" ∅) H1 H2).
Defined.

Lemma replace_classification_witness :
  Get (user_pool_id createdClient)
  ≠ Get (user_pool_id (Set_user_pool_id (Some "pool2") createdClient))
  ∧ ("user_pool_id", Replace)
    ∈ classify sdk_ExplicitAuthFlowsType_Values sdk_OAuthFlowType_Values
        acceptAll acceptAll createdClient
        (Set_user_pool_id (Some "pool2") createdClient)
  ∧ chooseVerb sdk_ExplicitAuthFlowsType_Values sdk_OAuthFlowType_Values
      acceptAll acceptAll (Some createdClient)
      (Set_user_pool_id (Some "pool2") createdClient) = VerbReplace.
Proof.
  assert (H : Get (user_pool_id createdClient)
              ≠ Get (user_pool_id
                       (Set_user_pool_id (Some "pool2") createdClient)))
    by (simpl; intros [=]).
  split; [exact H|].
  exact (proj1 (replace_classification sdk_ExplicitAuthFlowsType_Values
                  sdk_OAuthFlowType_Values acceptAll acceptAll createdClient
                  (Set_user_pool_id (Some "pool2") createdClient)) H).
Defined.

(** * Further properties of the resource *)

(** ** The analytics codecs *)

Lemma nonEmptyString_normal (o : option string) :
  o ≠ Some EmptyString → nonEmptyString o = o.
Proof.
  intros Ho. destruct o as [v|]; simpl; [|done].
  case_bool_decide; [done|]. by simplify_eq.
Qed.

Lemma whenNotNil_id (o : option string) : whenNotNil o = o.
Proof. by destruct o. Qed.

Lemma nonEmptyString_not_empty (o : option string) :
  nonEmptyString o ≠ Some EmptyString.
Proof.
  destruct o as [v|]; simpl; [|done].
  case_bool_decide; [|done]. unfold aws_String. congruence.
Qed.

(** X1: encoding the analytics list and decoding the result gives back a
    block in normal form unchanged; blocks after the first are dropped. *)
Theorem flatten_expand_normal (m : AnalyticsBlock) (l : list AnalyticsBlock) :
  normalBlock m →
  flattenAwsCognitoUserPoolClientAnalyticsConfig
    (expandAwsCognitoUserPoolClientAnalyticsConfig (m :: l)) = [m].
Proof.
  intros (H1 & H2 & H3 & H4 & [b Hb]). destruct m; simpl in *.
  rewrite !whenNotNil_id, !nonEmptyString_normal by done.
  by rewrite Hb.
Qed.

Lemma expand_flatten_of_normal (c : AnalyticsConfigurationType.t) :
  normalConfig c →
  expandAwsCognitoUserPoolClientAnalyticsConfig
    (flattenAwsCognitoUserPoolClientAnalyticsConfig (Some c)) = Some c.
Proof.
  intros (H1 & H2 & H3 & H4 & [b Hb]). destruct c; simpl in *.
  rewrite !whenNotNil_id, !nonEmptyString_normal by done.
  by rewrite Hb.
Qed.

(** The configuration that a decode and encode pass turns [c] into. *)
Lemma expand_flatten_Some (c : AnalyticsConfigurationType.t) :
  expandAwsCognitoUserPoolClientAnalyticsConfig
    (flattenAwsCognitoUserPoolClientAnalyticsConfig (Some c))
  = Some
      {| AnalyticsConfigurationType.ApplicationArn :=
           nonEmptyString (AnalyticsConfigurationType.ApplicationArn c);
         AnalyticsConfigurationType.ApplicationId :=
           nonEmptyString (AnalyticsConfigurationType.ApplicationId c);
         AnalyticsConfigurationType.ExternalId :=
           nonEmptyString (AnalyticsConfigurationType.ExternalId c);
         AnalyticsConfigurationType.RoleArn :=
           nonEmptyString (AnalyticsConfigurationType.RoleArn c);
         AnalyticsConfigurationType.UserDataShared :=
           Some (aws_BoolValue (AnalyticsConfigurationType.UserDataShared c))
      |}.
Proof. simpl. by rewrite !whenNotNil_id. Qed.

(** X2: decoding a wire configuration in normal form and encoding the result
    gives the configuration back; a nil configuration decodes to the empty
    list, which encodes to nil. *)
Theorem expand_flatten_normal (c : AnalyticsConfigurationType.t) :
  normalConfig c →
  expandAwsCognitoUserPoolClientAnalyticsConfig
    (flattenAwsCognitoUserPoolClientAnalyticsConfig (Some c)) = Some c
  ∧ expandAwsCognitoUserPoolClientAnalyticsConfig
      (flattenAwsCognitoUserPoolClientAnalyticsConfig None) = None.
Proof. intros Hc. split; [by apply expand_flatten_of_normal|done]. Qed.

(** X3: decoding any wire configuration and encoding the result gives a
    configuration in normal form: members that point to the empty string
    are dropped, and [UserDataShared] is always sent, a nil one as an explicit
    false.  A second pass changes nothing. *)
Theorem expand_flatten_normalises (c : AnalyticsConfigurationType.t) :
  ∃ c',
    expandAwsCognitoUserPoolClientAnalyticsConfig
      (flattenAwsCognitoUserPoolClientAnalyticsConfig (Some c)) = Some c'
    ∧ normalConfig c'
    ∧ AnalyticsConfigurationType.UserDataShared c'
      = Some (aws_BoolValue (AnalyticsConfigurationType.UserDataShared c))
    ∧ AnalyticsConfigurationType.RoleArn c'
      = nonEmptyString (AnalyticsConfigurationType.RoleArn c)
    ∧ expandAwsCognitoUserPoolClientAnalyticsConfig
        (flattenAwsCognitoUserPoolClientAnalyticsConfig (Some c')) = Some c'.
Proof.
  eexists. split; [apply expand_flatten_Some|].
  match goal with |- normalConfig ?c' ∧ _ =>
    assert (Hn : normalConfig c')
  end.
  { unfold normalConfig; simpl.
    split_and!; try apply nonEmptyString_not_empty. by eexists. }
  split_and!; [exact Hn|done|done|].
  by apply expand_flatten_of_normal.
Qed.

(** ** Read as a decoder *)

(** The run of setters in Read, as one record. *)
Lemma setFromResponse_fields (c : UserPoolClientType.t) (d : ResourceData) :
  setFromResponse c d
  = {| Id := aws_StringValue (UserPoolClientType.ClientId c);
       name := UserPoolClientType.ClientName c;
       client_secret := UserPoolClientType.ClientSecret c;
       generate_secret := generate_secret d;
       user_pool_id := UserPoolClientType.UserPoolId c;
       explicit_auth_flows :=
         Some (flattenStringSet (UserPoolClientType.ExplicitAuthFlows c));
       read_attributes :=
         Some (flattenStringSet (UserPoolClientType.ReadAttributes c));
       write_attributes :=
         Some (flattenStringSet (UserPoolClientType.WriteAttributes c));
       refresh_token_validity := UserPoolClientType.RefreshTokenValidity c;
       allowed_oauth_flows :=
         Some (flattenStringSet (UserPoolClientType.AllowedOAuthFlows c));
       allowed_oauth_flows_user_pool_client :=
         UserPoolClientType.AllowedOAuthFlowsUserPoolClient c;
       allowed_oauth_scopes :=
         Some (flattenStringSet (UserPoolClientType.AllowedOAuthScopes c));
       callback_urls :=
         Some (flattenStringSet (UserPoolClientType.CallbackURLs c));
       default_redirect_uri := UserPoolClientType.DefaultRedirectURI c;
       logout_urls := Some (flattenStringSet (UserPoolClientType.LogoutURLs c));
       prevent_user_existence_errors :=
         UserPoolClientType.PreventUserExistenceErrors c;
       supported_identity_providers :=
         Some (flattenStringSet
                 (UserPoolClientType.SupportedIdentityProviders c));
       analytics_configuration :=
         Some (flattenAwsCognitoUserPoolClientAnalyticsConfig
                 (UserPoolClientType.AnalyticsConfiguration c)) |}.
Proof.
  cbv -[flattenStringSet flattenAwsCognitoUserPoolClientAnalyticsConfig
        aws_StringValue].
  reflexivity.
Qed.




(** ** Create and Update encode alike *)

(** X6: Create and Update encode every attribute they share into the same
    member value.  They differ in [name], which Create always sends and Update
    leaves out when it is empty, in [generate_secret], which only Create
    sends, and in the id, which only Update sends. *)
Theorem create_update_requests_agree (d : ResourceData) :
  let c := createParams d in
  let u := updateParams d in
  UpdateUserPoolClientInput.UserPoolId u = CreateUserPoolClientInput.UserPoolId c
  ∧ UpdateUserPoolClientInput.ExplicitAuthFlows u
    = CreateUserPoolClientInput.ExplicitAuthFlows c
  ∧ UpdateUserPoolClientInput.ReadAttributes u
    = CreateUserPoolClientInput.ReadAttributes c
  ∧ UpdateUserPoolClientInput.WriteAttributes u
    = CreateUserPoolClientInput.WriteAttributes c
  ∧ UpdateUserPoolClientInput.RefreshTokenValidity u
    = CreateUserPoolClientInput.RefreshTokenValidity c
  ∧ UpdateUserPoolClientInput.AllowedOAuthFlows u
    = CreateUserPoolClientInput.AllowedOAuthFlows c
  ∧ UpdateUserPoolClientInput.AllowedOAuthFlowsUserPoolClient u
    = CreateUserPoolClientInput.AllowedOAuthFlowsUserPoolClient c
  ∧ UpdateUserPoolClientInput.AllowedOAuthScopes u
    = CreateUserPoolClientInput.AllowedOAuthScopes c
  ∧ UpdateUserPoolClientInput.CallbackURLs u
    = CreateUserPoolClientInput.CallbackURLs c
  ∧ UpdateUserPoolClientInput.DefaultRedirectURI u
    = CreateUserPoolClientInput.DefaultRedirectURI c
  ∧ UpdateUserPoolClientInput.LogoutURLs u
    = CreateUserPoolClientInput.LogoutURLs c
  ∧ UpdateUserPoolClientInput.PreventUserExistenceErrors u
    = CreateUserPoolClientInput.PreventUserExistenceErrors c
  ∧ UpdateUserPoolClientInput.SupportedIdentityProviders u
    = CreateUserPoolClientInput.SupportedIdentityProviders c
  ∧ UpdateUserPoolClientInput.AnalyticsConfiguration u
    = CreateUserPoolClientInput.AnalyticsConfiguration c
  ∧ CreateUserPoolClientInput.ClientName c = Some (Get (name d))
  ∧ UpdateUserPoolClientInput.ClientName u
    = (if bool_decide (Get (name d) = EmptyString) then None
       else CreateUserPoolClientInput.ClientName c)
  ∧ UpdateUserPoolClientInput.ClientId u = Some (Id d).
Proof.
  intros c u. split_and!; try reflexivity.
  unfold u, updateParams; simpl. by rewrite whenOk_GetOk.
Qed.

(** ** The verbs against an arbitrary transport, continued *)

Section MoreVerbs.
Context {Remote : Type}.
Variable conn : cognitoidpconn Remote.

Lemma Create_Err (d : ResourceData) (w : World Remote) (e : error)
    (s : Remote) :
  CreateUserPoolClient conn (createParams d) (remote w) = (Err e, s) →
  resourceAwsCognitoUserPoolClientCreate conn d w
  = ((d, Some (Errorf ("Error creating Cognito User Pool Client: "
                       +:+ Error e))),
     after w s
       [LogPrintf "[DEBUG] Creating Cognito User Pool Client: %s"
          [ArgCreate (createParams d)];
        CallCreate (createParams d)]).
Proof.
  intros Hcall. unfold resourceAwsCognitoUserPoolClientCreate.
  cbv [mbind M_bind mret M_ret log_Printf emit conn_CreateUserPoolClient
       after trace remote] in Hcall |- *.
  rewrite Hcall. by rewrite <- app_assoc.
Qed.

Lemma Create_Ok (d : ResourceData) (w : World Remote)
    (c : UserPoolClientType.t) (s : Remote) :
  CreateUserPoolClient conn (createParams d) (remote w) = (Ok c, s) →
  resourceAwsCognitoUserPoolClientCreate conn d w
  = resourceAwsCognitoUserPoolClientRead conn
      (SetId (aws_StringValue (UserPoolClientType.ClientId c)) d)
      (after w s
         [LogPrintf "[DEBUG] Creating Cognito User Pool Client: %s"
            [ArgCreate (createParams d)];
          CallCreate (createParams d)]).
Proof.
  intros Hcall. unfold resourceAwsCognitoUserPoolClientCreate at 1.
  cbv [mbind M_bind mret M_ret log_Printf emit conn_CreateUserPoolClient
       after trace remote] in Hcall |- *.
  rewrite Hcall. by rewrite <- app_assoc.
Qed.

Lemma Update_Err (d : ResourceData) (w : World Remote) (e : error)
    (s : Remote) :
  UpdateUserPoolClient conn (updateParams d) (remote w) = (Err e, s) →
  resourceAwsCognitoUserPoolClientUpdate conn d w
  = ((d, Some (Errorf ("Error updating Cognito User Pool Client: "
                       +:+ Error e))),
     after w s
       [LogPrintf "[DEBUG] Updating Cognito User Pool Client: %s"
          [ArgUpdate (updateParams d)];
        CallUpdate (updateParams d)]).
Proof.
  intros Hcall. unfold resourceAwsCognitoUserPoolClientUpdate.
  cbv [mbind M_bind mret M_ret log_Printf emit conn_UpdateUserPoolClient
       after trace remote] in Hcall |- *.
  rewrite Hcall. by rewrite <- app_assoc.
Qed.

Lemma Delete_run (d : ResourceData) (w : World Remote) :
  resourceAwsCognitoUserPoolClientDelete conn d w
  = ((d, (λ e, Errorf ("Error deleting Cognito User Pool Client: "
                       +:+ Error e))
         <$> (DeleteUserPoolClient conn (deleteParams d) (remote w)).1),
     after w (DeleteUserPoolClient conn (deleteParams d) (remote w)).2
       [LogPrintf "[DEBUG] Deleting Cognito User Pool Client: %s"
          [ArgDelete (deleteParams d)];
        CallDelete (deleteParams d)]).
Proof.
  unfold resourceAwsCognitoUserPoolClientDelete.
  cbv [mbind M_bind mret M_ret log_Printf emit conn_DeleteUserPoolClient
       after trace remote].
  destruct (DeleteUserPoolClient conn _ _) as [[e|] s]; simpl;
    by rewrite <- app_assoc.
Qed.

(** The events of Read: the log line, the Describe call for the identity,
    and then nothing but log lines. *)
Lemma Read_events (d : ResourceData) (w : World Remote) :
  ∃ tl, trace (resourceAwsCognitoUserPoolClientRead conn d w).2
        = trace w
          ++ LogPrintf "[DEBUG] Reading Cognito User Pool Client: %s"
               [ArgDescribe (describeParams d)]
          :: CallDescribe (describeParams d) :: tl
        ∧ calls tl = [].
Proof.
  unfold resourceAwsCognitoUserPoolClientRead, mbind, M_bind, mret, M_ret,
    log_Printf, emit, conn_DescribeUserPoolClient; simpl.
  destruct (DescribeUserPoolClient conn _ _) as [[c|e] s]; simpl.
  - exists []. by rewrite <- app_assoc.
  - destruct (isAWSErr _ _ _); simpl; eexists; by rewrite <- !app_assoc.
Qed.

(** X7: when the Create call fails, Create returns the error wrapped in its
    own message, leaves the resource data (the id included) as it was, and
    makes no further call: no Read-back follows. *)
Theorem create_failure (d : ResourceData) (w : World Remote) (e : error)
    (s : Remote) :
  CreateUserPoolClient conn (createParams d) (remote w) = (Err e, s) →
  (resourceAwsCognitoUserPoolClientCreate conn d w).1
  = (d, Some (Errorf ("Error creating Cognito User Pool Client: "
                      +:+ Error e)))
  ∧ remote (resourceAwsCognitoUserPoolClientCreate conn d w).2 = s
  ∧ ∃ tl, trace (resourceAwsCognitoUserPoolClientCreate conn d w).2
          = trace w ++ tl
          ∧ calls tl = [CallCreate (createParams d)].
Proof.
  intros Hcall. rewrite (Create_Err d w e s Hcall). split_and!; try done.
  by eexists.
Qed.

(** X8: when the Create call succeeds, Create is a Read of the resource data
    with the id set to the [ClientId] of the response (the empty string if the
    response has none), in the world the call left.  Whatever that Read
    returns, Create returns: in particular, if the Describe call then answers
    not-found, Create returns no error and an empty id. *)
Theorem create_then_read (d : ResourceData) (w : World Remote)
    (c : UserPoolClientType.t) (s : Remote) :
  CreateUserPoolClient conn (createParams d) (remote w) = (Ok c, s) →
  let d1 := SetId (aws_StringValue (UserPoolClientType.ClientId c)) d in
  let w1 :=
    after w s
      [LogPrintf "[DEBUG] Creating Cognito User Pool Client: %s"
         [ArgCreate (createParams d)];
       CallCreate (createParams d)] in
  resourceAwsCognitoUserPoolClientCreate conn d w
  = resourceAwsCognitoUserPoolClientRead conn d1 w1
  ∧ (∀ message s',
       DescribeUserPoolClient conn (describeParams d1) s
       = (Err (AwsErr ErrCodeResourceNotFoundException message), s') →
       (resourceAwsCognitoUserPoolClientCreate conn d w).1
       = (SetId EmptyString d, None)).
Proof.
  intros Hcall d1 w1. rewrite (Create_Ok d w c s Hcall). split; [done|].
  intros message s' Hdescribe.
  pose proof (Read_Err conn d1 w1 _ s' Hdescribe) as Hr.
  transitivity ((resourceAwsCognitoUserPoolClientRead conn d1 w1).1);
    [done|].
  rewrite Hr. unfold isAWSErr.
  by rewrite bool_decide_eq_true_2, Contains_empty.
Qed.

(** X9: when the Update call fails, Update returns the error wrapped in its
    own message, leaves the resource data as it was, and makes no further
    call: no Read-back follows. *)
Theorem update_failure (d : ResourceData) (w : World Remote) (e : error)
    (s : Remote) :
  UpdateUserPoolClient conn (updateParams d) (remote w) = (Err e, s) →
  (resourceAwsCognitoUserPoolClientUpdate conn d w).1
  = (d, Some (Errorf ("Error updating Cognito User Pool Client: "
                      +:+ Error e)))
  ∧ remote (resourceAwsCognitoUserPoolClientUpdate conn d w).2 = s
  ∧ ∃ tl, trace (resourceAwsCognitoUserPoolClientUpdate conn d w).2
          = trace w ++ tl
          ∧ calls tl = [CallUpdate (updateParams d)].
Proof.
  intros Hcall. rewrite (Update_Err d w e s Hcall). split_and!; try done.
  by eexists.
Qed.

(** X10: Delete never changes the resource data, not even the id.  Its
    result is the result of the one Delete call it makes for the identity:
    no error when the call returns none, the call's error wrapped in Delete's
    own message otherwise; and it leaves the remote as that call left it. *)
Theorem delete_behaviour (d : ResourceData) (w : World Remote) :
  let r := DeleteUserPoolClient conn (deleteParams d) (remote w) in
  (resourceAwsCognitoUserPoolClientDelete conn d w).1.1 = d
  ∧ (resourceAwsCognitoUserPoolClientDelete conn d w).1.2
    = (λ e, Errorf ("Error deleting Cognito User Pool Client: " +:+ Error e))
      <$> r.1
  ∧ remote (resourceAwsCognitoUserPoolClientDelete conn d w).2 = r.2
  ∧ DeleteUserPoolClientInput.ClientId (deleteParams d) = Some (Id d)
  ∧ DeleteUserPoolClientInput.UserPoolId (deleteParams d)
    = Some (Get (user_pool_id d)).
Proof. intros r. rewrite Delete_run. by split_and!. Qed.

(** X11: the transport calls of each verb.  Every verb only appends to the
    trace.  Read makes the one Describe call for the identity; Delete the one
    Delete call; Create the Create call, followed by at most one Describe call
    for the same user pool; Update the Update call, followed by at most the
    Describe call for the identity.  No verb makes any other call. *)
Theorem call_discipline (d : ResourceData) (w : World Remote) :
  (∃ tl, trace (resourceAwsCognitoUserPoolClientRead conn d w).2
         = trace w ++ tl
         ∧ calls tl = [CallDescribe (describeParams d)])
  ∧ (∃ tl, trace (resourceAwsCognitoUserPoolClientDelete conn d w).2
           = trace w ++ tl
           ∧ calls tl = [CallDelete (deleteParams d)])
  ∧ (∃ tl, trace (resourceAwsCognitoUserPoolClientCreate conn d w).2
           = trace w ++ tl
           ∧ (calls tl = [CallCreate (createParams d)]
              ∨ ∃ id, calls tl
                      = [CallCreate (createParams d);
                         CallDescribe (describeParams (SetId id d))]))
  ∧ (∃ tl, trace (resourceAwsCognitoUserPoolClientUpdate conn d w).2
           = trace w ++ tl
           ∧ (calls tl = [CallUpdate (updateParams d)]
              ∨ calls tl = [CallUpdate (updateParams d);
                            CallDescribe (describeParams d)])).
Proof.
  split_and!.
  - destruct (Read_events d w) as (tl & -> & Htl).
    eexists. split; [done|]. unfold calls in *. simpl.
    rewrite !filter_cons. simpl. by rewrite Htl.
  - rewrite Delete_run. by eexists.
  - destruct (CreateUserPoolClient conn (createParams d) (remote w))
      as [[c|e] s] eqn:Hcall.
    + rewrite (Create_Ok d w c s Hcall).
      destruct (Read_events
                  (SetId (aws_StringValue (UserPoolClientType.ClientId c)) d)
                  (after w s
                     [LogPrintf "[DEBUG] Creating Cognito User Pool Client: %s"
                        [ArgCreate (createParams d)];
                      CallCreate (createParams d)])) as (tl & -> & Htl).
      simpl. rewrite <- app_assoc. eexists. split; [done|].
      right. eexists. unfold calls in *. simpl.
      rewrite !filter_cons. simpl. by rewrite Htl.
    + rewrite (Create_Err d w e s Hcall). eexists. split; [done|]. by left.
  - destruct (UpdateUserPoolClient conn (updateParams d) (remote w))
      as [[c|e] s] eqn:Hcall.
    + rewrite (Update_Ok conn d w c s Hcall).
      destruct (Read_events d
                  (after w s
                     [LogPrintf "[DEBUG] Updating Cognito User Pool Client: %s"
                        [ArgUpdate (updateParams d)];
                      CallUpdate (updateParams d)])) as (tl & -> & Htl).
      simpl. rewrite <- app_assoc. eexists. split; [done|].
      right. unfold calls in *. simpl.
      rewrite !filter_cons. simpl. by rewrite Htl.
    + rewrite (Update_Err d w e s Hcall). eexists. split; [done|]. by left.
Qed.

End MoreVerbs.

(** ** Import, continued *)

(** No piece of a split contains the separator. *)
Lemma Split_pieces (s : string) (sep : Ascii.ascii) :
  Forall (λ piece, Count piece sep = 0%nat) (Split s sep).
Proof.
  induction s as [|c s IH]; simpl; [by repeat constructor|].
  destruct (Ascii.eqb c sep) eqn:E; [by constructor|].
  destruct (Split s sep) as [|p ps].
  - constructor; [|constructor]. simpl. by rewrite E.
  - apply Forall_cons in IH as [Hp Hps]. constructor; [|done].
    simpl. by rewrite E.
Qed.

(** X12: after a successful import of [pool/client], the Describe request
    that a Read builds is keyed by exactly that client id and that user pool
    id, and neither of the two contains the separator. *)
Theorem import_then_read_identity {Remote} (d : ResourceData)
    (w : World Remote) (userPoolId clientId : string) :
  Split (Id d) slash = [userPoolId; clientId] →
  (3 ≤ String.length (Id d))%nat →
  ∃ d',
    (resourceAwsCognitoUserPoolClientImport d w).1 = ([d'], None)
    ∧ describeParams d'
      = {| DescribeUserPoolClientInput.ClientId := Some clientId;
           DescribeUserPoolClientInput.UserPoolId := Some userPoolId |}
    ∧ Count userPoolId slash = 0%nat
    ∧ Count clientId slash = 0%nat.
Proof.
  intros Hsplit Hlen. eexists. split; [by apply Import_ok|].
  split; [done|].
  pose proof (Split_pieces (Id d) slash) as Hp. rewrite Hsplit in Hp.
  apply Forall_cons in Hp as [H1 Hp]. apply Forall_cons in Hp as [H2 _].
  done.
Qed.

(** X13: the importer never talks to the transport: it leaves the remote
    alone and adds no call to the trace, and when it rejects the identifier
    it adds nothing at all. *)
Theorem import_is_local {Remote} (d : ResourceData) (w : World Remote) :
  remote (resourceAwsCognitoUserPoolClientImport d w).2 = remote w
  ∧ calls (trace (resourceAwsCognitoUserPoolClientImport d w).2)
    = calls (trace w)
  ∧ ((resourceAwsCognitoUserPoolClientImport d w).1.2 = None
     ∨ (resourceAwsCognitoUserPoolClientImport d w).2 = w).
Proof.
  unfold resourceAwsCognitoUserPoolClientImport.
  destruct (_ || _); simpl; [by split_and!; [..|right]|].
  split_and!; [done| |by left].
  unfold calls. by rewrite filter_app, filter_cons, filter_nil, app_nil_r.
Qed.

(** ** The properties above at concrete inputs *)

Lemma flatten_expand_normal_witness :
  normalBlock (mkAnalyticsBlock (Some "app") None (Some "ext") None (Some true))
  ∧ flattenAwsCognitoUserPoolClientAnalyticsConfig
      (expandAwsCognitoUserPoolClientAnalyticsConfig
         [mkAnalyticsBlock (Some "app") None (Some "ext") None (Some true)])
    = [mkAnalyticsBlock (Some "app") None (Some "ext") None (Some true)].
Proof.
  assert (H : normalBlock
                (mkAnalyticsBlock (Some "app") None (Some "ext") None
                   (Some true))).
  { unfold normalBlock; simpl. split_and!; done. }
  split; [exact H|]. exact (flatten_expand_normal _ [] H).
Defined.

Lemma expand_flatten_normal_witness :
  normalConfig
    (AnalyticsConfigurationType.mk (Some "arn:aws:mobiletargeting:app") None
       None None (Some false))
  ∧ expandAwsCognitoUserPoolClientAnalyticsConfig
      (flattenAwsCognitoUserPoolClientAnalyticsConfig
         (Some (AnalyticsConfigurationType.mk
                  (Some "arn:aws:mobiletargeting:app") None None None
                  (Some false))))
    = Some (AnalyticsConfigurationType.mk (Some "arn:aws:mobiletargeting:app")
              None None None (Some false)).
Proof.
  assert (H : normalConfig
                (AnalyticsConfigurationType.mk
                   (Some "arn:aws:mobiletargeting:app") None None None
                   (Some false))).
  { unfold normalConfig; simpl. split_and!; done. }
  split; [exact H|]. exact (proj1 (expand_flatten_normal _ H)).
Defined.

Lemma create_failure_witness :
  CreateUserPoolClient (failingRemote throttled) (createParams exampleClient)
    (remote (world0 tt)) = (Err throttled, tt)
  ∧ (resourceAwsCognitoUserPoolClientCreate (failingRemote throttled)
       exampleClient (world0 tt)).1
    = (exampleClient,
       Some (Errorf ("Error creating Cognito User Pool Client: "
                     +:+ Error throttled))).
Proof.
  assert (H : CreateUserPoolClient (failingRemote throttled)
                (createParams exampleClient) (remote (world0 tt))
              = (Err throttled, tt)) by reflexivity.
  split; [exact H|].
  exact (proj1 (create_failure (failingRemote throttled) exampleClient
                  (world0 tt) throttled tt H)).
Defined.

Lemma create_then_read_witness :
  CreateUserPoolClient (echoRemote "c-1" None) (createParams exampleClient)
    (remote (world0 None))
  = (Ok (echoCreate "c-1" None (createParams exampleClient)), remoteWithClient)
  ∧ resourceAwsCognitoUserPoolClientCreate (echoRemote "c-1" None)
      exampleClient (world0 None)
    = resourceAwsCognitoUserPoolClientRead (echoRemote "c-1" None)
        (SetId (aws_StringValue
                  (UserPoolClientType.ClientId
                     (echoCreate "c-1" None (createParams exampleClient))))
           exampleClient)
        (after (world0 None) remoteWithClient
           [LogPrintf "[DEBUG] Creating Cognito User Pool Client: %s"
              [ArgCreate (createParams exampleClient)];
            CallCreate (createParams exampleClient)]).
Proof.
  assert (H : CreateUserPoolClient (echoRemote "c-1" None)
                (createParams exampleClient) (remote (world0 None))
              = (Ok (echoCreate "c-1" None (createParams exampleClient)),
                 remoteWithClient)) by reflexivity.
  split; [exact H|].
  exact (proj1 (create_then_read (echoRemote "c-1" None) exampleClient
                  (world0 None) _ _ H)).
Defined.

Lemma update_failure_witness :
  UpdateUserPoolClient (failingRemote throttled) (updateParams createdClient)
    (remote (world0 tt)) = (Err throttled, tt)
  ∧ (resourceAwsCognitoUserPoolClientUpdate (failingRemote throttled)
       createdClient (world0 tt)).1
    = (createdClient,
       Some (Errorf ("Error updating Cognito User Pool Client: "
                     +:+ Error throttled))).
Proof.
  assert (H : UpdateUserPoolClient (failingRemote throttled)
                (updateParams createdClient) (remote (world0 tt))
              = (Err throttled, tt)) by reflexivity.
  split; [exact H|].
  exact (proj1 (update_failure (failingRemote throttled) createdClient
                  (world0 tt) throttled tt H)).
Defined.

Lemma import_then_read_identity_witness :
  Split (Id (SetId "pool123/clientABC" emptyResourceData)) slash
  = ["pool123"; "clientABC"]
  ∧ (3 ≤ String.length (Id (SetId "pool123/clientABC" emptyResourceData)))%nat
  ∧ ∃ d',
      (resourceAwsCognitoUserPoolClientImport
         (SetId "pool123/clientABC" emptyResourceData) (world0 tt)).1
      = ([d'], None)
      ∧ describeParams d'
        = {| DescribeUserPoolClientInput.ClientId := Some "clientABC";
             DescribeUserPoolClientInput.UserPoolId := Some "pool123" |}
      ∧ Count "pool123" slash = 0%nat
      ∧ Count "clientABC" slash = 0%nat.
Proof.
  assert (H1 : Split (Id (SetId "pool123/clientABC" emptyResourceData)) slash
               = ["pool123"; "clientABC"]) by reflexivity.
  assert (H2 : (3 ≤ String.length
                      (Id (SetId "pool123/clientABC" emptyResourceData)))%nat)
    by (simpl; lia).
  split_and!; [exact H1|exact H2|].
  exact (import_then_read_identity
           (SetId "pool123/clientABC" emptyResourceData) (world0 tt)
           "pool123" "clientABC" H1 H2).
Defined.

(** ** The life of a client on the echoing remote *)

Lemma holds_same (c : UserPoolClientType.t) :
  holds (Some c) (UserPoolClientType.ClientId c)
    (UserPoolClientType.UserPoolId c) = Some c.
Proof. unfold holds. by rewrite !bool_decide_eq_true_2. Qed.

(** Create on the echoing remote, with the world it leaves. *)
Lemma Create_echo_world (cid : string) (secret : option string)
    (s : ResourceData) (w : World (option UserPoolClientType.t)) :
  let c := echoCreate cid secret (createParams s) in
  resourceAwsCognitoUserPoolClientCreate (echoRemote cid secret) s w
  = ((setFromResponse c (SetId cid s), None),
     after w (Some c)
       [LogPrintf "[DEBUG] Creating Cognito User Pool Client: %s"
          [ArgCreate (createParams s)];
        CallCreate (createParams s);
        LogPrintf "[DEBUG] Reading Cognito User Pool Client: %s"
          [ArgDescribe (describeParams (SetId cid s))];
        CallDescribe (describeParams (SetId cid s))]).
Proof.
  intros c.
  unfold resourceAwsCognitoUserPoolClientCreate,
    resourceAwsCognitoUserPoolClientRead.
  cbv [mbind M_bind mret M_ret log_Printf emit conn_CreateUserPoolClient
       conn_DescribeUserPoolClient trace remote echoRemote after
       CreateUserPoolClient DescribeUserPoolClient].
  unfold holds; simpl.
  rewrite !bool_decide_eq_true_2 by done.
  by rewrite <- !app_assoc.
Qed.

(** Read on the echoing remote when it holds the client [c] under the
    identity of [d]. *)
Lemma Read_echo (cid : string) (secret : option string) (d : ResourceData)
    (c : UserPoolClientType.t) (w : World (option UserPoolClientType.t)) :
  remote w = Some c →
  UserPoolClientType.ClientId c = Some (Id d) →
  UserPoolClientType.UserPoolId c = Some (Get (user_pool_id d)) →
  (resourceAwsCognitoUserPoolClientRead (echoRemote cid secret) d w).1
  = (setFromResponse c d, None)
  ∧ remote (resourceAwsCognitoUserPoolClientRead (echoRemote cid secret) d w).2
    = Some c.
Proof.
  intros Hr Hid Hpool. destruct w as [r t]; simpl in Hr; subst r.
  unfold resourceAwsCognitoUserPoolClientRead.
  cbv [mbind M_bind mret M_ret log_Printf emit conn_DescribeUserPoolClient
       trace remote echoRemote DescribeUserPoolClient describeParams
       aws_String DescribeUserPoolClientInput.ClientId
       DescribeUserPoolClientInput.UserPoolId].
  rewrite <- Hid, <- Hpool, holds_same. done.
Qed.

Lemma setFromResponse_idem (c : UserPoolClientType.t) (d : ResourceData) :
  setFromResponse c (setFromResponse c d) = setFromResponse c d.
Proof. by rewrite (setFromResponse_fields c (setFromResponse c d)),
                  !setFromResponse_fields. Qed.

(** The identity of the state read from a response that carries both ids. *)
Lemma setFromResponse_identity (c : UserPoolClientType.t) (d : ResourceData)
    (cid pool : string) :
  UserPoolClientType.ClientId c = Some cid →
  UserPoolClientType.UserPoolId c = Some pool →
  UserPoolClientType.ClientId c = Some (Id (setFromResponse c d))
  ∧ UserPoolClientType.UserPoolId c
    = Some (Get (user_pool_id (setFromResponse c d))).
Proof.
  intros Hid Hpool. rewrite setFromResponse_fields. simpl.
  by rewrite Hid, Hpool.
Qed.

(** X14: no drift after Create.  On the echoing remote, a Read that follows a
    Create succeeds and leaves the resource data exactly as Create left it. *)
Theorem read_after_create_is_stable (cid : string) (secret : option string)
    (s : ResourceData) (w : World (option UserPoolClientType.t)) :
  let conn := echoRemote cid secret in
  let r := resourceAwsCognitoUserPoolClientCreate conn s w in
  (resourceAwsCognitoUserPoolClientRead conn r.1.1 r.2).1 = (r.1.1, None).
Proof.
  intros conn r. unfold r, conn. rewrite Create_echo_world.
  cbn [fst snd].
  destruct (setFromResponse_identity
              (echoCreate cid secret (createParams s)) (SetId cid s)
              cid (Get (user_pool_id s)) eq_refl eq_refl) as [Hid Hpool].
  generalize dependent (echoCreate cid secret (createParams s)).
  intros c Hid Hpool.
  destruct (Read_echo cid secret (setFromResponse c (SetId cid s)) c
              (after w (Some c)
                 [LogPrintf "[DEBUG] Creating Cognito User Pool Client: %s"
                    [ArgCreate (createParams s)];
                  CallCreate (createParams s);
                  LogPrintf "[DEBUG] Reading Cognito User Pool Client: %s"
                    [ArgDescribe (describeParams (SetId cid s))];
                  CallDescribe (describeParams (SetId cid s))])
              eq_refl Hid Hpool) as [Hread _].
  by rewrite Hread, setFromResponse_idem.
Qed.

(** X15: Create, Delete, Read.  On the echoing remote, deleting a client that
    was just created succeeds and removes it, and the Read that follows finds
    it gone: it returns no error and clears the id. *)
Theorem create_delete_read (cid : string) (secret : option string)
    (s : ResourceData) (w : World (option UserPoolClientType.t)) :
  let conn := echoRemote cid secret in
  let r1 := resourceAwsCognitoUserPoolClientCreate conn s w in
  let r2 := resourceAwsCognitoUserPoolClientDelete conn r1.1.1 r1.2 in
  let r3 := resourceAwsCognitoUserPoolClientRead conn r2.1.1 r2.2 in
  r1.1.2 = None
  ∧ r2.1 = (r1.1.1, None)
  ∧ remote r2.2 = None
  ∧ r3.1 = (SetId EmptyString r1.1.1, None)
  ∧ Id r3.1.1 = EmptyString.
Proof.
  intros conn r1 r2 r3. unfold r3, r2, r1, conn.
  rewrite Create_echo_world. cbn [fst snd].
  destruct (setFromResponse_identity
              (echoCreate cid secret (createParams s)) (SetId cid s)
              cid (Get (user_pool_id s)) eq_refl eq_refl) as [Hid Hpool].
  generalize dependent (echoCreate cid secret (createParams s)).
  intros c Hid Hpool.
  set (d1 := setFromResponse c (SetId cid s)) in *.
  rewrite Delete_run.
  assert (Hdel : DeleteUserPoolClient (echoRemote cid secret) (deleteParams d1)
                   (Some c) = (None, None)).
  { cbv [echoRemote DeleteUserPoolClient deleteParams aws_String
         DeleteUserPoolClientInput.ClientId
         DeleteUserPoolClientInput.UserPoolId].
    by rewrite <- Hid, <- Hpool, holds_same. }
  cbn [remote after]. rewrite Hdel. cbn [fst snd fmap option_fmap option_map].
  split_and!; [done|done|done| |done].
  unfold resourceAwsCognitoUserPoolClientRead.
  cbv [mbind M_bind mret M_ret log_Printf emit conn_DescribeUserPoolClient
       trace remote echoRemote DescribeUserPoolClient holds].
  reflexivity.
Qed.

Section ValidatedUpdate.
Variable ExplicitAuthFlowsType_Values : list string.
Variable OAuthFlowType_Values : list string.
Variable validateCognitoUserPoolClientURL : SchemaValidateFunc.
Variable validateArn : SchemaValidateFunc.

(** X16: the round trip of Update.  For a validated state whose identity the
    echoing remote holds, Update followed by its Read-back succeeds, keeps
    the id, and yields a state equal to the desired one on every attribute that
    is not [Computed], an unset attribute counting as its zero value. *)
Theorem update_roundtrip_echo (cid : string) (secret : option string)
    (d : ResourceData) (c0 : UserPoolClientType.t)
    (w : World (option UserPoolClientType.t)) :
  validate ExplicitAuthFlowsType_Values OAuthFlowType_Values
    validateCognitoUserPoolClientURL validateArn d = [] →
  holds (remote w) (Some (Id d)) (Some (Get (user_pool_id d))) = Some c0 →
  ∃ d',
    (resourceAwsCognitoUserPoolClientUpdate (echoRemote cid secret) d w).1
    = (d', None)
    ∧ Id d' = Id d
    ∧ equalOnNonComputed d d'
    ∧ client_secret d' = secret.
Proof.
  intros Hlen%validate_analytics_MaxItems Hholds.
  assert (Hcall : UpdateUserPoolClient (echoRemote cid secret) (updateParams d)
                    (remote w)
                  = (Ok (echoUpdate secret (updateParams d)),
                     Some (echoUpdate secret (updateParams d)))).
  { simpl. unfold aws_String. by rewrite Hholds. }
  rewrite (Update_Ok _ d w _ _ Hcall).
  destruct (Read_echo cid secret d (echoUpdate secret (updateParams d))
              (after w (Some (echoUpdate secret (updateParams d)))
                 [LogPrintf "[DEBUG] Updating Cognito User Pool Client: %s"
                    [ArgUpdate (updateParams d)];
                  CallUpdate (updateParams d)])) as [Hread _]; try done.
  rewrite Hread. eexists. split; [done|].
  destruct (flatten_expand_analytics _ Hlen) as [Hblocks _].
  rewrite setFromResponse_fields.
  unfold equalOnNonComputed; simpl.
  unfold aws_String, aws_Bool, aws_Int64.
  rewrite !flatten_expand, !Get_whenOk_GetOk. by split_and!.
Qed.

End ValidatedUpdate.

Lemma update_roundtrip_echo_witness :
  exampleValidate createdClient = []
  ∧ holds (remote (world0 remoteWithClient)) (Some (Id createdClient))
      (Some (Get (user_pool_id createdClient)))
    = remoteWithClient
  ∧ ∃ d',
      (resourceAwsCognitoUserPoolClientUpdate (echoRemote "c-1" None)
         createdClient (world0 remoteWithClient)).1 = (d', None)
      ∧ Id d' = Id createdClient
      ∧ equalOnNonComputed createdClient d'
      ∧ client_secret d' = None.
Proof.
  assert (H1 : exampleValidate createdClient = []) by reflexivity.
  assert (H2 : holds (remote (world0 remoteWithClient))
                 (Some (Id createdClient))
                 (Some (Get (user_pool_id createdClient)))
               = remoteWithClient) by reflexivity.
  split_and!; [exact H1|exact H2|].
  exact (update_roundtrip_echo sdk_ExplicitAuthFlowsType_Values
           sdk_OAuthFlowType_Values acceptAll acceptAll "c-1" None
           createdClient _ (world0 remoteWithClient) H1 H2).
Defined.

(** ** The rules of the schema *)

Lemma validateItems_too_many (k : string) (s : FieldSchema) (max n : nat) :
  MaxItems s = max → (0 < max)%nat → (max < n)%nat →
  TooManyItems k max n ∈ validateItems k s n.
Proof.
  intros <- H0 Hn. unfold validateItems. apply elem_of_app. left.
  rewrite !bool_decide_eq_true_2 by done. simpl. by left.
Qed.

Lemma validateItems_too_few (k : string) (s : FieldSchema) (min n : nat) :
  MinItems s = min → (0 < min)%nat → (n < min)%nat →
  TooFewItems k min n ∈ validateItems k s n.
Proof.
  intros <- H0 Hn. unfold validateItems. apply elem_of_app. right.
  rewrite !bool_decide_eq_true_2 by done. simpl. by left.
Qed.

(** Whether a key of the first analytics block is set. *)
Lemma isSet_analytics (d : ResourceData) (m : AnalyticsBlock)
    (l : list AnalyticsBlock) :
  analytics_configuration d = Some (m :: l) →
  isSet d "analytics_configuration.0.application_id"
  = bool_decide (is_Some (application_id m))
  ∧ isSet d "analytics_configuration.0.application_arn"
    = bool_decide (is_Some (application_arn m))
  ∧ isSet d "analytics_configuration.0.external_id"
    = bool_decide (is_Some (external_id m))
  ∧ isSet d "analytics_configuration.0.role_arn"
    = bool_decide (is_Some (role_arn m)).
Proof.
  intros Hd. unfold isSet, lookupPath, attr; simpl. rewrite Hd; simpl.
  unfold blockAttr; simpl.
  split_and!;
    [destruct (application_id m)|destruct (application_arn m)
    |destruct (external_id m)|destruct (role_arn m)]; reflexivity.
Qed.

Section SchemaRules.
Variable ExplicitAuthFlowsType_Values : list string.
Variable OAuthFlowType_Values : list string.
Variable validateCognitoUserPoolClientURL : SchemaValidateFunc.
Variable validateArn : SchemaValidateFunc.

Local Abbreviation validate' :=
  (validate ExplicitAuthFlowsType_Values OAuthFlowType_Values
            validateCognitoUserPoolClientURL validateArn).

(** A violation found in the first analytics block is reported. *)
Lemma validate_analytics_block (d : ResourceData) (m : AnalyticsBlock)
    (l : list AnalyticsBlock) (i : nat) (k : string) (s : FieldSchema)
    (v : ConstraintViolation) :
  analytics_configuration d = Some (m :: l) →
  analyticsConfigurationSchema validateArn !! i = Some (k, s) →
  v ∈ validateGate d ("analytics_configuration.0." +:+ k) s (blockAttr m k)
        (validatePrimitive ("analytics_configuration.0." +:+ k) s) →
  v ∈ validate' d.
Proof.
  intros Hd Hk Hv.
  eapply (validate_attribute _ _ _ _ d 16); [reflexivity|].
  replace (attr d "analytics_configuration") with (Some (VList (m :: l)))
    by (unfold attr; simpl; by rewrite Hd).
  apply validateGate_optional; [reflexivity|reflexivity|].
  unfold validateType. apply elem_of_app. right.
  cbn [Elem]. apply list_elem_of_bind.
  exists (0%nat, m). split; [|by left].
  unfold validateObject. apply list_elem_of_bind.
  exists (k, s). split; [|by eapply list_elem_of_lookup_2].
  replace ("analytics_configuration" +:+ "." +:+ pretty 0%nat)
    with "analytics_configuration.0" by (by vm_compute).
  replace ("analytics_configuration.0" +:+ "." +:+ k)
    with ("analytics_configuration.0." +:+ k) by done.
  done.
Qed.

(** X17: the bounds on the number of items.  A set or list that is set and
    has more elements than the [MaxItems] of its attribute is reported: more
    than 3 OAuth flows, 50 OAuth scopes, 100 callback URLs, 100 logout URLs or
    one analytics block; and so is an analytics list with no block at all. *)
Theorem item_bounds (d : ResourceData) :
  (∀ xs, allowed_oauth_flows d = Some xs → (3 < size xs)%nat →
     TooManyItems "allowed_oauth_flows" 3 (size xs) ∈ validate' d)
  ∧ (∀ xs, allowed_oauth_scopes d = Some xs → (50 < size xs)%nat →
       TooManyItems "allowed_oauth_scopes" 50 (size xs) ∈ validate' d)
  ∧ (∀ xs, callback_urls d = Some xs → (100 < size xs)%nat →
       TooManyItems "callback_urls" 100 (size xs) ∈ validate' d)
  ∧ (∀ xs, logout_urls d = Some xs → (100 < size xs)%nat →
       TooManyItems "logout_urls" 100 (size xs) ∈ validate' d)
  ∧ (∀ l, analytics_configuration d = Some l → (1 < length l)%nat →
       TooManyItems "analytics_configuration" 1 (length l) ∈ validate' d)
  ∧ (analytics_configuration d = Some [] →
     TooFewItems "analytics_configuration" 1 0 ∈ validate' d).
Proof.
  split_and!.
  - intros xs E Hn. eapply (validate_attribute _ _ _ _ d 8); [reflexivity|].
    replace (attr d "allowed_oauth_flows") with (Some (VSet xs))
      by (unfold attr; simpl; by rewrite E).
    apply validateGate_optional; [reflexivity|reflexivity|].
    unfold validateType. apply elem_of_app. left.
    apply validateItems_too_many; [reflexivity|lia|done].
  - intros xs E Hn. eapply (validate_attribute _ _ _ _ d 10); [reflexivity|].
    replace (attr d "allowed_oauth_scopes") with (Some (VSet xs))
      by (unfold attr; simpl; by rewrite E).
    apply validateGate_optional; [reflexivity|reflexivity|].
    unfold validateType. apply elem_of_app. left.
    apply validateItems_too_many; [reflexivity|lia|done].
  - intros xs E Hn. eapply (validate_attribute _ _ _ _ d 11); [reflexivity|].
    replace (attr d "callback_urls") with (Some (VSet xs))
      by (unfold attr; simpl; by rewrite E).
    apply validateGate_optional; [reflexivity|reflexivity|].
    unfold validateType. apply elem_of_app. left.
    apply validateItems_too_many; [reflexivity|lia|done].
  - intros xs E Hn. eapply (validate_attribute _ _ _ _ d 13); [reflexivity|].
    replace (attr d "logout_urls") with (Some (VSet xs))
      by (unfold attr; simpl; by rewrite E).
    apply validateGate_optional; [reflexivity|reflexivity|].
    unfold validateType. apply elem_of_app. left.
    apply validateItems_too_many; [reflexivity|lia|done].
  - intros l E Hn. eapply (validate_attribute _ _ _ _ d 16); [reflexivity|].
    replace (attr d "analytics_configuration") with (Some (VList l))
      by (unfold attr; simpl; by rewrite E).
    apply validateGate_optional; [reflexivity|reflexivity|].
    unfold validateType. apply elem_of_app. left.
    apply validateItems_too_many; [reflexivity|lia|done].
  - intros E. eapply (validate_attribute _ _ _ _ d 16); [reflexivity|].
    replace (attr d "analytics_configuration") with (Some (VList []))
      by (unfold attr; simpl; by rewrite E).
    apply validateGate_optional; [reflexivity|reflexivity|].
    unfold validateType. apply elem_of_app. left.
    apply validateItems_too_few; [reflexivity|lia|simpl; lia].
Qed.

(** X18: exactly one of [application_id] and [application_arn].  An analytics
    block in which both keys are set, or neither is, is reported. *)
Theorem analytics_exactly_one_of (d : ResourceData) (m : AnalyticsBlock)
    (l : list AnalyticsBlock) :
  analytics_configuration d = Some (m :: l) →
  (is_Some (application_id m) ∧ is_Some (application_arn m))
  ∨ (application_id m = None ∧ application_arn m = None) →
  ∃ specified,
    NotExactlyOneOf "analytics_configuration.0.application_id"
      ["analytics_configuration.0.application_id";
       "analytics_configuration.0.application_arn"] specified
    ∈ validate' d.
Proof.
  intros Hd Hm.
  destruct (isSet_analytics d m l Hd) as (Hid & Harn & _ & _).
  assert (Hboth : (isSet d "analytics_configuration.0.application_id" = true
                   ∧ isSet d "analytics_configuration.0.application_arn" = true)
                  ∨ (isSet d "analytics_configuration.0.application_id" = false
                     ∧ isSet d "analytics_configuration.0.application_arn"
                       = false)).
  { rewrite Hid, Harn. destruct Hm as [[[? ->] [? ->]]|[-> ->]];
      [by left|by right]. }
  clear Hid Harn.
  destruct Hboth as [[H1 H2]|[H1 H2]]; eexists;
    (eapply (validate_analytics_block d m l 0); [done|reflexivity|]);
    unfold validateGate; apply elem_of_app; left;
    unfold validateExactlyOneAttribute; cbn [ExactlyOneOf];
    rewrite !filter_cons, filter_nil, H1, H2; simpl; by left.
Qed.

(** X19: [application_arn] conflicts with [external_id] and with [role_arn].
    An analytics block that sets [application_arn] together with either of
    them is reported. *)
Theorem analytics_conflicts (d : ResourceData) (m : AnalyticsBlock)
    (l : list AnalyticsBlock) :
  analytics_configuration d = Some (m :: l) →
  is_Some (application_arn m) →
  (is_Some (external_id m) →
   ConflictsWith "analytics_configuration.0.application_arn"
     "analytics_configuration.0.external_id" ∈ validate' d)
  ∧ (is_Some (role_arn m) →
     ConflictsWith "analytics_configuration.0.application_arn"
       "analytics_configuration.0.role_arn" ∈ validate' d).
Proof.
  intros Hd [arn Harn].
  destruct (isSet_analytics d m l Hd) as (_ & _ & Hext & Hrole).
  assert (Hgate : ∀ other,
    other ∈ filter (λ p, isSet d p = true)
              ["analytics_configuration.0.external_id";
               "analytics_configuration.0.role_arn"] →
    ConflictsWith "analytics_configuration.0.application_arn" other
    ∈ validate' d).
  { intros other Hother.
    eapply (validate_analytics_block d m l 1);
      [done|reflexivity|].
    unfold validateGate. apply elem_of_app. right.
    unfold blockAttr; simpl. rewrite Harn. simpl.
    apply elem_of_app. left. unfold validateConflictingAttributes.
    by apply list_elem_of_fmap_2. }
  split; intros [? Hset]; apply Hgate; apply list_elem_of_filter.
  - split; [by rewrite Hext, Hset|by left].
  - split; [by rewrite Hrole, Hset|by right; left].
Qed.

(** X20: required and computed-only attributes.  A state without [name] or
    without [user_pool_id] is reported, and so is a state that sets
    [client_secret], which is computed only: the secret is never accepted as
    input. *)
Theorem required_and_computed_only (d : ResourceData) :
  (name d = None → MissingRequired "name" ∈ validate' d)
  ∧ (user_pool_id d = None → MissingRequired "user_pool_id" ∈ validate' d)
  ∧ (is_Some (client_secret d) → CannotBeSet "client_secret" ∈ validate' d).
Proof.
  split_and!.
  - intros E. eapply (validate_attribute _ _ _ _ d 0); [reflexivity|].
    replace (attr d "name") with (@None Value)
      by (unfold attr; simpl; by rewrite E).
    by left.
  - intros E. eapply (validate_attribute _ _ _ _ d 3); [reflexivity|].
    replace (attr d "user_pool_id") with (@None Value)
      by (unfold attr; simpl; by rewrite E).
    by left.
  - intros [v E]. eapply (validate_attribute _ _ _ _ d 1); [reflexivity|].
    replace (attr d "client_secret") with (Some (VString v))
      by (unfold attr; simpl; by rewrite E).
    by left.
Qed.

(** X21: the range of [refresh_token_validity].  A value below 0 or above 3650
    is reported; a value from 0 to 3650 passes the range check. *)
Theorem refresh_token_validity_range (d : ResourceData) (v : Z) :
  (refresh_token_validity d = Some v → (v < 0 ∨ 3650 < v)%Z →
   NotBetween "refresh_token_validity" 0 3650 v ∈ validate' d)
  ∧ ((0 ≤ v ≤ 3650)%Z →
     IntBetween 0 3650 (VInt v) "refresh_token_validity" = []).
Proof.
  split.
  - intros E Hv. eapply (validate_attribute _ _ _ _ d 7); [reflexivity|].
    replace (attr d "refresh_token_validity") with (Some (VInt v))
      by (unfold attr; simpl; by rewrite E).
    apply validateGate_optional; [reflexivity|reflexivity|].
    unfold validateType, validatePrimitive, IntBetween. cbn [ValidateFunc field].
    destruct (bool_decide (v < 0)%Z || bool_decide (v > 3650)%Z) eqn:Hb;
      [by left|].
    apply orb_false_iff in Hb as [H1 H2].
    apply bool_decide_eq_false in H1, H2. lia.
  - intros Hv. unfold IntBetween.
    rewrite !bool_decide_eq_false_2 by lia. done.
Qed.

End SchemaRules.

Lemma item_bounds_witness :
  analytics_configuration
    (Set_analytics_configuration (Some [blockById; blockById]) exampleClient)
  = Some [blockById; blockById]
  ∧ (1 < length [blockById; blockById])%nat
  ∧ TooManyItems "analytics_configuration" 1 (length [blockById; blockById])
    ∈ exampleValidate
        (Set_analytics_configuration (Some [blockById; blockById])
           exampleClient).
Proof.
  assert (H1 : analytics_configuration
                 (Set_analytics_configuration (Some [blockById; blockById])
                    exampleClient)
               = Some [blockById; blockById]) by reflexivity.
  assert (H2 : (1 < length [blockById; blockById])%nat) by (simpl; lia).
  split_and!; [exact H1|exact H2|].
  exact (proj1 (proj2 (proj2 (proj2 (proj2
           (item_bounds sdk_ExplicitAuthFlowsType_Values
              sdk_OAuthFlowType_Values acceptAll acceptAll
              (Set_analytics_configuration (Some [blockById; blockById])
                 exampleClient)))))) _ H1 H2).
Defined.

Lemma analytics_exactly_one_of_witness :
  analytics_configuration
    (Set_analytics_configuration (Some [blockByIdAndArn]) exampleClient)
  = Some [blockByIdAndArn]
  ∧ (is_Some (application_id blockByIdAndArn)
     ∧ is_Some (application_arn blockByIdAndArn))
  ∧ ∃ specified,
      NotExactlyOneOf "analytics_configuration.0.application_id"
        ["analytics_configuration.0.application_id";
         "analytics_configuration.0.application_arn"] specified
      ∈ exampleValidate
          (Set_analytics_configuration (Some [blockByIdAndArn]) exampleClient).
Proof.
  assert (H1 : analytics_configuration
                 (Set_analytics_configuration (Some [blockByIdAndArn])
                    exampleClient)
               = Some [blockByIdAndArn]) by reflexivity.
  assert (H2 : is_Some (application_id blockByIdAndArn)
               ∧ is_Some (application_arn blockByIdAndArn))
    by (split; simpl; by eexists).
  split; [exact H1|]. split; [exact H2|].
  apply (analytics_exactly_one_of sdk_ExplicitAuthFlowsType_Values
           sdk_OAuthFlowType_Values acceptAll acceptAll _ _ _ H1).
  left. exact H2.
Defined.

Lemma analytics_conflicts_witness :
  analytics_configuration
    (Set_analytics_configuration (Some [blockByIdAndArn]) exampleClient)
  = Some [blockByIdAndArn]
  ∧ is_Some (application_arn blockByIdAndArn)
  ∧ is_Some (external_id blockByIdAndArn)
  ∧ ConflictsWith "analytics_configuration.0.application_arn"
      "analytics_configuration.0.external_id"
    ∈ exampleValidate
        (Set_analytics_configuration (Some [blockByIdAndArn]) exampleClient).
Proof.
  assert (H1 : analytics_configuration
                 (Set_analytics_configuration (Some [blockByIdAndArn])
                    exampleClient)
               = Some [blockByIdAndArn]) by reflexivity.
  assert (H2 : is_Some (application_arn blockByIdAndArn))
    by (simpl; by eexists).
  assert (H3 : is_Some (external_id blockByIdAndArn))
    by (simpl; by eexists).
  split_and!; [exact H1|exact H2|exact H3|].
  exact (proj1 (analytics_conflicts sdk_ExplicitAuthFlowsType_Values
                  sdk_OAuthFlowType_Values acceptAll acceptAll _ _ _ H1 H2)
           H3).
Defined.

Lemma required_and_computed_only_witness :
  name emptyResourceData = None
  ∧ MissingRequired "name" ∈ exampleValidate emptyResourceData.
Proof.
  assert (H : name emptyResourceData = None) by reflexivity.
  split; [exact H|].
  exact (proj1 (required_and_computed_only sdk_ExplicitAuthFlowsType_Values
                  sdk_OAuthFlowType_Values acceptAll acceptAll
                  emptyResourceData) H).
Defined.

Lemma refresh_token_validity_range_witness :
  refresh_token_validity
    (Set_refresh_token_validity (Some 4000%Z) exampleClient) = Some 4000%Z
  ∧ (4000 < 0 ∨ 3650 < 4000)%Z
  ∧ NotBetween "refresh_token_validity" 0 3650 4000
    ∈ exampleValidate (Set_refresh_token_validity (Some 4000%Z) exampleClient).
Proof.
  assert (H1 : refresh_token_validity
                 (Set_refresh_token_validity (Some 4000%Z) exampleClient)
               = Some 4000%Z) by reflexivity.
  assert (H2 : (4000 < 0 ∨ 3650 < 4000)%Z) by lia.
  split_and!; [exact H1|exact H2|].
  exact (proj1 (refresh_token_validity_range sdk_ExplicitAuthFlowsType_Values
                  sdk_OAuthFlowType_Values acceptAll acceptAll _ 4000%Z)
           H1 H2).
Defined.

(** * Properties of the acceptance-test helpers *)

Section DestroyCheck.
Variable GlobalReplicationGroupByID :
  string → result elasticache.GlobalReplicationGroup.
Variable NotFound : option error → bool.

Local Abbreviation Destroy :=
  (testAccCheckAWSElasticacheGlobalReplicationGroupDestroy
     GlobalReplicationGroupByID NotFound).

Local Abbreviation stillThere' :=
  (stillThere GlobalReplicationGroupByID NotFound).

Lemma Destroy_nil (rss : list terraform.ResourceState) :
  Destroy rss = None ↔ Forall (λ rs, ¬ stillThere' rs) rss.
Proof.
  unfold stillThere, globalReplicationGroupType.
  induction rss as [|rs rss IH]; simpl; [by split; [constructor|]|].
  rewrite Forall_cons. case_bool_decide as Ht.
  - rewrite IH. split; [|by intros [_ ?]].
    intros H. split; [by intros [? _]|done].
  - destruct (NotFound _) eqn:Hnf.
    + rewrite IH. split; [|by intros [_ ?]].
      intros H. split; [|done]. intros [_ Hf]. congruence.
    + split; [by destruct (errOf _)|]. intros [Hrs _]. by destruct Hrs.
Qed.

(** X22: the destroy check succeeds exactly when every resource of type
    [aws_elasticache_global_replication_group] in the state is not found by
    the finder, in whatever order the resources of the state are visited. *)
Theorem destroy_check_succeeds_iff (s : gmap string terraform.ResourceState)
    (rss : list terraform.ResourceState) :
  rss ≡ₚ (map_to_list s).*2 →
  (Destroy rss = None
   ↔ ∀ name rs, s !! name = Some rs →
       terraform.ResourceType rs = globalReplicationGroupType →
       NotFound (errOf (GlobalReplicationGroupByID (terraform.PrimaryID rs)))
       = true).
Proof.
  intros Hperm. rewrite Destroy_nil, Forall_forall. unfold stillThere.
  split.
  - intros H name rs Hrs Ht.
    destruct (NotFound _) eqn:Hnf; [done|]. destruct (H rs); [|done].
    rewrite Hperm. apply list_elem_of_fmap. exists (name, rs).
    split; [done|]. by apply elem_of_map_to_list.
  - intros H rs Hin [Ht Hnf]. rewrite Hperm in Hin.
    apply list_elem_of_fmap in Hin as ([name rs'] & -> & Hin).
    apply elem_of_map_to_list in Hin. simpl in *.
    rewrite (H name rs' Hin Ht) in Hnf. done.
Qed.

(** X23: the destroy check never looks at a resource of another type: its
    result is that of the check on the resources of the checked type alone.
    When it fails, the error comes from a resource of that type that the
    finder did not report as not found: the finder's own error, or the
    "still exists" error when the finder found the group. *)
Theorem destroy_check_other_types (rss : list terraform.ResourceState) :
  Destroy rss
  = Destroy (filter (λ rs, terraform.ResourceType rs
                           = globalReplicationGroupType) rss)
  ∧ ∀ e, Destroy rss = Some e →
      ∃ rs, rs ∈ rss ∧ stillThere' rs
            ∧ e = default
                    (Errorf ("ElastiCache Global Replication Group ("
                             +:+ terraform.PrimaryID rs +:+ ") still exists"))
                    (errOf (GlobalReplicationGroupByID
                              (terraform.PrimaryID rs))).
Proof.
  unfold stillThere, globalReplicationGroupType. split.
  - induction rss as [|rs rss IH]; [done|]. rewrite filter_cons. simpl.
    case_bool_decide as Ht.
    + by rewrite decide_False.
    + rewrite decide_True by done. simpl.
      rewrite bool_decide_eq_false_2 by (by intros ?).
      by rewrite IH.
  - induction rss as [|rs rss IH]; intros e; simpl; [done|].
    case_bool_decide as Ht.
    + intros (rs' & ? & ?)%IH. exists rs'. split; [by right|done].
    + destruct (NotFound _) eqn:Hnf.
      * intros (rs' & ? & ?)%IH. exists rs'. split; [by right|done].
      * intros He. exists rs. split; [by left|]. split; [done|].
        destruct (errOf _); by simplify_eq.
Qed.

End DestroyCheck.

Section ExistsCheck.
Variable GlobalReplicationGroupByID :
  string → result elasticache.GlobalReplicationGroup.
Variable Available PrimaryOnly : string.

Local Abbreviation Exists_ :=
  (testAccCheckAWSElasticacheGlobalReplicationGroupExists
     GlobalReplicationGroupByID Available PrimaryOnly).

(** X24: the existence check succeeds exactly when the state has the resource
    with a non-empty id, the finder finds its group, and the status of the
    group is one of the two accepted ones.  On success the found group is
    stored; on failure the stored group is left as it was. *)
Theorem exists_check (resourceName : string)
    (v : elasticache.GlobalReplicationGroup)
    (s : gmap string terraform.ResourceState) :
  let found grg :=
    ∃ rs, s !! resourceName = Some rs
          ∧ terraform.PrimaryID rs ≠ EmptyString
          ∧ GlobalReplicationGroupByID (terraform.PrimaryID rs) = Ok grg
          ∧ (aws_StringValue (elasticache.Status grg) = Available
             ∨ aws_StringValue (elasticache.Status grg) = PrimaryOnly) in
  (∀ grg, found grg → Exists_ resourceName v s = (grg, None))
  ∧ ((Exists_ resourceName v s).2 = None →
     found (Exists_ resourceName v s).1)
  ∧ ((Exists_ resourceName v s).2 ≠ None →
     (Exists_ resourceName v s).1 = v).
Proof.
  intros found. unfold found.
  unfold testAccCheckAWSElasticacheGlobalReplicationGroupExists.
  split_and!.
  - intros grg (rs & -> & Hid & -> & Hstatus).
    rewrite bool_decide_eq_false_2 by done.
    destruct Hstatus as [->| ->].
    + rewrite (bool_decide_eq_false_2 (Available ≠ Available)) by (by intros ?).
      done.
    + rewrite (bool_decide_eq_false_2 (PrimaryOnly ≠ PrimaryOnly))
        by (by intros ?).
      by rewrite andb_false_r.
  - destruct (s !! resourceName) as [rs|]; [|done].
    case_bool_decide as Hid; [done|].
    destruct (GlobalReplicationGroupByID _) as [grg|e] eqn:Hfind; [|done].
    destruct (_ && _) eqn:Hst; [done|]. intros _. simpl.
    exists rs. split_and!; try done.
    apply andb_false_iff in Hst as [Hst|Hst];
      apply bool_decide_eq_false in Hst;
      [left|right]; by apply dec_stable.
  - destruct (s !! resourceName) as [rs|]; [|done].
    case_bool_decide as Hid; [done|].
    destruct (GlobalReplicationGroupByID _) as [grg|e]; [|done].
    by destruct (_ && _).
Qed.

End ExistsCheck.

Section Sweeper.
Context {Remote : Type}.
Variable sharedClientForRegion : string → option error.
Variable deleteElasticacheGlobalReplicationGroup :
  string → Remote → option error * Remote.
Variable testSweepSkipSweepError : option error → bool.

Local Abbreviation sweepGroup' :=
  (sweepGroup deleteElasticacheGlobalReplicationGroup).
Local Abbreviation sweepPage' :=
  (sweepPage deleteElasticacheGlobalReplicationGroup).
Local Abbreviation sweep :=
  (testSweepElasticacheGlobalReplicationGroups sharedClientForRegion
     deleteElasticacheGlobalReplicationGroup testSweepSkipSweepError).

(** What sweeping the groups of a page does: one delete per group, in order,
    whatever the outcome of the ones before; one collected error per failed
    delete. *)
Lemma foldl_sweepGroup (groups : list elasticache.GlobalReplicationGroup)
    (st : SweepState Remote) :
  let st' := foldl sweepGroup' st groups in
  let run := deleteAll deleteElasticacheGlobalReplicationGroup
               (groupIds (Some groups)) (sweepRemote st) in
  deletedIds (sweepEvents st')
  = deletedIds (sweepEvents st) ++ groupIds (Some groups)
  ∧ sweeperErrs st' = sweeperErrs st ++ deletionErrors run.1
  ∧ sweepRemote st' = run.2.
Proof.
  revert st. induction groups as [|g groups IH]; intros st; simpl.
  { by rewrite !app_nil_r. }
  destruct (IH (sweepGroup' st g)) as (IH1 & IH2 & IH3).
  unfold groupIds in *; simpl in *. rewrite IH1, IH2, IH3. clear IH IH1 IH2 IH3.
  unfold sweepGroup, sweepLogPrintf; simpl.
  destruct (deleteElasticacheGlobalReplicationGroup _ (sweepRemote st))
    as [[e|] r]; simpl;
    destruct (deleteAll _ _ r) as [outcomes r']; simpl;
    unfold deletedIds; rewrite !omap_app; simpl;
    rewrite ?app_nil_r, <- ?app_assoc; done.
Qed.

Lemma deleteAll_app (ids1 ids2 : list string) (r : Remote) :
  deleteAll deleteElasticacheGlobalReplicationGroup (ids1 ++ ids2) r
  = let run1 := deleteAll deleteElasticacheGlobalReplicationGroup ids1 r in
    let run2 := deleteAll deleteElasticacheGlobalReplicationGroup ids2 run1.2 in
    (run1.1 ++ run2.1, run2.2).
Proof.
  revert r. induction ids1 as [|id ids1 IH]; intros r; simpl.
  { by destruct (deleteAll _ ids2 r). }
  destruct (deleteElasticacheGlobalReplicationGroup id r) as [e r1].
  rewrite IH. simpl.
  destruct (deleteAll _ ids1 r1) as [o1 r2]; simpl.
  by destruct (deleteAll _ ids2 r2).
Qed.

Lemma deletionErrors_app (o1 o2 : list (string * option error)) :
  deletionErrors (o1 ++ o2) = deletionErrors o1 ++ deletionErrors o2.
Proof. apply omap_app. Qed.

(** The same for the whole listing: the callback carries on until a page is
    flagged as the last one. *)
Lemma Pages_sweepPage
    (deliveries :
       list (option (list elasticache.GlobalReplicationGroup) * bool))
    (st : SweepState Remote) :
  let st' := DescribeGlobalReplicationGroupsPages deliveries sweepPage' st in
  let run := deleteAll deleteElasticacheGlobalReplicationGroup
               (sweptIds deliveries) (sweepRemote st) in
  deletedIds (sweepEvents st')
  = deletedIds (sweepEvents st) ++ sweptIds deliveries
  ∧ sweeperErrs st' = sweeperErrs st ++ deletionErrors run.1
  ∧ sweepRemote st' = run.2.
Proof.
  revert st. unfold sweptIds.
  induction deliveries as [|[page lastPage] rest IH]; intros st; simpl.
  { by rewrite ?app_nil_r. }
  assert (Hpage : ∀ st0 : SweepState Remote,
    let st1 := (sweepPage' page lastPage st0).2 in
    let run := deleteAll deleteElasticacheGlobalReplicationGroup
                 (groupIds page) (sweepRemote st0) in
    (sweepPage' page lastPage st0).1 = negb lastPage
    ∧ deletedIds (sweepEvents st1)
      = deletedIds (sweepEvents st0) ++ groupIds page
    ∧ sweeperErrs st1 = sweeperErrs st0 ++ deletionErrors run.1
    ∧ sweepRemote st1 = run.2).
  { intros st0. destruct page as [groups|]; simpl.
    - split; [done|]. apply foldl_sweepGroup.
    - by rewrite ?app_nil_r. }
  destruct (Hpage st) as (Hc & H1 & H2 & H3).
  destruct (sweepPage' page lastPage st) as [continue st1]; simpl in *.
  subst continue. rewrite deleteAll_app. simpl.
  destruct lastPage; simpl.
  - rewrite !app_nil_r, H1, H2, H3. simpl.
    destruct (deleteAll _ (groupIds page) _); simpl.
    by rewrite ?app_nil_r.
  - destruct (IH st1) as (IH1 & IH2 & IH3).
    rewrite IH1, IH2, IH3, H1, H2, H3.
    rewrite deletionErrors_app, <- !app_assoc. done.
Qed.

(** X25: the sweeper tries to delete every group of every page it gets to
    see, once and in order; a deletion that fails does not keep it from
    trying the next.  It sees the pages up to the first one flagged as last. *)
Theorem sweep_deletes_every_group (region : string)
    (deliveries :
       list (option (list elasticache.GlobalReplicationGroup) * bool))
    (listErr : option error) (r : Remote) :
  sharedClientForRegion region = None →
  deletedIds (sweepEvents (sweep region deliveries listErr r).2)
  = sweptIds deliveries.
Proof.
  intros Hclient. unfold testSweepElasticacheGlobalReplicationGroups.
  rewrite Hclient.
  destruct (Pages_sweepPage deliveries (mkSweepState r [] [])) as (H1 & _ & _).
  simpl in H1.
  destruct (testSweepSkipSweepError listErr); simpl.
  - unfold deletedIds in *. rewrite omap_app. simpl.
    by rewrite app_nil_r.
  - by destruct listErr.
Qed.

(** X26: what the sweeper reports.  Without a client it returns the client
    error, makes no call and logs nothing.  Otherwise it returns the collected
    errors, nil if there are none: one for each deletion that failed, in
    order, and one for a listing error unless that error is one to skip. *)
Theorem sweep_reports (region : string)
    (deliveries :
       list (option (list elasticache.GlobalReplicationGroup) * bool))
    (listErr : option error) (r : Remote) :
  let run := deleteAll deleteElasticacheGlobalReplicationGroup
               (sweptIds deliveries) r in
  let listingErrors :=
    if testSweepSkipSweepError listErr then []
    else match listErr with
         | Some err =>
             [Errorf ("error listing ElastiCache Global Replication Groups: "
                      +:+ Error err)]
         | None => []
         end in
  match sharedClientForRegion region with
  | Some err =>
      sweep region deliveries listErr r
      = (Some (PlainError (Errorf ("error getting client: " +:+ Error err))),
         mkSweepState r [] [])
  | None =>
      (sweep region deliveries listErr r).1
      = ErrorOrNil (deletionErrors run.1 ++ listingErrors)
      ∧ sweeperErrs (sweep region deliveries listErr r).2
        = deletionErrors run.1 ++ listingErrors
      ∧ sweepRemote (sweep region deliveries listErr r).2 = run.2
  end.
Proof.
  intros run listingErrors. unfold testSweepElasticacheGlobalReplicationGroups.
  destruct (sharedClientForRegion region) as [e|]; [done|].
  destruct (Pages_sweepPage deliveries (mkSweepState r [] [])) as (_ & H2 & H3).
  simpl in H2, H3. unfold listingErrors, run.
  destruct (testSweepSkipSweepError listErr); simpl.
  - by rewrite H2, H3, app_nil_r.
  - destruct listErr as [e|]; simpl; rewrite H2, H3, ?app_nil_r; done.
Qed.

End Sweeper.

Lemma destroy_check_succeeds_iff_witness :
  (map_to_list sampleState).*2 ≡ₚ (map_to_list sampleState).*2
  ∧ (testAccCheckAWSElasticacheGlobalReplicationGroupDestroy sampleFinder
       sampleNotFound (map_to_list sampleState).*2 = None
     ↔ ∀ name rs, sampleState !! name = Some rs →
         terraform.ResourceType rs = globalReplicationGroupType →
         sampleNotFound (errOf (sampleFinder (terraform.PrimaryID rs)))
         = true).
Proof.
  assert (H : (map_to_list sampleState).*2 ≡ₚ (map_to_list sampleState).*2)
    by reflexivity.
  split; [exact H|].
  exact (destroy_check_succeeds_iff sampleFinder sampleNotFound sampleState
           _ H).
Defined.

Lemma destroy_check_other_types_witness :
  testAccCheckAWSElasticacheGlobalReplicationGroupDestroy sampleFinder
    sampleNotFound [terraform.mkResourceState globalReplicationGroupType "grg-1"]
  = Some (Errorf "ElastiCache Global Replication Group (grg-1) still exists")
  ∧ ∃ rs,
      rs ∈ [terraform.mkResourceState globalReplicationGroupType "grg-1"]
      ∧ stillThere sampleFinder sampleNotFound rs
      ∧ Errorf "ElastiCache Global Replication Group (grg-1) still exists"
        = default
            (Errorf ("ElastiCache Global Replication Group ("
                     +:+ terraform.PrimaryID rs +:+ ") still exists"))
            (errOf (sampleFinder (terraform.PrimaryID rs))).
Proof.
  assert (H : testAccCheckAWSElasticacheGlobalReplicationGroupDestroy
                sampleFinder sampleNotFound
                [terraform.mkResourceState globalReplicationGroupType "grg-1"]
              = Some (Errorf "ElastiCache Global Replication Group (grg-1) still exists"))
    by reflexivity.
  split; [exact H|].
  exact (proj2 (destroy_check_other_types sampleFinder sampleNotFound
                  [terraform.mkResourceState globalReplicationGroupType
                     "grg-1"]) _ H).
Defined.

Lemma exists_check_witness :
  (∃ rs, ({[ "test" := terraform.mkResourceState globalReplicationGroupType
                         "grg-1" ]} : gmap string terraform.ResourceState)
         !! "test" = Some rs
         ∧ terraform.PrimaryID rs ≠ EmptyString
         ∧ sampleFinder (terraform.PrimaryID rs) = Ok sampleGroup
         ∧ (aws_StringValue (elasticache.Status sampleGroup) = "available"
            ∨ aws_StringValue (elasticache.Status sampleGroup)
              = "primary-only"))
  ∧ testAccCheckAWSElasticacheGlobalReplicationGroupExists sampleFinder
      "available" "primary-only" "test"
      (elasticache.mkGlobalReplicationGroup None None)
      {[ "test" := terraform.mkResourceState globalReplicationGroupType
                     "grg-1" ]}
    = (sampleGroup, None).
Proof.
  assert (H : ∃ rs,
    ({[ "test" := terraform.mkResourceState globalReplicationGroupType
                    "grg-1" ]} : gmap string terraform.ResourceState)
    !! "test" = Some rs
    ∧ terraform.PrimaryID rs ≠ EmptyString
    ∧ sampleFinder (terraform.PrimaryID rs) = Ok sampleGroup
    ∧ (aws_StringValue (elasticache.Status sampleGroup) = "available"
       ∨ aws_StringValue (elasticache.Status sampleGroup) = "primary-only")).
  { eexists. split; [apply lookup_singleton_eq|].
    split_and!; [done|reflexivity|by left]. }
  split; [exact H|].
  exact (proj1 (exists_check sampleFinder "available" "primary-only" "test"
                  (elasticache.mkGlobalReplicationGroup None None) _)
           sampleGroup H).
Defined.

Lemma sweep_deletes_every_group_witness :
  (λ _ : string, @None error) "us-west-2" = None
  ∧ deletedIds
      (sweepEvents
         (testSweepElasticacheGlobalReplicationGroups (λ _, None)
            (λ id (r : unit), (Some throttled, r)) (λ _, false) "us-west-2"
            [(Some [sampleGroup], false); (None, false);
             (Some [sampleGroup; sampleGroup], true);
             (Some [sampleGroup], true)]
            None tt).2)
    = sweptIds
        [(Some [sampleGroup], false); (None, false);
         (Some [sampleGroup; sampleGroup], true);
         (Some [sampleGroup], true)].
Proof.
  assert (H : (λ _ : string, @None error) "us-west-2" = None) by reflexivity.
  split; [exact H|].
  exact (sweep_deletes_every_group (λ _, None)
           (λ id (r : unit), (Some throttled, r)) (λ _, false) "us-west-2"
           _ None tt H).
Defined.
